(** * Visitor management system: appointment scheduler, visit queue, issues

    A shallow embedding of the route handlers of the visitor management
    application, and the properties of its scheduling and queue logic.

    Dates are [Z] milliseconds since the epoch (what [getTime()] returns),
    tables of the relational store are finite maps from the row id to the
    row, and a handler is a computation over the store that either runs to
    its final [NextResponse.json] or leaves early through one. *)

From Stdlib Require Import ZArith QArith Lia Sorted Permutation Ascii DecimalString.
From stdpp Require Import base option list strings gmap.

#[local] Open Scope Z_scope.
#[local] Open Scope string_scope.

(** ** Data model *)

(** Modelled from the spec: the Prisma schema that declares the enums is not
    part of the sources; the members are those the spec's data model lists
    (and the handlers and the seed script name). *)
Module VisitStatus.
Inductive t := IN_PROGRESS | COMPLETED | CANCELLED | NO_SHOW.
Definition eqb (a b : t) : bool :=
  match a, b with
  | IN_PROGRESS, IN_PROGRESS | COMPLETED, COMPLETED
  | CANCELLED, CANCELLED | NO_SHOW, NO_SHOW => true
  | _, _ => false
  end.
End VisitStatus.

(** Modelled from the spec: appointment statuses of the absent schema. *)
Module AppointmentStatus.
Inductive t := PENDING | CONFIRMED | COMPLETED | CANCELLED | NO_SHOW.
Definition eqb (a b : t) : bool :=
  match a, b with
  | PENDING, PENDING | CONFIRMED, CONFIRMED | COMPLETED, COMPLETED
  | CANCELLED, CANCELLED | NO_SHOW, NO_SHOW => true
  | _, _ => false
  end.
End AppointmentStatus.

(** Modelled from the spec: priorities of the absent schema. *)
Module Priority.
Inductive t := URGENT | HIGH | NORMAL | LOW.
Definition eqb (a b : t) : bool :=
  match a, b with
  | URGENT, URGENT | HIGH, HIGH | NORMAL, NORMAL | LOW, LOW => true
  | _, _ => false
  end.
End Priority.

(** Modelled from the spec: issue statuses of the absent schema. *)
Module IssueStatus.
Inductive t := OPEN | IN_PROGRESS | RESOLVED | CLOSED | ESCALATED.
Definition eqb (a b : t) : bool :=
  match a, b with
  | OPEN, OPEN | IN_PROGRESS, IN_PROGRESS | RESOLVED, RESOLVED
  | CLOSED, CLOSED | ESCALATED, ESCALATED => true
  | _, _ => false
  end.
End IssueStatus.

#[global] Instance VisitStatus_eq_dec : EqDecision VisitStatus.t.
Proof. solve_decision. Defined.
#[global] Instance AppointmentStatus_eq_dec : EqDecision AppointmentStatus.t.
Proof. solve_decision. Defined.
#[global] Instance Priority_eq_dec : EqDecision Priority.t.
Proof. solve_decision. Defined.
#[global] Instance IssueStatus_eq_dec : EqDecision IssueStatus.t.
Proof. solve_decision. Defined.

(** Rows.  The row id is the key of the table, not a field.  Columns that no
    handler below reads or computes with (contact and address columns,
    free-text descriptions) are left out. *)
Record Visitor := mkVisitor {
  visitorName : string;
  visitCount : Z;
  lastVisit : option Z;
}.

Record User := mkUser {
  userName : string;
}.

Record Appointment := mkAppointment {
  aTitle : string;
  aVisitorId : string;
  aUserId : string;
  scheduledDate : Z;
  startTime : Z;
  endTime : Z;
  duration : Z;
  aStatus : AppointmentStatus.t;
  priority : Priority.t;
}.

Record Visit := mkVisit {
  vVisitorId : string;
  vUserId : string;
  appointmentId : option string;
  checkInTime : Z;
  checkOutTime : option Z;
  vStatus : VisitStatus.t;
  purpose : option string;
  notes : option string;
  satisfaction : option Z;
}.

Record Issue := mkIssue {
  iTitle : string;
  iDescription : string;
  iPriority : Priority.t;
  iStatus : IssueStatus.t;
  assignedUserId : option string;
  dueDate : option Z;
  resolvedDate : option Z;
  resolution : option string;
}.

(** The store [db]: one table per model. *)
Record Db := mkDb {
  visitors : gmap string Visitor;
  users : gmap string User;
  appointments : gmap string Appointment;
  visits : gmap string Visit;
  issues : gmap string Issue;
}.

Definition set_visitors (f : gmap string Visitor -> gmap string Visitor) (db : Db) : Db :=
  mkDb (f (visitors db)) (users db) (appointments db) (visits db) (issues db).
Definition set_appointments (f : gmap string Appointment -> gmap string Appointment) (db : Db) : Db :=
  mkDb (visitors db) (users db) (f (appointments db)) (visits db) (issues db).
Definition set_visits (f : gmap string Visit -> gmap string Visit) (db : Db) : Db :=
  mkDb (visitors db) (users db) (appointments db) (f (visits db)) (issues db).
Definition set_issues (f : gmap string Issue -> gmap string Issue) (db : Db) : Db :=
  mkDb (visitors db) (users db) (appointments db) (visits db) (f (issues db)).

(** What a request reads from its environment: the clock ([new Date()], read
    at most twice by a handler) and the id the store generates for a created
    row. *)
Record Env := mkEnv {
  now : Z;
  now2 : Z;
  newId : string;
}.

(** ** JavaScript values *)

(** A string in a condition: only the empty string is falsy. *)
Definition truthy (s : string) : bool := negb (String.eqb s "").

(** [x] in a condition where [x] is [string | null | undefined]. *)
Definition isTruthy (o : option string) : bool :=
  match o with Some s => truthy s | None => false end.

(** [a || b] on such values. *)
Definition orElse (a b : option string) : option string :=
  if isTruthy a then a else b.

(** An optional, nullable field of a validated body: absent ([undefined]),
    [null], or a value.  In the [data] of an update an absent field leaves
    the column alone and [null] clears it. *)
Inductive Field (A : Type) := Undefined | Null | Value (a : A).
Arguments Undefined {A}.
Arguments Null {A}.
Arguments Value {A} a.

Definition applyField {A} (f : Field A) (old : option A) : option A :=
  match f with Undefined => old | Null => None | Value a => Some a end.

Definition fieldToOption {A} (f : Field A) : option A :=
  match f with Value a => Some a | _ => None end.

(** ** Handlers *)

(** The JSON answer: the success payload (status 200), or [{ error }] with
    its HTTP status. *)
Inductive Response (A : Type) :=
| Success (payload : A)
| Failure (status : Z) (error : string).
Arguments Success {A} payload.
Arguments Failure {A} status error.

Definition statusCode {A} (r : Response A) : Z :=
  match r with Success _ => 200 | Failure s _ => s end.

Module Handler.

(** A step of a handler: it may change the store, and it either yields a
    value or returns a response early.  Writes made before an early return
    stay: no handler runs in a transaction. *)
Inductive Step (A : Type) :=
| Next (a : A)
| Return (status : Z) (error : string).
Arguments Next {A} a.
Arguments Return {A} status error.

Definition M (A : Type) : Type := Db -> Db * Step A.

Definition ret {A} (a : A) : M A := fun db => (db, Next a).

Definition bind {A B} (m : M A) (k : A -> M B) : M B :=
  fun db =>
    match m db with
    | (db', Next a) => k a db'
    | (db', Return s e) => (db', Return s e)
    end.

(** [return NextResponse.json({ error }, { status })] *)
Definition respond {A} (status : Z) (error : string) : M A :=
  fun db => (db, Return status error).

(** An exception other than a [ZodError] lands in the [catch] block. *)
Definition throw {A} : M A := respond 500 "Internal server error".

(** [schema.parse(body)] throwing a [ZodError]. *)
Definition validate (ok : bool) : M unit :=
  if ok then ret tt else respond 400 "Validation failed".

Definition get : M Db := fun db => (db, Next db).
Definition modify (f : Db -> Db) : M unit := fun db => (f db, Next tt).

Definition run {A} (h : M A) (db : Db) : Db * Response A :=
  match h db with
  | (db', Next a) => (db', Success a)
  | (db', Return s e) => (db', Failure s e)
  end.

End Handler.
Import Handler.

Notation "x <- m ;; k" := (bind m (fun x => k))
  (at level 100, m at next level, right associativity).
Notation "m ;;; k" := (bind m (fun _ => k))
  (at level 100, right associativity).

(** [if (!x) return NextResponse.json({ error }, { status })] *)
Definition orReturn {A} (o : option A) (status : Z) (error : string) : M A :=
  match o with Some a => ret a | None => respond status error end.

(** ** The route context *)

(** [interface RouteParams { params: { id: string } }]: the second argument
    of the handlers of the [[id]] routes. *)
Record RouteParams := mkRouteParams {
  paramsId : string;
}.

(** [const { id } = context.params], the first statement of the [try] block
    of such a handler: a [TypeError], which lands in the [catch] block, when
    the handler is called without its second argument. *)
Definition idOf (context : option RouteParams) : M string :=
  match context with
  | Some c => ret (paramsId c)
  | None => throw
  end.

(** What the function that [withAuth] returns does for a caller it admits:
    of the request and the route context that the framework calls it with,
    it takes the request only and calls [handler(authenticatedReq)];
    [withRole] hands on whatever it is called with.  So a handler that is
    exported under [withAuth] runs without its second argument. *)
Definition admitted {A} (handler : option RouteParams -> M A)
    (context : option RouteParams) : M A :=
  handler None.

(** ** The store's client *)
Module Prisma.

Section Table.
Context {A : Type}.

(** Rows of a table in the store's order. *)
Definition rows (t : gmap string A) : list (string * A) := map_to_list t.

(** [findMany({ where })] *)
Definition findMany (cond : string -> A -> bool) (t : gmap string A) : list (string * A) :=
  List.filter (fun r => cond r.1 r.2) (rows t).

(** [findFirst({ where })] *)
Definition findFirst (cond : string -> A -> bool) (t : gmap string A) : option (string * A) :=
  List.find (fun r => cond r.1 r.2) (rows t).

End Table.

(** [findUnique({ where: { id } })] on each table. *)
Definition visitor_findUnique (id : string) : M (option Visitor) :=
  db <- get ;; ret (visitors db !! id).
Definition user_findUnique (id : string) : M (option User) :=
  db <- get ;; ret (users db !! id).
Definition appointment_findUnique (id : string) : M (option Appointment) :=
  db <- get ;; ret (appointments db !! id).
Definition visit_findUnique (id : string) : M (option Visit) :=
  db <- get ;; ret (visits db !! id).
Definition issue_findUnique (id : string) : M (option Issue) :=
  db <- get ;; ret (issues db !! id).

Definition visit_findFirst (cond : string -> Visit -> bool) : M (option (string * Visit)) :=
  db <- get ;; ret (findFirst cond (visits db)).

Definition appointment_findMany (cond : string -> Appointment -> bool)
  : M (list (string * Appointment)) :=
  db <- get ;; ret (findMany cond (appointments db)).

(** A foreign key of a row that is written.  The relations that the queries
    [include] ([visitor], [user], [appointment], [assignedTo]) are foreign
    keys of the relational store, which refuses a key that names no stored
    row: an exception of the client.  [None] is a key that the [data] does
    not set, or sets to NULL. *)
Definition references {A} (table : Db -> gmap string A) (key : option string) : M unit :=
  db <- get ;;
  match key with
  | Some k => match table db !! k with Some _ => ret tt | None => throw end
  | None => ret tt
  end.

(** [update({ where: { id }, data })]: a missing row is an exception.  The
    updates of appointments and issues take the foreign key that their
    [data] sets, if it sets one. *)
Definition visitor_update (id : string) (data : Visitor -> Visitor) : M Visitor :=
  db <- get ;;
  match visitors db !! id with
  | Some v => modify (set_visitors <[id := data v]>) ;;; ret (data v)
  | None => throw
  end.
Definition appointment_update (id : string) (userId : option string)
    (data : Appointment -> Appointment) : M Appointment :=
  db <- get ;;
  match appointments db !! id with
  | Some a =>
      references users userId ;;;
      modify (set_appointments <[id := data a]>) ;;; ret (data a)
  | None => throw
  end.
Definition visit_update (id : string) (data : Visit -> Visit) : M Visit :=
  db <- get ;;
  match visits db !! id with
  | Some v => modify (set_visits <[id := data v]>) ;;; ret (data v)
  | None => throw
  end.
Definition issue_update (id : string) (assignedUserId : option string)
    (data : Issue -> Issue) : M Issue :=
  db <- get ;;
  match issues db !! id with
  | Some i =>
      references users assignedUserId ;;;
      modify (set_issues <[id := data i]>) ;;; ret (data i)
  | None => throw
  end.

(** [create({ data })] under the generated id; the primary key is unique, so
    a taken id is an exception, and so is a foreign key of the row that
    names no stored row. *)
Definition visit_create (id : string) (row : Visit) : M (string * Visit) :=
  db <- get ;;
  match visits db !! id with
  | None =>
      references visitors (Some (vVisitorId row)) ;;;
      references users (Some (vUserId row)) ;;;
      references appointments (appointmentId row) ;;;
      modify (set_visits <[id := row]>) ;;; ret (id, row)
  | Some _ => throw
  end.
Definition appointment_create (id : string) (row : Appointment) : M (string * Appointment) :=
  db <- get ;;
  match appointments db !! id with
  | None =>
      references visitors (Some (aVisitorId row)) ;;;
      references users (Some (aUserId row)) ;;;
      modify (set_appointments <[id := row]>) ;;; ret (id, row)
  | Some _ => throw
  end.

(** [delete({ where: { id } })] *)
Definition visit_delete (id : string) : M unit :=
  db <- get ;;
  match visits db !! id with
  | Some _ => modify (set_visits (delete id))
  | None => throw
  end.

End Prisma.
Import Prisma.

(** ** Check-in, check-out and visit update *)

(** [checkInSchema] of the queue actions and [createVisitSchema] of the
    visits route: the same fields. *)
Module CheckIn.
Record Body := mkBody {
  visitorId : string;
  userId : string;
  appointmentId : option string;
  purpose : option string;
  notes : option string;
}.
Definition schema (b : Body) : bool := truthy (visitorId b) && truthy (userId b).
End CheckIn.

(** [checkOutSchema]; the body of the cancel action has no [satisfaction]
    ([Undefined] there). *)
Module CheckOut.
Record Body := mkBody {
  visitId : string;
  notes : option string;
  satisfaction : Field Z;
}.
Definition inRange (f : Field Z) : bool :=
  match f with Value s => (1 <=? s)%Z && (s <=? 5)%Z | _ => true end.
Definition schema (b : Body) : bool := truthy (visitId b) && inRange (satisfaction b).
End CheckOut.

(** [updateVisitSchema] *)
Module UpdateVisit.
Record Body := mkBody {
  status : option VisitStatus.t;
  purpose : Field string;
  notes : Field string;
  satisfaction : Field Z;
}.
Definition schema (b : Body) : bool := CheckOut.inRange (satisfaction b).
End UpdateVisit.

(** [data: { status }] of an appointment update. *)
Definition withAppointmentStatus (s : AppointmentStatus.t) (a : Appointment) : Appointment :=
  mkAppointment (aTitle a) (aVisitorId a) (aUserId a) (scheduledDate a) (startTime a)
    (endTime a) (duration a) s (priority a).

(** [{ visitorId, status: VisitStatus.IN_PROGRESS }] *)
Definition activeVisitOf (visitorId : string) (_ : string) (v : Visit) : bool :=
  String.eqb (vVisitorId v) visitorId && VisitStatus.eqb (vStatus v) VisitStatus.IN_PROGRESS.

(** The row a check-in creates. *)
Definition newVisit (env : Env) (b : CheckIn.Body) : Visit :=
  mkVisit (CheckIn.visitorId b) (CheckIn.userId b) (CheckIn.appointmentId b)
    (now env) None VisitStatus.IN_PROGRESS (CheckIn.purpose b) (CheckIn.notes b) None.

(** [{ visitCount: { increment: 1 }, lastVisit: new Date() }] *)
Definition countVisit (env : Env) (v : Visitor) : Visitor :=
  mkVisitor (visitorName v) (visitCount v + 1) (Some (now2 env)).

(** The appointment block shared by the two check-ins, with the status each
    writes. *)
Definition linkAppointment (appointmentId : option string) (s : AppointmentStatus.t) : M unit :=
  match appointmentId with
  | Some id =>
      if truthy id then
        appointment <- appointment_findUnique id ;;
        orReturn appointment 404 "Appointment not found" ;;;
        appointment_update id None (withAppointmentStatus s) ;;;
        ret tt
      else ret tt
  | None => ret tt
  end.

(** [if (activeVisit) return 409] *)
Definition rejectActive (visitorId : string) : M unit :=
  activeVisit <- visit_findFirst (activeVisitOf visitorId) ;;
  match activeVisit with
  | Some _ => respond 409 "Visitor already has an active visit"
  | None => ret tt
  end.

(** POST /api/visits *)
Definition createVisit (env : Env) (b : CheckIn.Body) : M (string * Visit) :=
  validate (CheckIn.schema b) ;;;
  visitor <- visitor_findUnique (CheckIn.visitorId b) ;;
  orReturn visitor 404 "Visitor not found" ;;;
  user <- user_findUnique (CheckIn.userId b) ;;
  orReturn user 404 "User not found" ;;;
  linkAppointment (CheckIn.appointmentId b) AppointmentStatus.COMPLETED ;;;
  rejectActive (CheckIn.visitorId b) ;;;
  visit <- visit_create (newId env) (newVisit env b) ;;
  visitor_update (CheckIn.visitorId b) (countVisit env) ;;;
  ret visit.

(** POST /api/queue/actions?action=checkin *)
Definition checkInVisitor (env : Env) (b : CheckIn.Body) : M (string * Visit) :=
  validate (CheckIn.schema b) ;;;
  visitor <- visitor_findUnique (CheckIn.visitorId b) ;;
  orReturn visitor 404 "Visitor not found" ;;;
  user <- user_findUnique (CheckIn.userId b) ;;
  orReturn user 404 "User not found" ;;;
  rejectActive (CheckIn.visitorId b) ;;;
  linkAppointment (CheckIn.appointmentId b) AppointmentStatus.CONFIRMED ;;;
  visit <- visit_create (newId env) (newVisit env b) ;;
  visitor_update (CheckIn.visitorId b) (countVisit env) ;;;
  ret visit.

(** [if (visit.status !== VisitStatus.IN_PROGRESS) return 400] *)
Definition requireInProgress (visit : Visit) : M unit :=
  if VisitStatus.eqb (vStatus visit) VisitStatus.IN_PROGRESS then ret tt
  else respond 400 "Visit is not in progress".

(** The [data] of the check-out update. *)
Definition checkOutData (env : Env) (b : CheckOut.Body) (visit : Visit) (v : Visit) : Visit :=
  mkVisit (vVisitorId v) (vUserId v) (appointmentId v) (checkInTime v)
    (Some (now env)) VisitStatus.COMPLETED (purpose v)
    (orElse (CheckOut.notes b) (notes visit))
    (applyField (CheckOut.satisfaction b) (satisfaction v)).

(** The [data] of the cancel update. *)
Definition cancelData (env : Env) (b : CheckOut.Body) (visit : Visit) (v : Visit) : Visit :=
  mkVisit (vVisitorId v) (vUserId v) (appointmentId v) (checkInTime v)
    (Some (now env)) VisitStatus.CANCELLED (purpose v)
    (orElse (CheckOut.notes b) (notes visit))
    (satisfaction v).

(** [if (visit.appointmentId) await db.appointment.update(...)] *)
Definition closeAppointment (visit : Visit) (s : AppointmentStatus.t) : M unit :=
  match appointmentId visit with
  | Some id =>
      if truthy id then appointment_update id None (withAppointmentStatus s) ;;; ret tt
      else ret tt
  | None => ret tt
  end.

(** POST /api/queue/actions?action=checkout *)
Definition checkOutVisitor (env : Env) (b : CheckOut.Body) : M Visit :=
  validate (CheckOut.schema b) ;;;
  found <- visit_findUnique (CheckOut.visitId b) ;;
  visit <- orReturn found 404 "Visit not found" ;;
  requireInProgress visit ;;;
  updatedVisit <- visit_update (CheckOut.visitId b) (checkOutData env b visit) ;;
  closeAppointment visit AppointmentStatus.COMPLETED ;;;
  ret updatedVisit.

(** POST /api/queue/actions?action=cancel *)
Definition cancelVisit (env : Env) (b : CheckOut.Body) : M Visit :=
  validate (truthy (CheckOut.visitId b)) ;;;
  found <- visit_findUnique (CheckOut.visitId b) ;;
  visit <- orReturn found 404 "Visit not found" ;;
  requireInProgress visit ;;;
  updatedVisit <- visit_update (CheckOut.visitId b) (cancelData env b visit) ;;
  closeAppointment visit AppointmentStatus.CANCELLED ;;;
  ret updatedVisit.

(** [validatedData.checkOutTime = new Date()] when the status goes to
    COMPLETED from another status; absent otherwise. *)
Definition stampCheckOut (env : Env) (b : UpdateVisit.Body) (existingVisit : Visit) : Field Z :=
  match UpdateVisit.status b with
  | Some VisitStatus.COMPLETED =>
      if VisitStatus.eqb (vStatus existingVisit) VisitStatus.COMPLETED then Undefined
      else Value (now env)
  | _ => Undefined
  end.

(** The [data] of the visit update: the validated body, field by field. *)
Definition updateVisitData (b : UpdateVisit.Body) (checkOut : Field Z) (v : Visit) : Visit :=
  mkVisit (vVisitorId v) (vUserId v) (appointmentId v) (checkInTime v)
    (applyField checkOut (checkOutTime v))
    (default (vStatus v) (UpdateVisit.status b))
    (applyField (UpdateVisit.purpose b) (purpose v))
    (applyField (UpdateVisit.notes b) (notes v))
    (applyField (UpdateVisit.satisfaction b) (satisfaction v)).

(** PUT /api/visits/[id] *)
Definition updateVisit (env : Env) (context : option RouteParams) (b : UpdateVisit.Body)
    : M Visit :=
  id <- idOf context ;;
  validate (UpdateVisit.schema b) ;;;
  found <- visit_findUnique id ;;
  existingVisit <- orReturn found 404 "Visit not found" ;;
  visit_update id (updateVisitData b (stampCheckOut env b existingVisit)).

(** DELETE /api/visits/[id] *)
Definition deleteVisit (context : option RouteParams) : M unit :=
  id <- idOf context ;;
  found <- visit_findUnique id ;;
  orReturn found 404 "Visit not found" ;;;
  visit_delete id.

(** The operations on visits that a client can call: the exports of the
    route files, for a caller that [withAuth] and [withRole] admit. *)
Inductive Operation :=
| PostVisits (b : CheckIn.Body)
| QueueCheckIn (b : CheckIn.Body)
| QueueCheckOut (b : CheckOut.Body)
| QueueCancel (b : CheckOut.Body)
| PutVisit (id : string) (b : UpdateVisit.Body)
| DeleteVisit (id : string).

(** The store after an operation, whatever it answered. *)
Definition exec (env : Env) (op : Operation) (db : Db) : Db :=
  match op with
  | PostVisits b => (run (createVisit env b) db).1
  | QueueCheckIn b => (run (checkInVisitor env b) db).1
  | QueueCheckOut b => (run (checkOutVisitor env b) db).1
  | QueueCancel b => (run (cancelVisit env b) db).1
  | PutVisit id b =>
      (run (admitted (fun context => updateVisit env context b)
              (Some (mkRouteParams id))) db).1
  | DeleteVisit id =>
      (run (admitted deleteVisit (Some (mkRouteParams id))) db).1
  end.


(** The visits of a visitor that are in progress. *)
Definition activeVisits (visitorId : string) (db : Db) : list (string * Visit) :=
  findMany (activeVisitOf visitorId) (visits db).

(** At most one visit in progress per visitor. *)
Definition singleActive (db : Db) : Prop :=
  forall i j v w,
    visits db !! i = Some v -> visits db !! j = Some w ->
    vStatus v = VisitStatus.IN_PROGRESS -> vStatus w = VisitStatus.IN_PROGRESS ->
    vVisitorId v = vVisitorId w -> i = j.


(** ** The host's [Date] *)

(** What the handlers ask of the JavaScript [Date] of the host, whose time
    zone they do not fix:
    - [parseDate s] is [new Date(s).getTime()], [None] for an Invalid Date;
    - [isoDate t] is [new Date(t).toISOString().split('T')[0]];
    - [startOfDay t] is [t] after [setHours(0, 0, 0, 0)];
    - [nextDay t] is [t] after [setDate(getDate() + 1)]. *)
Class JsDate := {
  parseDate : string -> option Z;
  isoDate : Z -> string;
  startOfDay : Z -> Z;
  nextDay : Z -> Z;
}.

(** A query or a write that is handed an Invalid Date is refused by the
    store's client with an exception. *)
Definition validDate {A} (o : option A) : M A :=
  match o with Some a => ret a | None => throw end.

(** [Array.prototype.sort(compare)], and the store's [orderBy]: a stable
    sort, [compare a b <= 0] keeping [a] before [b]. *)
Fixpoint insertBy {A} (compare : A -> A -> Z) (x : A) (l : list A) : list A :=
  match l with
  | [] => [x]
  | y :: rest =>
      if (compare x y <=? 0)%Z then x :: y :: rest
      else y :: insertBy compare x rest
  end.

Definition sort {A} (compare : A -> A -> Z) (l : list A) : list A :=
  foldr (insertBy compare) [] l.

(** [a] may stay before [b]. *)
Definition ordered {A} (compare : A -> A -> Z) (a b : A) : Prop := (compare a b <= 0)%Z.

(** ** Scheduling an appointment *)

(** [createAppointmentSchema]; [duration] and [priority] have defaults. *)
Module CreateAppointment.
Record Body := mkBody {
  title : string;
  visitorId : string;
  userId : string;
  scheduledDate : string;
  startTime : string;
  duration : option Z;
  priority : option Priority.t;
}.
Definition durationOf (b : Body) : Z := default 30 (duration b).
Definition priorityOf (b : Body) : Priority.t := default Priority.NORMAL (priority b).
Definition schema (b : Body) : bool :=
  truthy (title b) && truthy (visitorId b) && truthy (userId b) &&
  truthy (scheduledDate b) && truthy (startTime b) &&
  (15 <=? durationOf b)%Z && (durationOf b <=? 240)%Z.
End CreateAppointment.

(** [status: { notIn: [CANCELLED, NO_SHOW] }] *)
Definition notCancelledOrNoShow (s : AppointmentStatus.t) : bool :=
  negb (AppointmentStatus.eqb s AppointmentStatus.CANCELLED ||
        AppointmentStatus.eqb s AppointmentStatus.NO_SHOW).

(** The [OR] of the conflict query: its three [AND] blocks, in order. *)
Definition overlapsOR (a : Appointment) (scheduledDateTime endTime' : Z) : bool :=
  ((startTime a <=? scheduledDateTime)%Z && (endTime a >? scheduledDateTime)%Z) ||
  ((startTime a <? endTime')%Z && (endTime a >=? endTime')%Z) ||
  ((startTime a >=? scheduledDateTime)%Z && (endTime a <=? endTime')%Z).

(** The [where] of the conflict query. *)
Definition conflictWhere (userId : string) (day scheduledDateTime endTime' : Z)
    (_ : string) (a : Appointment) : bool :=
  String.eqb (aUserId a) userId &&
  (scheduledDate a =? day)%Z &&
  overlapsOR a scheduledDateTime endTime' &&
  notCancelledOrNoShow (aStatus a).

(** Modelled from the spec: the status of a created appointment, which the
    handler leaves to the default of the absent schema, is PENDING. *)
Definition defaultAppointmentStatus : AppointmentStatus.t := AppointmentStatus.PENDING.

(** The [data] of the created appointment. *)
Definition newAppointment (b : CreateAppointment.Body) (day scheduledDateTime endTime' : Z)
    : Appointment :=
  mkAppointment (CreateAppointment.title b) (CreateAppointment.visitorId b)
    (CreateAppointment.userId b) day scheduledDateTime endTime'
    (CreateAppointment.durationOf b) defaultAppointmentStatus
    (CreateAppointment.priorityOf b).

Section Scheduler.
Context {host : JsDate}.

(** POST /api/appointments *)
Definition createAppointment (env : Env) (b : CreateAppointment.Body)
    : M (string * Appointment) :=
  validate (CreateAppointment.schema b) ;;;
  let duration := CreateAppointment.durationOf b in
  scheduledDateTime <- validDate (parseDate
    (CreateAppointment.scheduledDate b +:+ "T" +:+ CreateAppointment.startTime b)) ;;
  let endTime' := (scheduledDateTime + duration * 60000)%Z in
  day <- validDate (parseDate (CreateAppointment.scheduledDate b)) ;;
  conflicts <- appointment_findMany
    (conflictWhere (CreateAppointment.userId b) day scheduledDateTime endTime') ;;
  (if (0 <? Z.of_nat (length conflicts))%Z
   then respond 409 "Scheduling conflict detected. Please choose a different time."
   else ret tt) ;;;
  visitor <- visitor_findUnique (CreateAppointment.visitorId b) ;;
  orReturn visitor 404 "Visitor not found" ;;;
  user <- user_findUnique (CreateAppointment.userId b) ;;
  orReturn user 404 "User not found" ;;;
  appointment_create (newId env) (newAppointment b day scheduledDateTime endTime').

End Scheduler.

(** ** The calendar and its free slots *)

Module Calendar.

(** The part of the answer that the slots are computed from and the slots.
    [dailyStats] and [summary], counts over the same groups, are left out;
    a slot is kept as the pair of its two dates rather than their ISO
    strings. *)
Record Payload := mkPayload {
  appointments : list (string * Appointment);
  appointmentsByDate : list (string * list (string * Appointment));
  availableSlots : list (string * list (Z * Z));
}.

Definition workingHours_start : Z := 9.
Definition workingHours_end : Z := 17.
Definition slotDuration : Z := 30.

(** The values of [hour] and of [minute] that the two loops run through. *)
Definition hours : list Z := seqZ workingHours_start (workingHours_end - workingHours_start).
Definition minutes : list Z := (fun i => i * slotDuration)%Z <$> seqZ 0 (60 `div` slotDuration).

(** [n.toString().padStart(2, '0')] for a number that is not negative. *)
Definition pad2 (n : Z) : string :=
  let s := DecimalString.NilZero.string_of_uint (N.to_uint (Z.to_N n)) in
  if (String.length s <? 2)%nat then "0" +:+ s else s.

(** The object [appointmentsByDate]: its entries in the order in which the
    keys were first set, which is the order of [Object.keys]. *)
Definition keys {A} (groups : list (string * list A)) : list string := groups.*1.

(** [appointmentsByDate[dateKey]] *)
Fixpoint entry {A} (dateKey : string) (groups : list (string * list A)) : option (list A) :=
  match groups with
  | [] => None
  | (k, xs) :: rest => if String.eqb k dateKey then Some xs else entry dateKey rest
  end.

(** [if (!appointmentsByDate[dateKey]) appointmentsByDate[dateKey] = [];
    appointmentsByDate[dateKey].push(appointment)] *)
Fixpoint push {A} (dateKey : string) (x : A) (groups : list (string * list A))
    : list (string * list A) :=
  match groups with
  | [] => [(dateKey, [x])]
  | (k, xs) :: rest =>
      if String.eqb k dateKey then (k, (xs ++ [x])%list) :: rest
      else (k, xs) :: push dateKey x rest
  end.

(** The string that a slot's start is read from. *)
Definition slotString (date : string) (hour minute : Z) : string :=
  date +:+ "T" +:+ pad2 hour +:+ ":" +:+ pad2 minute +:+ ":00".

(** [slotStart < aptEnd && slotEnd > aptStart] *)
Definition overlapsSlot (slotStart slotEnd : Z) (apt : string * Appointment) : bool :=
  (slotStart <? endTime apt.2)%Z && (slotEnd >? startTime apt.2)%Z.

Section Calendar.
Context {host : JsDate}.

Definition dateKeyOf (appointment : string * Appointment) : string :=
  isoDate (scheduledDate appointment.2).

Definition groupByDate (appointments : list (string * Appointment))
    : list (string * list (string * Appointment)) :=
  fold_left (fun groups appointment => push (dateKeyOf appointment) appointment groups)
    appointments [].

(** One turn of the inner loop: the slot, when it is available.  An Invalid
    Date compares false with everything, so the slot counts as available
    and its [toISOString()] throws. *)
Definition slotAt (date : string) (dayAppointments : list (string * Appointment))
    (hour minute : Z) : M (list (Z * Z)) :=
  slotStart <- validDate (parseDate (slotString date hour minute)) ;;
  let slotEnd := (slotStart + slotDuration * 60000)%Z in
  let isAvailable := negb (existsb (overlapsSlot slotStart slotEnd) dayAppointments) in
  ret (if isAvailable then [(slotStart, slotEnd)] else []).

(** The two loops, pushing onto [slots]. *)
Fixpoint forEach {A B} (l : list A) (body : A -> M (list B)) : M (list B) :=
  match l with
  | [] => ret []
  | x :: rest => first <- body x ;; more <- forEach rest body ;; ret (first ++ more)%list
  end.

Definition slotsOf (date : string) (dayAppointments : list (string * Appointment))
    : M (list (Z * Z)) :=
  forEach hours (fun hour => forEach minutes (fun minute =>
    slotAt date dayAppointments hour minute)).

(** The [where] of the calendar query. *)
Definition calendarWhere (from to : Z) (userId : option string)
    (_ : string) (a : Appointment) : bool :=
  (from <=? scheduledDate a)%Z && (scheduledDate a <=? to)%Z &&
  match userId with
  | Some u => if truthy u then String.eqb (aUserId a) u else true
  | None => true
  end.

Definition byStartTime (a b : string * Appointment) : Z := (startTime a.2 - startTime b.2)%Z.

(** GET /api/appointments/calendar *)
Definition getCalendarAppointments (startDate endDate userId : option string) : M Payload :=
  (if isTruthy startDate && isTruthy endDate then ret tt
   else respond 400 "Start date and end date are required") ;;;
  from <- validDate (parseDate (default "" startDate)) ;;
  to <- validDate (parseDate (default "" endDate)) ;;
  found <- appointment_findMany (calendarWhere from to userId) ;;
  let appointments := sort byStartTime found in
  let appointmentsByDate := groupByDate appointments in
  availableSlots <- forEach (keys appointmentsByDate) (fun date =>
    let dayAppointments := default [] (entry date appointmentsByDate) in
    slots <- slotsOf date dayAppointments ;; ret [(date, slots)]) ;;
  ret (mkPayload appointments appointmentsByDate availableSlots).

(** The slots of a day as a function: the available ones among the slots
    whose start the host reads. *)
Definition freeSlot (date : string) (dayAppointments : list (string * Appointment))
    (hour minute : Z) : list (Z * Z) :=
  match parseDate (slotString date hour minute) with
  | Some slotStart =>
      let slotEnd := (slotStart + slotDuration * 60000)%Z in
      if existsb (overlapsSlot slotStart slotEnd) dayAppointments then []
      else [(slotStart, slotEnd)]
  | None => []
  end.

Definition freeSlots (date : string) (dayAppointments : list (string * Appointment))
    : list (Z * Z) :=
  concat ((fun hour => concat (freeSlot date dayAppointments hour <$> minutes)) <$> hours).

(** The fetched appointments of a day. *)
Definition onDate (date : string) (appointments : list (string * Appointment))
    : list (string * Appointment) :=
  List.filter (fun appointment => String.eqb (dateKeyOf appointment) date) appointments.

End Calendar.
End Calendar.

(** ** The queue *)

Module Queue.

(** A visit as a query returns it: with the relation [appointment] that the
    query's [include] asks for.  A query that does not include the relation
    returns objects on which [visit.appointment] is [undefined]. *)
Record VisitRow := mkVisitRow {
  id : string;
  visit : Visit;
  appointment : option Appointment;
}.

Definition checkInTimeOf (r : VisitRow) : Z := checkInTime (visit r).

(** The relation of a visit: the appointment its [appointmentId] names. *)
Definition appointmentOf (db : Db) (v : Visit) : option Appointment :=
  match appointmentId v with
  | Some a => appointments db !! a
  | None => None
  end.

(** The rows of a [findMany] with or without [appointment] in its
    [include]. *)
Definition included (includeAppointment : bool) (db : Db) (r : string * Visit) : VisitRow :=
  mkVisitRow r.1 r.2 (if includeAppointment then appointmentOf db r.2 else None).

(** [...(userId && { userId })] *)
Definition forUser (userId : option string) (v : Visit) : bool :=
  match userId with
  | Some u => if truthy u then String.eqb (vUserId v) u else true
  | None => true
  end.

Record QueueStats := mkQueueStats {
  totalActive : nat;
  totalCompletedToday : nat;
  averageWaitTime : Q;
  averageVisitDuration : Q;
}.

(** The answer without [scheduledAppointmentsToday], whose order follows how
    the store orders the priority column. *)
Record Payload := mkPayload {
  activeVisits : list VisitRow;
  completedVisitsToday : list VisitRow;
  queueStats : QueueStats;
}.

(** [priorityOrder] *)
Definition priorityOrder (p : Priority.t) : Z :=
  match p with
  | Priority.URGENT => 4
  | Priority.HIGH => 3
  | Priority.NORMAL => 2
  | Priority.LOW => 1
  end.

(** [a.appointment?.priority || Priority.NORMAL] *)
Definition priorityOfRow (r : VisitRow) : Priority.t :=
  match appointment r with
  | Some a => priority a
  | None => Priority.NORMAL
  end.

(** The comparison function of the sort of the active visits. *)
Definition compareActive (a b : VisitRow) : Z :=
  let priorityA := priorityOfRow a in
  let priorityB := priorityOfRow b in
  if negb (Priority.eqb priorityA priorityB)
  then (priorityOrder priorityB - priorityOrder priorityA)%Z
  else (checkInTimeOf a - checkInTimeOf b)%Z.

(** The order of the queue in the spec's words: the higher priority first
    and, at equal priority, the earlier check-in first. *)
Definition before (a b : VisitRow) : Prop :=
  (priorityOrder (priorityOfRow a) > priorityOrder (priorityOfRow b))%Z \/
  (priorityOfRow a = priorityOfRow b /\ (checkInTimeOf a <= checkInTimeOf b)%Z).

(** The callbacks of the two [reduce]. *)
Definition addWaitTime (sum : Z) (r : VisitRow) : Z :=
  match appointment r with
  | Some a => (sum + (checkInTimeOf r - startTime a))%Z
  | None => sum
  end.

Definition addDuration (sum : Z) (r : VisitRow) : Z :=
  match checkOutTime (visit r) with
  | Some out => (sum + (out - checkInTimeOf r))%Z
  | None => sum
  end.

(** [total / completedVisitsToday.length / (1000 * 60)], in exact rationals
    (the rounding of the host's doubles is not modelled). *)
Definition average (total : Z) (count : nat) : Q :=
  Qdiv (Qdiv (inject_Z total) (inject_Z (Z.of_nat count))) (inject_Z (1000 * 60)).

Definition averageOver (add : Z -> VisitRow -> Z) (completedVisitsToday : list VisitRow) : Q :=
  if (0 <? Z.of_nat (length completedVisitsToday))%Z
  then average (fold_left add completedVisitsToday 0%Z) (length completedVisitsToday)
  else 0%Q.

(** The average wait in the spec's words: over the completed visits of the
    day, the mean of check-in time minus the start of the linked
    appointment, a visit adding to the sum only when it has one. *)
Definition specAverageWaitTime (db : Db) (completedVisitsToday : list VisitRow) : Q :=
  averageOver addWaitTime
    ((fun r => mkVisitRow (id r) (visit r) (appointmentOf db (visit r)))
       <$> completedVisitsToday).

Definition byCheckInTime (a b : VisitRow) : Z := (checkInTimeOf a - checkInTimeOf b)%Z.

(** [orderBy: { checkOutTime: 'desc' }]; the store (SQLite) takes NULL for
    the smallest value. *)
Definition byCheckOutTimeDesc (a b : VisitRow) : Z :=
  match checkOutTime (visit a), checkOutTime (visit b) with
  | Some x, Some y => (y - x)%Z
  | Some _, None => (-1)%Z
  | None, Some _ => 1%Z
  | None, None => 0%Z
  end.

Section Queue.
Context {host : JsDate}.

Definition activeWhere (userId : option string) (_ : string) (v : Visit) : bool :=
  VisitStatus.eqb (vStatus v) VisitStatus.IN_PROGRESS && forUser userId v.

Definition completedWhere (today tomorrow : Z) (userId : option string)
    (_ : string) (v : Visit) : bool :=
  VisitStatus.eqb (vStatus v) VisitStatus.COMPLETED &&
  (today <=? checkInTime v)%Z && (checkInTime v <? tomorrow)%Z &&
  forUser userId v.

(** GET /api/queue *)
Definition getQueueStatus (env : Env) (userId : option string) : M Payload :=
  db <- get ;;
  let activeVisits :=
    sort byCheckInTime
      (included true db <$> findMany (activeWhere userId) (visits db)) in
  let today := startOfDay (now env) in
  let tomorrow := nextDay today in
  let completedVisitsToday :=
    sort byCheckOutTimeDesc
      (included false db <$> findMany (completedWhere today tomorrow userId) (visits db)) in
  let queueStats :=
    mkQueueStats (length activeVisits) (length completedVisitsToday)
      (averageOver addWaitTime completedVisitsToday)
      (averageOver addDuration completedVisitsToday) in
  let sortedActiveVisits := sort compareActive activeVisits in
  ret (mkPayload sortedActiveVisits completedVisitsToday queueStats).

End Queue.
End Queue.

(** ** Updating an issue *)

(** [updateIssueSchema].  The fields that the handler only copies into the
    update (category, costs, department) or serialises (tags, photos) are
    left out. *)
Module UpdateIssue.
Record Body := mkBody {
  title : option string;
  description : option string;
  priority : option Priority.t;
  status : option IssueStatus.t;
  assignedUserId : Field string;
  dueDate : Field string;
  resolvedDate : Field string;
  resolution : Field string;
}.
Definition nonEmpty (o : option string) : bool :=
  match o with Some s => truthy s | None => true end.
Definition schema (b : Body) : bool := nonEmpty (title b) && nonEmpty (description b).
End UpdateIssue.

(** A date entry of [updateData]: absent, [null], a date, or a value that
    the store's client refuses for a DateTime column (the empty string, an
    Invalid Date). *)
Inductive DateData := Keep | Clear | SetTo (t : Z) | Refused.

Definition isResolvedOrClosed (s : IssueStatus.t) : bool :=
  IssueStatus.eqb s IssueStatus.RESOLVED || IssueStatus.eqb s IssueStatus.CLOSED.

Definition applyDate (d : DateData) (old : option Z) : option Z :=
  match d with
  | Keep | Refused => old
  | Clear => None
  | SetTo t => Some t
  end.

Definition accepted (d : DateData) : bool :=
  match d with Refused => false | _ => true end.

(** "Auto-set resolvedDate when status is RESOLVED or CLOSED" *)
Definition autoSet (env : Env) (b : UpdateIssue.Body) (existingIssue : Issue)
    (d : DateData) : DateData :=
  match UpdateIssue.status b with
  | Some s =>
      if isResolvedOrClosed s then
        match resolvedDate existingIssue with
        | None => SetTo (now env)
        | Some _ => d
        end
      else d
  | None => d
  end.

(** "Clear resolvedDate when status is changed back from RESOLVED/CLOSED" *)
Definition autoClear (b : UpdateIssue.Body) (d : DateData) : DateData :=
  match UpdateIssue.status b with
  | Some s => if isResolvedOrClosed s then d else Clear
  | None => d
  end.

(** The [data] of the issue update. *)
Definition updateData (b : UpdateIssue.Body) (due resolved : DateData) (i : Issue) : Issue :=
  mkIssue (default (iTitle i) (UpdateIssue.title b))
    (default (iDescription i) (UpdateIssue.description b))
    (default (iPriority i) (UpdateIssue.priority b))
    (default (iStatus i) (UpdateIssue.status b))
    (applyField (UpdateIssue.assignedUserId b) (assignedUserId i))
    (applyDate due (dueDate i))
    (applyDate resolved (resolvedDate i))
    (applyField (UpdateIssue.resolution b) (resolution i)).

(** [if (validatedData.assignedUserId)]: the assignee must exist. *)
Definition checkAssignee (f : Field string) : M unit :=
  match f with
  | Value u =>
      if truthy u then
        assignedUser <- user_findUnique u ;;
        orReturn assignedUser 404 "Assigned user not found" ;;;
        ret tt
      else ret tt
  | _ => ret tt
  end.

Section Issues.
Context {host : JsDate}.

(** [{ ...validatedData }] and then
    [if (validatedData.f) updateData.f = new Date(validatedData.f)]. *)
Definition dateEntry (f : Field string) : DateData :=
  match f with
  | Undefined => Keep
  | Null => Clear
  | Value s =>
      if truthy s then
        match parseDate s with Some t => SetTo t | None => Refused end
      else Refused
  end.

(** The entry [updateData.resolvedDate] when the update is sent. *)
Definition resolvedDateEntry (env : Env) (b : UpdateIssue.Body) (existingIssue : Issue)
    : DateData :=
  autoClear b (autoSet env b existingIssue (dateEntry (UpdateIssue.resolvedDate b))).

(** PUT /api/issues/[id] *)
Definition updateIssue (env : Env) (context : option RouteParams) (b : UpdateIssue.Body)
    : M Issue :=
  id <- idOf context ;;
  validate (UpdateIssue.schema b) ;;;
  found <- issue_findUnique id ;;
  existingIssue <- orReturn found 404 "Issue not found" ;;
  checkAssignee (UpdateIssue.assignedUserId b) ;;;
  let due := dateEntry (UpdateIssue.dueDate b) in
  let resolved := resolvedDateEntry env b existingIssue in
  (if accepted due && accepted resolved then ret tt else throw) ;;;
  issue_update id (fieldToOption (UpdateIssue.assignedUserId b)) (updateData b due resolved).

End Issues.

(** ** A host in the UTC time zone *)

(** The ISO forms that the handlers build and the instance of [JsDate] on a
    host whose time zone is UTC, for running the handlers on examples. *)
Module Utc.

Definition digit (c : ascii) : option Z :=
  let n := Z.of_nat (nat_of_ascii c) in
  if (48 <=? n)%Z && (n <=? 57)%Z then Some (n - 48)%Z else None.

Fixpoint digits (acc : Z) (s : string) : option Z :=
  match s with
  | EmptyString => Some acc
  | String c rest =>
      match digit c with
      | Some d => digits (acc * 10 + d)%Z rest
      | None => None
      end
  end.

(** The number of [len] digits at offset [pos]. *)
Definition number (pos len : nat) (s : string) : option Z :=
  let part := String.substring pos len s in
  if (String.length part =? len)%nat then digits 0 part else None.

(** Days from 1970-01-01 to a civil date. *)
Definition daysFromCivil (y m d : Z) : Z :=
  let y' := if (m <=? 2)%Z then (y - 1)%Z else y in
  let era := (y' `div` 400)%Z in
  let yoe := (y' - era * 400)%Z in
  let mp := ((m + 9) `mod` 12)%Z in
  let doy := ((153 * mp + 2) `div` 5 + d - 1)%Z in
  let doe := (yoe * 365 + yoe `div` 4 - yoe `div` 100 + doy)%Z in
  (era * 146097 + doe - 719468)%Z.

(** The civil date of a day number. *)
Definition civilFromDays (z : Z) : Z * Z * Z :=
  let z' := (z + 719468)%Z in
  let era := (z' `div` 146097)%Z in
  let doe := (z' - era * 146097)%Z in
  let yoe := ((doe - doe `div` 1460 + doe `div` 36524 - doe `div` 146096) `div` 365)%Z in
  let doy := (doe - (365 * yoe + yoe `div` 4 - yoe `div` 100))%Z in
  let mp := ((5 * doy + 2) `div` 153)%Z in
  let d := (doy - (153 * mp + 2) `div` 5 + 1)%Z in
  let m := if (mp <? 10)%Z then (mp + 3)%Z else (mp - 9)%Z in
  let y := (yoe + era * 400 + (if (m <=? 2)%Z then 1 else 0))%Z in
  (y, m, d).

Definition daysInMonth (y m : Z) : Z :=
  (daysFromCivil (if (m =? 12)%Z then y + 1 else y) (if (m =? 12)%Z then 1 else m + 1) 1
   - daysFromCivil y m 1)%Z.

Definition msPerDay : Z := 86400000.

(** "YYYY-MM-DD" *)
Definition parseDay (s : string) : option Z :=
  match number 0 4 s, number 5 2 s, number 8 2 s with
  | Some y, Some m, Some d =>
      if String.eqb (String.substring 4 1 s) "-" && String.eqb (String.substring 7 1 s) "-" &&
         (1 <=? m)%Z && (m <=? 12)%Z && (1 <=? d)%Z && (d <=? daysInMonth y m)%Z
      then Some (daysFromCivil y m d * msPerDay)%Z else None
  | _, _, _ => None
  end.

(** "HH:MM", "HH:MM:SS" *)
Definition parseTime (s : string) : option Z :=
  match number 0 2 s, number 3 2 s with
  | Some h, Some mi =>
      if String.eqb (String.substring 2 1 s) ":" && (h <=? 23)%Z && (mi <=? 59)%Z then
        if (String.length s =? 5)%nat then Some ((h * 60 + mi) * 60000)%Z
        else
          match number 6 2 s with
          | Some sec =>
              if (String.length s =? 8)%nat && String.eqb (String.substring 5 1 s) ":" &&
                 (sec <=? 59)%Z
              then Some ((h * 60 + mi) * 60000 + sec * 1000)%Z else None
          | None => None
          end
      else None
  | _, _ => None
  end.

(** "YYYY-MM-DD" and "YYYY-MM-DDTHH:MM[:SS]" *)
Definition parse (s : string) : option Z :=
  if (String.length s =? 10)%nat then parseDay s
  else
    match parseDay (String.substring 0 10 s), parseTime (String.substring 11 (String.length s - 11) s) with
    | Some day, Some time =>
        if String.eqb (String.substring 10 1 s) "T" then Some (day + time)%Z else None
    | _, _ => None
    end.

Definition padTo (width : nat) (n : Z) : string :=
  let s := DecimalString.NilZero.string_of_uint (N.to_uint (Z.to_N n)) in
  String.concat "" (replicate (width - String.length s) "0") +:+ s.

Definition format (t : Z) : string :=
  let '(y, m, d) := civilFromDays (t `div` msPerDay) in
  padTo 4 y +:+ "-" +:+ padTo 2 m +:+ "-" +:+ padTo 2 d.

#[export] Instance utc : JsDate := {|
  parseDate := parse;
  isoDate := format;
  startOfDay := fun t => (t - t `mod` msPerDay)%Z;
  nextDay := fun t => (t + msPerDay)%Z;
|}.

End Utc.

(** ** Predicates of the statements *)

(** The condition under which nothing but the duplicate check can stop a
    check-in: the body passes the schema and names a visitor, a staff user
    and, when it names one, an appointment that exist. *)
Definition resolves (b : CheckIn.Body) (db : Db) : Prop :=
  CheckIn.schema b = true /\
  is_Some (visitors db !! CheckIn.visitorId b) /\
  is_Some (users db !! CheckIn.userId b) /\
  (forall id, CheckIn.appointmentId b = Some id -> truthy id = true ->
     is_Some (appointments db !! id)).


(** What a check-out or a cancel does to the visits: nothing, or it closes
    one visit that was in progress. *)
Definition closeEffect (id : string) (data : Visit -> Visit) (db db' : Db) : Prop :=
  visits db' = visits db \/
  (exists v, visits db !! id = Some v /\ vStatus v = VisitStatus.IN_PROGRESS /\
     visits db' = <[id := data v]> (visits db)).

(** ** A small office, for running the handlers *)
Module Office.

(** One visitor, two staff users, nothing scheduled and nobody in. *)
Definition db0 : Db :=
  mkDb {[ "v1" := mkVisitor "Asha" 0 None ]}
       {[ "s1" := mkUser "Staff One"; "s2" := mkUser "Staff Two" ]}
       ∅ ∅ ∅.

Definition checkIn (staff : string) : CheckIn.Body :=
  CheckIn.mkBody "v1" staff None None None.

Definition checkOut (visit : string) : CheckOut.Body :=
  CheckOut.mkBody visit None Undefined.

(** The body [{ status }] of a visit update. *)
Definition setStatus (s : VisitStatus.t) : UpdateVisit.Body :=
  UpdateVisit.mkBody (Some s) Undefined Undefined Undefined.


(** The visitor had an appointment at 10:00 on 2024-01-10, checked in at
    10:10 and out at 10:40. *)
Definition served : Db :=
  mkDb {[ "v1" := mkVisitor "Asha" 1 (Some 1704881400000) ]}
       {[ "s1" := mkUser "Staff One" ]}
       {[ "a1" := mkAppointment "Water supply" "v1" "s1" 1704844800000
                    1704880800000 1704882600000 30
                    AppointmentStatus.COMPLETED Priority.HIGH ]}
       {[ "visit1" := mkVisit "v1" "s1" (Some "a1") 1704881400000 (Some 1704883200000)
                        VisitStatus.COMPLETED None None None ]}
       ∅.

(** Noon of that day. *)
Definition noon : Env := mkEnv 1704888000000 1704888000000 "".

(** An issue resolved on 2024-01-10. *)
Definition resolved : Db :=
  mkDb ∅ {[ "s1" := mkUser "Staff One" ]} ∅ ∅
       {[ "i1" := mkIssue "Road repair" "Potholes on the village road" Priority.HIGH
                    IssueStatus.RESOLVED None None (Some 1704844800000) None ]}.

(** An issue that was reported and is open. *)
Definition reported : Db :=
  mkDb ∅ {[ "s1" := mkUser "Staff One" ]} ∅ ∅
       {[ "i1" := mkIssue "Street light" "The light at the market is out" Priority.NORMAL
                    IssueStatus.OPEN None None None None ]}.

(** The body [{ resolvedDate }] of an issue update. *)
Definition setResolvedDate (f : Field string) : UpdateIssue.Body :=
  UpdateIssue.mkBody None None None None Undefined Undefined f Undefined.

(** The body [{ status }] of an issue update. *)
Definition setIssueStatus (s : IssueStatus.t) : UpdateIssue.Body :=
  UpdateIssue.mkBody None None None (Some s) Undefined Undefined Undefined Undefined.

(** The appointment of staff user s1 at 10:00 on 2024-01-10, for half an
    hour. *)
Definition atTen (s : AppointmentStatus.t) : Appointment :=
  mkAppointment "Water supply" "v1" "s1" 1704844800000 1704880800000 1704882600000 30
    s Priority.NORMAL.

(** That appointment is pending and the visitor is in, with staff user s1. *)
Definition booked : Db :=
  mkDb {[ "v1" := mkVisitor "Asha" 1 (Some 1704880000000) ]}
       {[ "s1" := mkUser "Staff One"; "s2" := mkUser "Staff Two" ]}
       {[ "a1" := atTen AppointmentStatus.PENDING ]}
       {[ "visit1" := mkVisit "v1" "s1" None 1704880000000 None
                        VisitStatus.IN_PROGRESS None None None ]}
       ∅.

(** A second check-in of the visitor, with staff user s2, for the
    appointment. *)
Definition secondCheckIn : CheckIn.Body :=
  CheckIn.mkBody "v1" "s2" (Some "a1") None None.

(** A request for half an hour with staff user s1 on 2024-01-10. *)
Definition request (startTime : string) : CreateAppointment.Body :=
  CreateAppointment.mkBody "Road repair" "v1" "s1" "2024-01-10" startTime (Some 30) None.

(** A request for two hours from 09:00 with staff user s1 on 2024-01-10. *)
Definition twoHours : CreateAppointment.Body :=
  CreateAppointment.mkBody "Flood relief" "v1" "s1" "2024-01-10" "09:00" (Some 120) None.

(** Five visitors wait.  For staff user s1: one walked in at 10:05, one has
    an URGENT appointment and came at 10:20, one has a LOW one and came at
    09:50, one has a HIGH one and came at 10:25.  For staff user s2: one
    walked in at 09:00. *)
Definition waiting : Db :=
  mkDb {[ "v1" := mkVisitor "Asha" 1 None; "v2" := mkVisitor "Bala" 1 None;
          "v3" := mkVisitor "Chitra" 1 None; "v4" := mkVisitor "Dev" 1 None;
          "v5" := mkVisitor "Esha" 1 None ]}
       {[ "s1" := mkUser "Staff One"; "s2" := mkUser "Staff Two" ]}
       {[ "a2" := mkAppointment "Flood relief" "v2" "s1" 1704844800000 1704882600000
                    1704884400000 30 AppointmentStatus.CONFIRMED Priority.URGENT;
          "a3" := mkAppointment "Certificate" "v3" "s1" 1704844800000 1704879000000
                    1704880800000 30 AppointmentStatus.CONFIRMED Priority.LOW;
          "a5" := mkAppointment "Pension" "v5" "s1" 1704844800000 1704884400000
                    1704886200000 30 AppointmentStatus.CONFIRMED Priority.HIGH ]}
       {[ "w1" := mkVisit "v1" "s1" None 1704881100000 None
                    VisitStatus.IN_PROGRESS None None None;
          "w2" := mkVisit "v2" "s1" (Some "a2") 1704882000000 None
                    VisitStatus.IN_PROGRESS None None None;
          "w3" := mkVisit "v3" "s1" (Some "a3") 1704880200000 None
                    VisitStatus.IN_PROGRESS None None None;
          "w4" := mkVisit "v4" "s2" None 1704877200000 None
                    VisitStatus.IN_PROGRESS None None None;
          "w5" := mkVisit "v5" "s1" (Some "a5") 1704882300000 None
                    VisitStatus.IN_PROGRESS None None None ]}
       ∅.

(** Four visits are over.  Of staff user s1: one from 10:00 to 10:30 and one
    from 08:00 to 08:15 on 2024-01-10, and one of the day before.  Of staff
    user s2: one from 09:00 to 09:20 on 2024-01-10. *)
Definition closed : Db :=
  mkDb {[ "v1" := mkVisitor "Asha" 2 None; "v2" := mkVisitor "Bala" 1 None;
          "v3" := mkVisitor "Chitra" 1 None ]}
       {[ "s1" := mkUser "Staff One"; "s2" := mkUser "Staff Two" ]}
       ∅
       {[ "c1" := mkVisit "v1" "s1" None 1704880800000 (Some 1704882600000)
                    VisitStatus.COMPLETED None None None;
          "c2" := mkVisit "v2" "s2" None 1704877200000 (Some 1704878400000)
                    VisitStatus.COMPLETED None None None;
          "c3" := mkVisit "v3" "s1" None 1704794400000 (Some 1704796200000)
                    VisitStatus.COMPLETED None None None;
          "c4" := mkVisit "v1" "s1" None 1704873600000 (Some 1704874500000)
                    VisitStatus.COMPLETED None None None ]}
       ∅.

(** One appointment, CANCELLED, at 10:00 on 2024-01-10 for half an hour. *)
Definition cancelled : Db :=
  mkDb {[ "v1" := mkVisitor "Asha" 0 None ]}
       {[ "s1" := mkUser "Staff One" ]}
       {[ "a1" := mkAppointment "Water supply" "v1" "s1" 1704844800000
                    1704880800000 1704882600000 30
                    AppointmentStatus.CANCELLED Priority.NORMAL ]}
       ∅ ∅.

End Office.

(** ** Rescheduling an appointment *)

(** [updateAppointmentSchema] (without the free-text columns). *)
Module UpdateAppointment.
Record Body := mkBody {
  title : option string;
  userId : option string;
  scheduledDate : option string;
  startTime : option string;
  duration : option Z;
  status : option AppointmentStatus.t;
  priority : option Priority.t;
}.
Definition nonEmpty (o : option string) : bool :=
  match o with Some s => truthy s | None => true end.
Definition inRange (o : option Z) : bool :=
  match o with Some d => (15 <=? d)%Z && (d <=? 240)%Z | None => true end.
Definition schema (b : Body) : bool :=
  nonEmpty (title b) && nonEmpty (userId b) && nonEmpty (scheduledDate b) &&
  nonEmpty (startTime b) && inRange (duration b).
(** [validatedData.scheduledDate || validatedData.startTime ||
    validatedData.duration] *)
Definition touchesTime (b : Body) : bool :=
  isTruthy (scheduledDate b) || isTruthy (startTime b) ||
  match duration b with Some d => negb (d =? 0)%Z | None => false end.
End UpdateAppointment.

(** The dates that the time block of the update computes and writes back
    into [validatedData]. *)
Record NewTimes := mkNewTimes {
  newScheduledDate : Z;
  newStartTime : Z;
  newEndTime : Z;
}.

(** [validatedData.duration || existingAppointment.duration] *)
Definition durationOr (d : option Z) (existing : Z) : Z :=
  match d with
  | Some d => if (d =? 0)%Z then existing else d
  | None => existing
  end.

(** [validatedData.userId || existingAppointment.userId] *)
Definition userIdOr (u : option string) (existing : string) : string :=
  match u with
  | Some u => if truthy u then u else existing
  | None => existing
  end.

(** The [where] of the conflict query of the update: that of the creation
    and [id: { not: id }]. *)
Definition conflictWhereNot (id userId : string) (day scheduledDateTime endTime' : Z)
    (k : string) (a : Appointment) : bool :=
  conflictWhere userId day scheduledDateTime endTime' k a && negb (String.eqb k id).

(** The [data] of the appointment update: the validated body, with the
    dates of the time block when it ran. *)
Definition updateAppointmentData (b : UpdateAppointment.Body) (times : option NewTimes)
    (a : Appointment) : Appointment :=
  mkAppointment
    (default (aTitle a) (UpdateAppointment.title b))
    (aVisitorId a)
    (default (aUserId a) (UpdateAppointment.userId b))
    (match times with Some t => newScheduledDate t | None => scheduledDate a end)
    (match times with Some t => newStartTime t | None => startTime a end)
    (match times with Some t => newEndTime t | None => endTime a end)
    (default (duration a) (UpdateAppointment.duration b))
    (default (aStatus a) (UpdateAppointment.status b))
    (default (priority a) (UpdateAppointment.priority b)).

(** [delete({ where: { id } })] on appointments and issues; what the store
    does to the rows that refer to the deleted one (the visits of an
    appointment, the comments of an issue) is not modelled. *)
Definition appointment_delete (id : string) : M unit :=
  db <- get ;;
  match appointments db !! id with
  | Some _ => modify (set_appointments (delete id))
  | None => throw
  end.

Definition issue_delete (id : string) : M unit :=
  db <- get ;;
  match issues db !! id with
  | Some _ => modify (set_issues (delete id))
  | None => throw
  end.

Section Reschedule.
Context {host : JsDate}.

(** "If updating time, check for conflicts": the block of the update that
    recomputes the interval, falling back on the stored values, and looks
    for conflicts but for the appointment itself. *)
Definition timeBlock (id : string) (b : UpdateAppointment.Body)
    (existingAppointment : Appointment) : M NewTimes :=
  scheduledDate' <-
    (match UpdateAppointment.scheduledDate b with
     | Some s => if truthy s then validDate (parseDate s)
                 else ret (scheduledDate existingAppointment)
     | None => ret (scheduledDate existingAppointment)
     end) ;;
  startTime' <-
    (match UpdateAppointment.startTime b with
     | Some t => if truthy t then validDate (parseDate (isoDate scheduledDate' +:+ "T" +:+ t))
                 else ret (startTime existingAppointment)
     | None => ret (startTime existingAppointment)
     end) ;;
  let duration := durationOr (UpdateAppointment.duration b) (duration existingAppointment) in
  let endTime' := (startTime' + duration * 60000)%Z in
  let userId := userIdOr (UpdateAppointment.userId b) (aUserId existingAppointment) in
  conflicts <- appointment_findMany
    (conflictWhereNot id userId scheduledDate' startTime' endTime') ;;
  (if (0 <? Z.of_nat (length conflicts))%Z
   then respond 409 "Scheduling conflict detected. Please choose a different time."
   else ret tt) ;;;
  ret (mkNewTimes scheduledDate' startTime' endTime').

(** PUT /api/appointments/[id].  The handler does not look up the staff
    user of the body: the key reaches the store with the update. *)
Definition updateAppointment (context : option RouteParams) (b : UpdateAppointment.Body)
    : M Appointment :=
  id <- idOf context ;;
  validate (UpdateAppointment.schema b) ;;;
  found <- appointment_findUnique id ;;
  existingAppointment <- orReturn found 404 "Appointment not found" ;;
  times <-
    (if UpdateAppointment.touchesTime b
     then (t <- timeBlock id b existingAppointment ;; ret (Some t))
     else ret None) ;;
  appointment_update id (UpdateAppointment.userId b) (updateAppointmentData b times).

End Reschedule.

(** An appointment with its visits, latest check-in first, as
    GET /api/appointments/[id] answers it. *)
Record AppointmentDetails := mkAppointmentDetails {
  detailsAppointment : Appointment;
  detailsVisits : list (string * Visit);
}.

Definition byCheckInTimeDesc (a b : string * Visit) : Z :=
  (checkInTime b.2 - checkInTime a.2)%Z.

(** GET /api/appointments/[id] *)
Definition getAppointment (context : option RouteParams) : M AppointmentDetails :=
  id <- idOf context ;;
  db <- get ;;
  appointment <- orReturn (appointments db !! id) 404 "Appointment not found" ;;
  ret (mkAppointmentDetails appointment
         (sort byCheckInTimeDesc
            (findMany (fun _ v => bool_decide (appointmentId v = Some id)) (visits db)))).

(** DELETE /api/appointments/[id] *)
Definition deleteAppointment (context : option RouteParams) : M unit :=
  id <- idOf context ;;
  found <- appointment_findUnique id ;;
  orReturn found 404 "Appointment not found" ;;;
  appointment_delete id.

(** A visit with the rows it refers to, as GET /api/visits/[id] answers
    it. *)
Record VisitDetails := mkVisitDetails {
  detailsVisit : Visit;
  detailsVisitor : option Visitor;
  detailsUser : option User;
  detailsLinked : option Appointment;
}.

(** GET /api/visits/[id] *)
Definition getVisit (context : option RouteParams) : M VisitDetails :=
  id <- idOf context ;;
  db <- get ;;
  visit <- orReturn (visits db !! id) 404 "Visit not found" ;;
  ret (mkVisitDetails visit (visitors db !! vVisitorId visit) (users db !! vUserId visit)
         (Queue.appointmentOf db visit)).

(** GET /api/issues/[id], without the relations and the comments. *)
Definition getIssue (context : option RouteParams) : M Issue :=
  id <- idOf context ;;
  found <- issue_findUnique id ;;
  orReturn found 404 "Issue not found".

(** DELETE /api/issues/[id] *)
Definition deleteIssue (context : option RouteParams) : M unit :=
  id <- idOf context ;;
  found <- issue_findUnique id ;;
  orReturn found 404 "Issue not found" ;;;
  issue_delete id.

(** ** The statistics of the calendar *)

Module CalendarStats.

(** An entry of [dailyStats], without the list of the day's appointments. *)
Record DailyStats := mkDailyStats {
  date : string;
  totalAppointments : nat;
  confirmedAppointments : nat;
  pendingAppointments : nat;
  completedAppointments : nat;
  cancelledAppointments : nat;
}.

(** [appointmentsByDate[date].filter(apt => apt.status === s).length] *)
Definition countStatus (s : AppointmentStatus.t) (day : list (string * Appointment)) : nat :=
  length (List.filter (fun apt => AppointmentStatus.eqb (aStatus apt.2) s) day).

Definition statsOf (groups : list (string * list (string * Appointment))) (date : string)
    : DailyStats :=
  let day := default [] (Calendar.entry date groups) in
  mkDailyStats date (length day)
    (countStatus AppointmentStatus.CONFIRMED day)
    (countStatus AppointmentStatus.PENDING day)
    (countStatus AppointmentStatus.COMPLETED day)
    (countStatus AppointmentStatus.CANCELLED day).

(** [Object.keys(appointmentsByDate).map(date => ({ ... }))] *)
Definition dailyStats (groups : list (string * list (string * Appointment)))
    : list DailyStats :=
  statsOf groups <$> Calendar.keys groups.

(** [summary]: the number of appointments and the sizes of the two [Set]. *)
Record Summary := mkSummary {
  summaryTotal : nat;
  uniqueVisitors : nat;
  uniqueUsers : nat;
}.

Definition summary (appointments : list (string * Appointment)) : Summary :=
  mkSummary (length appointments)
    (size (list_to_set ((fun apt => aVisitorId apt.2) <$> appointments) : gset string))
    (size (list_to_set ((fun apt => aUserId apt.2) <$> appointments) : gset string)).

End CalendarStats.

(** ** Authentication and roles *)

(** Modelled from the spec: the roles that the routes name, which are
    strings at run time; the schema that declares [UserRole] is not part of
    the sources. *)
Module UserRole.
Definition ADMIN : string := "ADMIN".
Definition POLITICIAN : string := "POLITICIAN".
Definition STAFF : string := "STAFF".
End UserRole.

(** The payload of a verified token, [req.user]. *)
Record AuthUser := mkAuthUser {
  authUserId : string;
  authEmail : string;
  authRole : string;
}.

(** The two functions of the module [./auth], which is not part of the
    sources: the token of an [authorization] header and the payload of a
    token, [None] for [null]. *)
Class Auth := {
  extractTokenFromHeader : option string -> option string;
  verifyToken : string -> option AuthUser;
}.

Section Middleware.
Context {auth : Auth}.

(** [withAuth(handler)]: the function that the route file exports, as the
    framework calls it, on the request (its [authorization] header) and the
    route context.  It is [async (req) => ...]: the context is not handed
    on to [handler]. *)
Definition withAuth {A} (handler : option AuthUser -> option RouteParams -> M A)
    (authHeader : option string) (context : option RouteParams) : M A :=
  let token := extractTokenFromHeader authHeader in
  if isTruthy token then
    match verifyToken (default "" token) with
    | Some payload => admitted (handler (Some payload)) context
    | None => respond 401 "Invalid or expired token"
    end
  else respond 401 "Authorization token required".

(** [withRole(roles)(handler)], on [req.user] and the further arguments
    [...args], which it hands on. *)
Definition withRole {A} (roles : list string) (handler : option RouteParams -> M A)
    (user : option AuthUser) (context : option RouteParams) : M A :=
  match user with
  | None => respond 401 "User not authenticated"
  | Some u =>
      if existsb (String.eqb (authRole u)) roles then handler context
      else respond 403 "Insufficient permissions"
  end.

End Middleware.

(** ** The queue actions *)

(** The JSON body of a queue action: the keys that the three schemas read,
    each a string (or a number) when present. *)
Record QueueJson := mkQueueJson {
  jsonVisitorId : option string;
  jsonUserId : option string;
  jsonAppointmentId : option string;
  jsonPurpose : option string;
  jsonNotes : option string;
  jsonVisitId : option string;
  jsonSatisfaction : Field Z;
}.

(** What [checkInSchema.parse] and [checkOutSchema.parse] make of it; a
    required key that is missing is a [ZodError]. *)
Definition parseCheckIn (j : QueueJson) : option CheckIn.Body :=
  match jsonVisitorId j, jsonUserId j with
  | Some v, Some u =>
      Some (CheckIn.mkBody v u (jsonAppointmentId j) (jsonPurpose j) (jsonNotes j))
  | _, _ => None
  end.

Definition parseCheckOut (j : QueueJson) : option CheckOut.Body :=
  match jsonVisitId j with
  | Some v => Some (CheckOut.mkBody v (jsonNotes j) (jsonSatisfaction j))
  | None => None
  end.

Inductive QueueAnswer :=
| CheckedIn (visit : string * Visit)
| CheckedOut (visit : Visit)
| Cancelled (visit : Visit).

(** The value of a step, transformed. *)
Definition mapM {A B} (f : A -> B) (m : M A) : M B := x <- m ;; ret (f x).

(** A handler on the body it parses, a [ZodError] being answered 400. *)
Definition parsed {A B} (body : option A) (handler : A -> M B) : M B :=
  match body with
  | Some b => handler b
  | None => respond 400 "Validation failed"
  end.

(** The [switch (action)] of POST /api/queue/actions: the cases compare
    [action] with [===], in order. *)
Definition queueAction (env : Env) (action : option string) (j : QueueJson) : M QueueAnswer :=
  let action := default "" action in
  if String.eqb action "checkin" then
    mapM CheckedIn (parsed (parseCheckIn j) (checkInVisitor env))
  else if String.eqb action "checkout" then
    mapM CheckedOut (parsed (parseCheckOut j) (checkOutVisitor env))
  else if String.eqb action "cancel" then
    mapM Cancelled (parsed (parseCheckOut j) (cancelVisit env))
  else respond 400 "Invalid action".

(** ** The routes *)

Module Api.

(** A call of one of the routes modelled here, with what the handler reads
    from the request. *)
Inductive Call :=
| POST_visits (b : CheckIn.Body)
| GET_visit (id : string)
| PUT_visit (id : string) (b : UpdateVisit.Body)
| DELETE_visit (id : string)
| POST_queue_actions (action : option string) (j : QueueJson)
| GET_queue (userId : option string)
| POST_appointments (b : CreateAppointment.Body)
| GET_appointment (id : string)
| PUT_appointment (id : string) (b : UpdateAppointment.Body)
| DELETE_appointment (id : string)
| GET_calendar (startDate endDate userId : option string)
| GET_issue (id : string)
| PUT_issue (id : string) (b : UpdateIssue.Body)
| DELETE_issue (id : string).

(** The roles of [withRole] on the routes that write. *)
Definition staff : list string := [UserRole.ADMIN; UserRole.POLITICIAN; UserRole.STAFF].
Definition managers : list string := [UserRole.ADMIN; UserRole.POLITICIAN].

(** The store and the HTTP status that a handler leaves. *)
Definition answer {A} (h : M A) (db : Db) : Db * Z :=
  ((run h db).1, statusCode (run h db).2).

Section Routes.
Context {host : JsDate} {auth : Auth}.

(** The exports of the route files, as the framework calls them: each
    handler under its wrappers, on the [authorization] header and the route
    context, which is [{ params: { id } }] on the [[id]] routes (the
    handlers of the other routes take the request only). *)
Definition serve (env : Env) (call : Call) (authHeader : option string) : Db -> Db * Z :=
  match call with
  | POST_visits b =>
      answer (withAuth (withRole staff (fun _ => createVisit env b)) authHeader None)
  | GET_visit id =>
      answer (withAuth (fun _ => getVisit) authHeader (Some (mkRouteParams id)))
  | PUT_visit id b =>
      answer (withAuth (withRole staff (fun context => updateVisit env context b))
                authHeader (Some (mkRouteParams id)))
  | DELETE_visit id =>
      answer (withAuth (withRole managers deleteVisit) authHeader (Some (mkRouteParams id)))
  | POST_queue_actions action j =>
      answer (withAuth (withRole staff (fun _ => queueAction env action j)) authHeader None)
  | GET_queue userId =>
      answer (withAuth (fun _ _ => Queue.getQueueStatus env userId) authHeader None)
  | POST_appointments b =>
      answer (withAuth (withRole staff (fun _ => createAppointment env b)) authHeader None)
  | GET_appointment id =>
      answer (withAuth (fun _ => getAppointment) authHeader (Some (mkRouteParams id)))
  | PUT_appointment id b =>
      answer (withAuth (withRole staff (fun context => updateAppointment context b))
                authHeader (Some (mkRouteParams id)))
  | DELETE_appointment id =>
      answer (withAuth (withRole managers deleteAppointment)
                authHeader (Some (mkRouteParams id)))
  | GET_calendar startDate endDate userId =>
      answer (withAuth (fun _ _ =>
                Calendar.getCalendarAppointments startDate endDate userId)
                authHeader None)
  | GET_issue id =>
      answer (withAuth (fun _ => getIssue) authHeader (Some (mkRouteParams id)))
  | PUT_issue id b =>
      answer (withAuth (withRole staff (fun context => updateIssue env context b))
                authHeader (Some (mkRouteParams id)))
  | DELETE_issue id =>
      answer (withAuth (withRole managers deleteIssue) authHeader (Some (mkRouteParams id)))
  end.

End Routes.
End Api.

(** ** Predicates of the further statements *)

(** An appointment that ends after it starts and lasts a positive number of
    minutes. *)
Definition wellFormed (a : Appointment) : Prop :=
  (startTime a < endTime a)%Z /\ (0 < duration a)%Z.

(** No staff user has two appointments on a day, neither CANCELLED nor
    NO_SHOW, whose half-open intervals meet. *)
Definition noDoubleBooking (db : Db) : Prop :=
  forall i j a b,
    appointments db !! i = Some a -> appointments db !! j = Some b -> i <> j ->
    aUserId a = aUserId b -> scheduledDate a = scheduledDate b ->
    notCancelledOrNoShow (aStatus a) = true -> notCancelledOrNoShow (aStatus b) = true ->
    ~ ((startTime a < endTime b)%Z /\ (startTime b < endTime a)%Z).

Definition allWellFormed (db : Db) : Prop :=
  forall i a, appointments db !! i = Some a -> wellFormed a.

(** The visit rows of a visitor. *)
Definition visitsOf (visitorId : string) (db : Db) : list (string * Visit) :=
  findMany (fun _ v => String.eqb (vVisitorId v) visitorId) (visits db).

(** [visitCount] is not below the number of visit rows of the visitor, and a
    visitor that is not registered has no visit row. *)
Definition countsVisits (db : Db) : Prop :=
  forall x,
    (Z.of_nat (length (visitsOf x db)) <=
     match visitors db !! x with Some v => visitCount v | None => 0 end)%Z.

(** A step that never writes, a step that writes nothing when it returns
    early, and a step that removes no row. *)
Definition readOnly {A} (m : M A) : Prop := forall db, (m db).1 = db.

Definition atomic {A} (m : M A) : Prop :=
  forall db db' s e, m db = (db', Return s e) -> db' = db.

Definition keepsRows (db db' : Db) : Prop :=
  dom (visitors db) ⊆ dom (visitors db') /\
  dom (users db) ⊆ dom (users db') /\
  dom (appointments db) ⊆ dom (appointments db') /\
  dom (visits db) ⊆ dom (visits db') /\
  dom (issues db) ⊆ dom (issues db').

Definition growing {A} (m : M A) : Prop := forall db, keepsRows db (m db).1.

(** The user that [withAuth] hands to the handler, if any. *)
Definition caller {auth : Auth} (authHeader : option string) : option AuthUser :=
  let token := extractTokenFromHeader authHeader in
  if isTruthy token then verifyToken (default "" token) else None.

Definition hasRole (roles : list string) (user : option AuthUser) : bool :=
  match user with
  | Some u => existsb (String.eqb (authRole u)) roles
  | None => false
  end.

(** The appointments after the appointment block of a check-in that wrote
    status [s]. *)
Definition linked (appointmentId : option string) (s : AppointmentStatus.t)
    (t : gmap string Appointment) : gmap string Appointment :=
  match appointmentId with
  | Some id =>
      if truthy id then
        match t !! id with
        | Some a => <[id := withAppointmentStatus s a]> t
        | None => t
        end
      else t
  | None => t
  end.

(** The calls that are served by a GET. *)
Definition isGet (call : Api.Call) : bool :=
  match call with
  | Api.GET_visit _ | Api.GET_queue _ | Api.GET_appointment _
  | Api.GET_calendar _ _ _ | Api.GET_issue _ => true
  | _ => false
  end.

(** The calls that are served by a DELETE, and the calls of the routes with
    an [[id]] segment. *)
Definition isDelete (call : Api.Call) : bool :=
  match call with
  | Api.DELETE_visit _ | Api.DELETE_appointment _ | Api.DELETE_issue _ => true
  | _ => false
  end.

Definition isById (call : Api.Call) : bool :=
  match call with
  | Api.GET_visit _ | Api.PUT_visit _ _ | Api.DELETE_visit _
  | Api.GET_appointment _ | Api.PUT_appointment _ _ | Api.DELETE_appointment _
  | Api.GET_issue _ | Api.PUT_issue _ _ | Api.DELETE_issue _ => true
  | _ => false
  end.

(** A step that leaves the visitors table alone. *)
Definition keepsVisitors {A} (m : M A) : Prop := forall db, visitors (m db).1 = visitors db.

(** The count of a condition: 1 when it holds. *)
Definition one (b : bool) : nat := if b then 1%nat else 0%nat.

Section RescheduledTimes.
Context {host : JsDate}.

(** The day and the start that the time block of the update computes, [None]
    for an Invalid Date. *)
Definition rescheduledDate (b : UpdateAppointment.Body) (existingAppointment : Appointment)
    : option Z :=
  match UpdateAppointment.scheduledDate b with
  | Some s => if truthy s then parseDate s else Some (scheduledDate existingAppointment)
  | None => Some (scheduledDate existingAppointment)
  end.

Definition rescheduledStart (b : UpdateAppointment.Body) (existingAppointment : Appointment)
    (day : Z) : option Z :=
  match UpdateAppointment.startTime b with
  | Some t => if truthy t then parseDate (isoDate day +:+ "T" +:+ t)
              else Some (startTime existingAppointment)
  | None => Some (startTime existingAppointment)
  end.

(** The interval end that goes with a start. *)
Definition rescheduledEnd (b : UpdateAppointment.Body) (existingAppointment : Appointment)
    (start : Z) : Z :=
  (start + durationOr (UpdateAppointment.duration b) (duration existingAppointment) * 60000)%Z.

End RescheduledTimes.

(** ** At the front desk *)

Module Desk.

(** A stand-in for the module [./auth]: the header is [Bearer <token>], and
    two tokens verify, one of the staff user s1 and one of a caller whose
    role is none of the three. *)
Definition bearer (authHeader : option string) : option string :=
  match authHeader with
  | Some h =>
      if String.prefix "Bearer " h
      then Some (String.substring 7 (String.length h - 7) h)
      else None
  | None => None
  end.

Definition verify (token : string) : option AuthUser :=
  if String.eqb token "t-staff" then Some (mkAuthUser "s1" "s1@office.example" UserRole.STAFF)
  else if String.eqb token "t-guest" then Some (mkAuthUser "g1" "g1@office.example" "GUEST")
  else None.

#[export] Instance tokens : Auth := {|
  extractTokenFromHeader := bearer;
  verifyToken := verify;
|}.

(** The bodies [{ startTime }] and [{ userId }] of an appointment update. *)
Definition moveTo (startTime : string) : UpdateAppointment.Body :=
  UpdateAppointment.mkBody None None None (Some startTime) None None None.

Definition reassign (userId : string) : UpdateAppointment.Body :=
  UpdateAppointment.mkBody None (Some userId) None None None None None.

(** Two appointments at 10:00 on 2024-01-10, one with each staff user. *)
Definition twoBooked : Db :=
  mkDb {[ "v1" := mkVisitor "Asha" 0 None; "v2" := mkVisitor "Bala" 0 None ]}
       {[ "s1" := mkUser "Staff One"; "s2" := mkUser "Staff Two" ]}
       {[ "a1" := Office.atTen AppointmentStatus.PENDING;
          "a2" := mkAppointment "Flood relief" "v2" "s2" 1704844800000 1704880800000
                    1704882600000 30 AppointmentStatus.CONFIRMED Priority.NORMAL ]}
       ∅ ∅.

(** A request for half an hour with staff user s1 on 2024-01-10, for a
    visitor. *)
Definition requestFor (visitorId startTime : string) : CreateAppointment.Body :=
  CreateAppointment.mkBody "Road repair" visitorId "s1" "2024-01-10" startTime (Some 30) None.

(** The body [{ status: 'IN_PROGRESS', resolvedDate }] of an issue update. *)
Definition reopen (f : Field string) : UpdateIssue.Body :=
  UpdateIssue.mkBody None None None (Some IssueStatus.IN_PROGRESS) Undefined Undefined f
    Undefined.

(** The visit in progress of [Office.booked]. *)
Definition inProgress : Visit :=
  mkVisit "v1" "s1" None 1704880000000 None VisitStatus.IN_PROGRESS None None None.

(** A queue action body without any key. *)
Definition noKeys : QueueJson := mkQueueJson None None None None None None Undefined.

End Desk.

(** ** The completed visits of the queue *)

(** ** Lemmas on the enumerations *)

Lemma VisitStatus_eqb_eq a b : VisitStatus.eqb a b = true <-> a = b.
Proof. destruct a, b; simpl; split; congruence. Qed.

Lemma VisitStatus_eqb_neq a b : VisitStatus.eqb a b = false <-> a <> b.
Proof. destruct a, b; simpl; split; congruence. Qed.

Lemma AppointmentStatus_eqb_eq a b : AppointmentStatus.eqb a b = true <-> a = b.
Proof. destruct a, b; simpl; split; congruence. Qed.

Lemma Priority_eqb_eq a b : Priority.eqb a b = true <-> a = b.
Proof. destruct a, b; simpl; split; congruence. Qed.

Lemma IssueStatus_eqb_eq a b : IssueStatus.eqb a b = true <-> a = b.
Proof. destruct a, b; simpl; split; congruence. Qed.

(** ** Lemmas on the store's client *)

Lemma findFirst_Some {A} (cond : string -> A -> bool) (t : gmap string A) k v :
  findFirst cond t = Some (k, v) -> t !! k = Some v /\ cond k v = true.
Proof.
  unfold findFirst, rows. intros H. apply find_some in H as [Hin Hc].
  split; [|exact Hc].
  apply elem_of_map_to_list, list_elem_of_In, Hin.
Qed.

Lemma findFirst_None {A} (cond : string -> A -> bool) (t : gmap string A) :
  findFirst cond t = None <-> forall k v, t !! k = Some v -> cond k v = false.
Proof.
  unfold findFirst, rows. split.
  - intros H k v Hkv.
    apply (find_none _ _ H (k, v)), list_elem_of_In, elem_of_map_to_list, Hkv.
  - intros H. destruct (find _ _) as [[k v]|] eqn:E; [|done].
    apply find_some in E as [Hin Hc].
    apply list_elem_of_In, elem_of_map_to_list in Hin.
    simpl in Hc. rewrite (H k v Hin) in Hc. discriminate.
Qed.

Lemma findFirst_exists {A} (cond : string -> A -> bool) (t : gmap string A) k v :
  t !! k = Some v -> cond k v = true -> exists r, findFirst cond t = Some r.
Proof.
  intros Hkv Hc. destruct (findFirst cond t) as [r|] eqn:E; [eauto|].
  rewrite findFirst_None in E. rewrite (E k v Hkv) in Hc. discriminate.
Qed.

Lemma findMany_In {A} (cond : string -> A -> bool) (t : gmap string A) k v :
  In (k, v) (findMany cond t) <-> t !! k = Some v /\ cond k v = true.
Proof.
  unfold findMany, rows. rewrite filter_In. simpl.
  by rewrite <- list_elem_of_In, elem_of_map_to_list.
Qed.

Lemma activeVisitOf_true visitorId k v :
  activeVisitOf visitorId k v = true <->
  vVisitorId v = visitorId /\ vStatus v = VisitStatus.IN_PROGRESS.
Proof.
  unfold activeVisitOf. rewrite andb_true_iff, String.eqb_eq, VisitStatus_eqb_eq. done.
Qed.

(** The duplicate check answers 409 exactly when the visitor has a visit in
    progress, and never writes. *)
Lemma rejectActive_active visitorId db k v :
  visits db !! k = Some v -> activeVisitOf visitorId k v = true ->
  rejectActive visitorId db = (db, Return 409 "Visitor already has an active visit").
Proof.
  intros Hkv Hc. unfold rejectActive, visit_findFirst, bind, get, ret. simpl.
  destruct (findFirst_exists _ _ _ _ Hkv Hc) as [r ->]. done.
Qed.

Lemma rejectActive_none visitorId db :
  (forall k v, visits db !! k = Some v -> activeVisitOf visitorId k v = false) ->
  rejectActive visitorId db = (db, Next tt).
Proof.
  intros H. unfold rejectActive, visit_findFirst, bind, get, ret. simpl.
  apply findFirst_None in H. by rewrite H.
Qed.

Lemma rejectActive_cases visitorId db :
  (rejectActive visitorId db = (db, Next tt) /\
   forall k v, visits db !! k = Some v -> activeVisitOf visitorId k v = false) \/
  (rejectActive visitorId db = (db, Return 409 "Visitor already has an active visit") /\
   exists k v, visits db !! k = Some v /\ activeVisitOf visitorId k v = true).
Proof.
  destruct (findFirst (activeVisitOf visitorId) (visits db)) as [[k v]|] eqn:E.
  - right. apply findFirst_Some in E as [Hkv Hc].
    split; [by eapply rejectActive_active | eauto].
  - left. rewrite findFirst_None in E. split; [by apply rejectActive_none | done].
Qed.

(** The appointment block touches the appointments table only. *)
Lemma linkAppointment_cases appointmentId s db :
  (linkAppointment appointmentId s db = (db, Next tt) /\ isTruthy appointmentId = false) \/
  (exists id, appointmentId = Some id /\ truthy id = true /\ appointments db !! id = None /\
     linkAppointment appointmentId s db = (db, Return 404 "Appointment not found")) \/
  (exists id a, appointmentId = Some id /\ truthy id = true /\ appointments db !! id = Some a /\
     linkAppointment appointmentId s db =
       (set_appointments <[id := withAppointmentStatus s a]> db, Next tt)).
Proof.
  destruct appointmentId as [id|]; simpl; [|by left].
  destruct (truthy id) eqn:Ht; [|by left].
  right. unfold appointment_findUnique, appointment_update, references, bind, get, ret, modify,
    orReturn. simpl.
  destruct (appointments db !! id) as [a|] eqn:Ha; simpl.
  - right. exists id, a. rewrite Ha. simpl. done.
  - left. exists id. done.
Qed.

(** ** Check-in *)

Ltac open_handler :=
  unfold run, admitted, idOf, references, bind, validate, orReturn, respond, throw, get, ret,
    modify, visitor_findUnique, user_findUnique, visit_findUnique, appointment_findUnique,
    issue_findUnique; simpl.

Lemma createVisit_active env b db k v :
  visits db !! k = Some v -> activeVisitOf (CheckIn.visitorId b) k v = true ->
  exists db' s e,
    run (createVisit env b) db = (db', Failure s e) /\
    visits db' = visits db /\ visitors db' = visitors db /\ users db' = users db /\
    (resolves b db -> s = 409 /\ e = "Visitor already has an active visit").
Proof.
  intros Hkv Hact. unfold createVisit, resolves. open_handler.
  destruct (CheckIn.schema b); simpl.
  2: { eexists _, _, _. split_and!; try reflexivity. intros (? & _); done. }
  destruct (visitors db !! CheckIn.visitorId b) eqn:Hv; simpl.
  2: { eexists _, _, _. split_and!; try reflexivity. intros (_ & [? ?] & _); done. }
  destruct (users db !! CheckIn.userId b) eqn:Hu; simpl.
  2: { eexists _, _, _. split_and!; try reflexivity. intros (_ & _ & [? ?] & _); done. }
  destruct (linkAppointment_cases (CheckIn.appointmentId b) AppointmentStatus.COMPLETED db)
    as [[-> _] | [(id & Hid & Ht & Hnone & ->) | (id & a & Hid & Ht & Ha & ->)]].
  - rewrite (rejectActive_active _ _ _ _ Hkv Hact). eexists _, _, _. done.
  - eexists _, _, _. split_and!; try reflexivity.
    intros (_ & _ & _ & Happ). destruct (Happ id Hid Ht) as [? ?]. congruence.
  - rewrite (rejectActive_active _ (set_appointments _ db) k v Hkv Hact).
    eexists _, _, _. done.
Qed.

Lemma checkInVisitor_active env b db k v :
  visits db !! k = Some v -> activeVisitOf (CheckIn.visitorId b) k v = true ->
  exists s e,
    run (checkInVisitor env b) db = (db, Failure s e) /\
    (resolves b db -> s = 409 /\ e = "Visitor already has an active visit").
Proof.
  intros Hkv Hact. unfold checkInVisitor, resolves. open_handler.
  destruct (CheckIn.schema b); simpl.
  2: { eexists _, _. split; [reflexivity|]. intros (? & _); done. }
  destruct (visitors db !! CheckIn.visitorId b) eqn:Hv; simpl.
  2: { eexists _, _. split; [reflexivity|]. intros (_ & [? ?] & _); done. }
  destruct (users db !! CheckIn.userId b) eqn:Hu; simpl.
  2: { eexists _, _. split; [reflexivity|]. intros (_ & _ & [? ?] & _); done. }
  rewrite (rejectActive_active _ _ _ _ Hkv Hact). eexists _, _. done.
Qed.

(** C4.  When the visitor of a check-in already has a visit in progress, the
    attempt fails through either entry point, creates no visit row and
    leaves every visitor row, so every [visitCount], as it was; when the
    body is otherwise in order (it passes the schema and the visitor, the
    staff user and the appointment it names exist) the failure is the 409
    of the duplicate check. *)
Theorem second_check_in_rejected env b db k v :
  visits db !! k = Some v ->
  vVisitorId v = CheckIn.visitorId b ->
  vStatus v = VisitStatus.IN_PROGRESS ->
  (exists db' s e,
     run (createVisit env b) db = (db', Failure s e) /\
     visits db' = visits db /\ visitors db' = visitors db /\
     (resolves b db -> s = 409)) /\
  (exists db' s e,
     run (checkInVisitor env b) db = (db', Failure s e) /\
     visits db' = visits db /\ visitors db' = visitors db /\
     (resolves b db -> s = 409)).
Proof.
  intros Hkv Hvis Hst.
  assert (Hact : activeVisitOf (CheckIn.visitorId b) k v = true)
    by by apply activeVisitOf_true.
  split.
  - destruct (createVisit_active env b db k v Hkv Hact)
      as (db' & s & e & Hrun & Hv & Hvs & _ & H409).
    exists db', s, e. split_and!; try done. intros Hr. by apply H409.
  - destruct (checkInVisitor_active env b db k v Hkv Hact) as (s & e & Hrun & H409).
    exists db, s, e. split_and!; try done. intros Hr. by apply H409.
Qed.

(** C10.  A check-in through POST /api/visits that names an existing
    appointment for a visitor who already has a visit in progress is
    answered 409 and creates no visit, but the store it leaves has the
    appointment set to COMPLETED; the same request through the queue action
    is answered 409 and leaves the store as it was. *)
Theorem rejected_check_in_writes_appointment env b db k v id a :
  resolves b db ->
  CheckIn.appointmentId b = Some id -> truthy id = true ->
  appointments db !! id = Some a ->
  visits db !! k = Some v ->
  vVisitorId v = CheckIn.visitorId b ->
  vStatus v = VisitStatus.IN_PROGRESS ->
  run (createVisit env b) db =
    (set_appointments <[id := withAppointmentStatus AppointmentStatus.COMPLETED a]> db,
     Failure 409 "Visitor already has an active visit") /\
  run (checkInVisitor env b) db =
    (db, Failure 409 "Visitor already has an active visit").
Proof.
  intros (Hschema & [x Hx] & [u Hu] & _) Hid Ht Ha Hkv Hvis Hst.
  assert (Hact : activeVisitOf (CheckIn.visitorId b) k v = true)
    by by apply activeVisitOf_true.
  split.
  - unfold createVisit. open_handler. rewrite Hschema, Hx, Hu. simpl.
    destruct (linkAppointment_cases (CheckIn.appointmentId b) AppointmentStatus.COMPLETED db)
      as [[_ Hf] | [(id' & Hid' & _ & Hnone & _) | (id' & a' & Hid' & _ & Ha' & ->)]].
    + rewrite Hid in Hf. simpl in Hf. congruence.
    + congruence.
    + assert (id' = id) as -> by congruence. assert (a' = a) as -> by congruence.
      by rewrite (rejectActive_active _ (set_appointments _ db) k v Hkv Hact).
  - unfold checkInVisitor. open_handler. rewrite Hschema, Hx, Hu. simpl.
    by rewrite (rejectActive_active _ _ _ _ Hkv Hact).
Qed.

(** ** Check-out *)

Lemma checkOutVisitor_missing env b db :
  CheckOut.schema b = true -> visits db !! CheckOut.visitId b = None ->
  run (checkOutVisitor env b) db = (db, Failure 404 "Visit not found").
Proof.
  intros Hs Hnone. unfold checkOutVisitor. open_handler. by rewrite Hs, Hnone.
Qed.

Lemma checkOutVisitor_not_in_progress env b db v :
  CheckOut.schema b = true -> visits db !! CheckOut.visitId b = Some v ->
  vStatus v <> VisitStatus.IN_PROGRESS ->
  run (checkOutVisitor env b) db = (db, Failure 400 "Visit is not in progress").
Proof.
  intros Hs Hv Hst. unfold checkOutVisitor, requireInProgress. open_handler.
  rewrite Hs, Hv. simpl.
  apply VisitStatus_eqb_neq in Hst. by rewrite Hst.
Qed.

Lemma closeAppointment_visits visit s db :
  visits (closeAppointment visit s db).1 = visits db.
Proof.
  unfold closeAppointment, appointment_update. open_handler.
  destruct (appointmentId visit) as [id|]; [|done].
  destruct (truthy id); [|done].
  by destruct (appointments db !! id).
Qed.

(** The visits table after a check-out that passed the two guards. *)
Lemma checkOutVisitor_in_progress env b db v :
  CheckOut.schema b = true -> visits db !! CheckOut.visitId b = Some v ->
  vStatus v = VisitStatus.IN_PROGRESS ->
  visits (run (checkOutVisitor env b) db).1 =
    <[CheckOut.visitId b := checkOutData env b v v]> (visits db).
Proof.
  intros Hs Hv Hst. unfold checkOutVisitor, requireInProgress, visit_update. open_handler.
  rewrite Hs, Hv. simpl. rewrite Hst. simpl. rewrite Hv. simpl.
  match goal with
  | |- context [closeAppointment ?x ?s ?d] =>
      pose proof (closeAppointment_visits x s d) as Hc;
      destruct (closeAppointment x s d) as [db2 [[]|]]
  end; simpl in *; exact Hc.
Qed.

(** C5.  A check-out whose body passes the schema is answered 404 when the
    visit does not exist and 400 when the visit is not in progress, the
    store staying as it was; so after a first check-out of a visit in
    progress, which stamps [checkOutTime] with its own clock reading, a
    second check-out of the same visit is answered 400 and leaves the store,
    and with it that [checkOutTime], unchanged. *)
Theorem checkOut_guards env b db :
  CheckOut.schema b = true ->
  (visits db !! CheckOut.visitId b = None ->
     run (checkOutVisitor env b) db = (db, Failure 404 "Visit not found")) /\
  (forall v, visits db !! CheckOut.visitId b = Some v ->
     vStatus v <> VisitStatus.IN_PROGRESS ->
     run (checkOutVisitor env b) db = (db, Failure 400 "Visit is not in progress")) /\
  (forall v env2 b2,
     visits db !! CheckOut.visitId b = Some v ->
     vStatus v = VisitStatus.IN_PROGRESS ->
     CheckOut.schema b2 = true -> CheckOut.visitId b2 = CheckOut.visitId b ->
     let db1 := (run (checkOutVisitor env b) db).1 in
     (exists w, visits db1 !! CheckOut.visitId b = Some w /\
        vStatus w = VisitStatus.COMPLETED /\ checkOutTime w = Some (now env)) /\
     run (checkOutVisitor env2 b2) db1 = (db1, Failure 400 "Visit is not in progress")).
Proof.
  intros Hs. split_and!.
  - by apply checkOutVisitor_missing.
  - intros v. by apply checkOutVisitor_not_in_progress.
  - intros v env2 b2 Hv Hst Hs2 Hid db1.
    assert (Hw : visits db1 !! CheckOut.visitId b = Some (checkOutData env b v v)).
    { unfold db1. rewrite (checkOutVisitor_in_progress env b db v Hs Hv Hst).
      apply lookup_insert_eq. }
    split.
    + eexists. split; [exact Hw|]. done.
    + apply (checkOutVisitor_not_in_progress env2 b2 db1 (checkOutData env b v v)); try done.
      by rewrite Hid.
Qed.

(** ** The visits table after each operation *)

Lemma linkAppointment_visits appointmentId s db :
  visits (linkAppointment appointmentId s db).1 = visits db /\
  visitors (linkAppointment appointmentId s db).1 = visitors db.
Proof.
  destruct (linkAppointment_cases appointmentId s db)
    as [[-> _] | [(id & _ & _ & _ & ->) | (id & a & _ & _ & _ & ->)]]; done.
Qed.





Lemma checkOutVisitor_effect env b db :
  closeEffect (CheckOut.visitId b) (fun v => checkOutData env b v v) db
    (run (checkOutVisitor env b) db).1.
Proof.
  destruct (CheckOut.schema b) eqn:Hs.
  2: { left. unfold checkOutVisitor. open_handler. by rewrite Hs. }
  destruct (visits db !! CheckOut.visitId b) as [v|] eqn:Hv.
  2: { left. by rewrite checkOutVisitor_missing. }
  destruct (decide (vStatus v = VisitStatus.IN_PROGRESS)) as [Hst|Hst].
  - right. exists v. split_and!; try done. by apply checkOutVisitor_in_progress.
  - left. by rewrite (checkOutVisitor_not_in_progress env b db v).
Qed.

Lemma cancelVisit_effect env b db :
  closeEffect (CheckOut.visitId b) (fun v => cancelData env b v v) db
    (run (cancelVisit env b) db).1.
Proof.
  unfold cancelVisit, requireInProgress, visit_update, closeEffect. open_handler.
  destruct (truthy (CheckOut.visitId b)); simpl; [|by left].
  destruct (visits db !! CheckOut.visitId b) as [v|] eqn:Hv; simpl; [|by left].
  destruct (decide (vStatus v = VisitStatus.IN_PROGRESS)) as [Hst|Hst].
  - right. exists v. rewrite Hst. simpl. rewrite Hv. simpl. split_and!; try done.
    match goal with
    | |- context [closeAppointment ?x ?s ?d] =>
        pose proof (closeAppointment_visits x s d) as Hc;
        destruct (closeAppointment x s d) as [db2 [[]|]]
    end; simpl in *; exact Hc.
  - left. apply VisitStatus_eqb_neq in Hst. by rewrite Hst.
Qed.

(** What the visit update does to the visits when it is handed a route
    context: nothing, or it rewrites the row it names with the body,
    whatever the status of that row. *)
Lemma updateVisit_effect env context b db :
  visits (run (updateVisit env context b) db).1 = visits db \/
  (exists c v, context = Some c /\ visits db !! paramsId c = Some v /\
     UpdateVisit.schema b = true /\
     visits (run (updateVisit env context b) db).1 =
       <[paramsId c := updateVisitData b (stampCheckOut env b v) v]> (visits db)).
Proof.
  unfold updateVisit, visit_update. open_handler.
  destruct context as [[id]|]; simpl; [|by left].
  destruct (UpdateVisit.schema b); simpl; [|by left].
  destruct (visits db !! id) as [v|] eqn:Hv; simpl; [|by left].
  right. exists (mkRouteParams id), v. rewrite Hv. done.
Qed.

Lemma deleteVisit_effect context db :
  visits (run (deleteVisit context) db).1 = visits db \/
  (exists c, context = Some c /\
     visits (run (deleteVisit context) db).1 = delete (paramsId c) (visits db)).
Proof.
  unfold deleteVisit, visit_delete. open_handler.
  destruct context as [[id]|]; simpl; [|by left].
  destruct (visits db !! id) as [v|] eqn:Hv; simpl; [|by left].
  right. exists (mkRouteParams id). by rewrite Hv.
Qed.

(** A handler of an [[id]] route that is exported under [withAuth] stops at
    its first statement. *)
Lemma admitted_updateVisit env context b db :
  run (admitted (fun context => updateVisit env context b) context) db
    = (db, Failure 500 "Internal server error").
Proof. reflexivity. Qed.

Lemma admitted_deleteVisit context db :
  run (admitted deleteVisit context) db = (db, Failure 500 "Internal server error").
Proof. reflexivity. Qed.

(** ** The life cycle of a visit *)





(** ** One visit in progress per visitor *)









(** ** Scheduling conflicts *)

(** On an existing appointment that ends after it starts and a new interval
    of positive length, the three blocks of the query's [OR] together are
    the intersection test of two half-open intervals. *)
Lemma overlapsOR_half_open a s e :
  startTime a < endTime a -> s < e ->
  overlapsOR a s e = true <-> startTime a < e /\ s < endTime a.
Proof.
  intros Ha Hse. unfold overlapsOR.
  rewrite !orb_true_iff, !andb_true_iff.
  rewrite Z.leb_le, Z.gtb_gt, Z.ltb_lt, Z.geb_ge, Z.geb_ge, Z.leb_le. lia.
Qed.

Lemma overlapsOR_adjacent a s e :
  startTime a < endTime a -> s < e ->
  endTime a = s \/ startTime a = e ->
  overlapsOR a s e = false.
Proof.
  intros Ha Hse Hadj. apply not_true_is_false. rewrite overlapsOR_half_open by done. lia.
Qed.

Lemma notCancelledOrNoShow_true st :
  notCancelledOrNoShow st = true <->
  st <> AppointmentStatus.CANCELLED /\ st <> AppointmentStatus.NO_SHOW.
Proof. destruct st; simpl; split; try done; intros [? ?]; congruence. Qed.

Lemma conflictWhere_true userId day s e k a :
  conflictWhere userId day s e k a = true <->
  aUserId a = userId /\ scheduledDate a = day /\ overlapsOR a s e = true /\
  notCancelledOrNoShow (aStatus a) = true.
Proof.
  unfold conflictWhere. rewrite !andb_true_iff, String.eqb_eq, Z.eqb_eq. tauto.
Qed.

Lemma schema_duration b :
  CreateAppointment.schema b = true ->
  15 <= CreateAppointment.durationOf b <= 240.
Proof.
  unfold CreateAppointment.schema. rewrite !andb_true_iff, !Z.leb_le. tauto.
Qed.

Section Scheduler.
Context {host : JsDate}.

Lemma createAppointment_conflict env b db s day k a :
  CreateAppointment.schema b = true ->
  parseDate (CreateAppointment.scheduledDate b +:+ "T" +:+ CreateAppointment.startTime b)
    = Some s ->
  parseDate (CreateAppointment.scheduledDate b) = Some day ->
  appointments db !! k = Some a ->
  conflictWhere (CreateAppointment.userId b) day s
    (s + CreateAppointment.durationOf b * 60000) k a = true ->
  run (createAppointment env b) db =
    (db, Failure 409 "Scheduling conflict detected. Please choose a different time.").
Proof.
  intros Hs Hstart Hday Hka Hc.
  unfold createAppointment, appointment_findMany, validDate. open_handler.
  rewrite Hs, Hstart, Hday. simpl.
  assert (Hin : In (k, a) (findMany (conflictWhere (CreateAppointment.userId b) day s
             (s + CreateAppointment.durationOf b * 60000)) (appointments db)))
    by by apply findMany_In.
  destruct (findMany _ _) as [|x l]; [done|]. done.
Qed.

Lemma createAppointment_free env b db s day :
  CreateAppointment.schema b = true ->
  parseDate (CreateAppointment.scheduledDate b +:+ "T" +:+ CreateAppointment.startTime b)
    = Some s ->
  parseDate (CreateAppointment.scheduledDate b) = Some day ->
  (forall k a, appointments db !! k = Some a ->
     conflictWhere (CreateAppointment.userId b) day s
       (s + CreateAppointment.durationOf b * 60000) k a = false) ->
  is_Some (visitors db !! CreateAppointment.visitorId b) ->
  is_Some (users db !! CreateAppointment.userId b) ->
  appointments db !! newId env = None ->
  run (createAppointment env b) db =
    (set_appointments <[newId env := newAppointment b day s (s + CreateAppointment.durationOf b * 60000)]> db,
     Success (newId env, newAppointment b day s (s + CreateAppointment.durationOf b * 60000))).
Proof.
  intros Hs Hstart Hday Hfree [x Hx] [u Hu] Hid.
  unfold createAppointment, appointment_findMany, appointment_create, validDate. open_handler.
  rewrite Hs, Hstart, Hday. simpl.
  destruct (findMany _ _) as [|[k a] l] eqn:E.
  - simpl. repeat (progress (rewrite ?Hx, ?Hu, ?Hid; simpl)). done.
  - assert (Hin : In (k, a) (findMany (conflictWhere (CreateAppointment.userId b) day s
             (s + CreateAppointment.durationOf b * 60000)) (appointments db)))
      by (rewrite E; left; done).
    apply findMany_In in Hin as [Hka Hc]. rewrite (Hfree k a Hka) in Hc. discriminate.
Qed.

(** C1.  For a request that passes the schema, whose dates are read as
    [day] and [s] and that asks for [d] minutes (the [duration] of the body,
    30 when it has none), the new interval runs from [s] to
    [e = s + d * 60000] and [d] is from 15 to 240: an existing appointment
    of the same staff user on the same day, neither CANCELLED nor NO_SHOW,
    that one of the three blocks of the overlap test matches makes the
    answer 409 and the store stays as it was; the test is the half-open one,
    so an appointment that ends at [s] or starts at [e] does not match it;
    and when no such appointment matches and the visitor and the staff user
    exist, the request succeeds and stores the appointment under the
    generated id, from [s] to [e], for [d] minutes. *)
Theorem schedule_conflict env b db s day d :
  CreateAppointment.schema b = true ->
  parseDate (CreateAppointment.scheduledDate b +:+ "T" +:+ CreateAppointment.startTime b)
    = Some s ->
  parseDate (CreateAppointment.scheduledDate b) = Some day ->
  match CreateAppointment.duration b with Some m => d = m | None => d = 30 end ->
  let e := s + d * 60000 in
  15 <= d <= 240 /\
  (forall k a, appointments db !! k = Some a ->
     aUserId a = CreateAppointment.userId b -> scheduledDate a = day ->
     aStatus a <> AppointmentStatus.CANCELLED -> aStatus a <> AppointmentStatus.NO_SHOW ->
     overlapsOR a s e = true ->
     run (createAppointment env b) db =
       (db, Failure 409 "Scheduling conflict detected. Please choose a different time."))
  /\
  (forall a,
     (overlapsOR a s e = true <->
        (startTime a <= s /\ endTime a > s) \/
        (startTime a < e /\ endTime a >= e) \/
        (startTime a >= s /\ endTime a <= e)) /\
     (startTime a < endTime a ->
        (overlapsOR a s e = true <-> startTime a < e /\ s < endTime a) /\
        (endTime a = s \/ startTime a = e -> overlapsOR a s e = false)))
  /\
  ((forall k a, appointments db !! k = Some a ->
      aUserId a = CreateAppointment.userId b -> scheduledDate a = day ->
      aStatus a <> AppointmentStatus.CANCELLED -> aStatus a <> AppointmentStatus.NO_SHOW ->
      overlapsOR a s e = false) ->
   is_Some (visitors db !! CreateAppointment.visitorId b) ->
   is_Some (users db !! CreateAppointment.userId b) ->
   appointments db !! newId env = None ->
   exists r,
     run (createAppointment env b) db =
       (set_appointments <[newId env := r]> db, Success (newId env, r)) /\
     (aVisitorId r, aUserId r, scheduledDate r, startTime r, endTime r, duration r)
       = (CreateAppointment.visitorId b, CreateAppointment.userId b, day, s, e, d)).
Proof.
  intros Hs Hstart Hday Hd e.
  assert (Hdur : d = CreateAppointment.durationOf b).
  { unfold CreateAppointment.durationOf. by destruct (CreateAppointment.duration b); subst. }
  pose proof (schema_duration b Hs) as Hrange. rewrite <- Hdur in Hrange.
  assert (Hse : s < e) by (unfold e; lia).
  split_and!; try lia.
  - intros k a Hka Hu Hdate Hc Hn Ho.
    eapply createAppointment_conflict; try done.
    apply conflictWhere_true. rewrite <- Hdur. split_and!; try done.
    by apply notCancelledOrNoShow_true.
  - intros a. split; [|intros Ha; split].
    + unfold overlapsOR. rewrite !orb_true_iff, !andb_true_iff.
      rewrite Z.leb_le, Z.gtb_gt, Z.ltb_lt, Z.geb_ge, Z.geb_ge, Z.leb_le. tauto.
    + by apply overlapsOR_half_open.
    + by apply overlapsOR_adjacent.
  - intros Hfree Hx Hu Hid. eexists. split.
    + apply createAppointment_free; try done.
      intros k a Hka. apply not_true_is_false. intros Hc.
      apply conflictWhere_true in Hc as (Hu' & Hdate & Ho & Hst).
      apply notCancelledOrNoShow_true in Hst as [Hc1 Hc2].
      rewrite <- Hdur in Ho.
      pose proof (Hfree k a Hka Hu' Hdate Hc1 Hc2) as Hf. unfold e in Hf. congruence.
    + simpl. rewrite <- Hdur. done.
Qed.

End Scheduler.

(** ** Sorting *)

Lemma StronglySorted_weaken {A} (R R' : A -> A -> Prop) l :
  (forall a b, R a b -> R' a b) -> StronglySorted R l -> StronglySorted R' l.
Proof.
  intros HR. induction 1 as [|x l Hl IH Hx]; constructor; [done|].
  eapply Forall_impl; [exact Hx|]. intros y. apply HR.
Qed.

Section Sort.
Context {A : Type} (compare : A -> A -> Z).

#[local] Abbreviation le := (ordered compare).

Lemma insertBy_Permutation x l : Permutation (insertBy compare x l) (x :: l).
Proof.
  induction l as [|y l IH]; simpl; [done|].
  destruct (compare x y <=? 0)%Z; [done|].
  rewrite IH. apply perm_swap.
Qed.

Lemma sort_Permutation l : Permutation (sort compare l) l.
Proof.
  induction l as [|x l IH]; simpl; [done|].
  unfold sort in *. simpl. rewrite insertBy_Permutation. by constructor.
Qed.

Lemma sort_In x l : In x (sort compare l) <-> In x l.
Proof.
  split; apply Permutation_in; [|symmetry]; apply sort_Permutation.
Qed.

Lemma sort_length l : length (sort compare l) = length l.
Proof. apply Permutation_length, sort_Permutation. Qed.

Hypothesis le_total : forall a b, le a b \/ le b a.
Hypothesis le_trans : forall a b c, le a b -> le b c -> le a c.

Lemma insertBy_sorted x l :
  StronglySorted le l -> StronglySorted le (insertBy compare x l).
Proof.
  induction 1 as [|y l Hl IH Hy]; simpl.
  - repeat constructor.
  - destruct (compare x y <=? 0)%Z eqn:E.
    + apply Z.leb_le in E. constructor; [by constructor|].
      constructor; [exact E|].
      eapply Forall_impl; [exact Hy|]. intros z Hz. by apply (le_trans x y z).
    + apply Z.leb_gt in E. constructor; [exact IH|].
      assert (Hyx : le y x)
        by (destruct (le_total x y) as [Hxy|]; [unfold ordered in Hxy; lia | done]).
      apply List.Forall_forall. intros z Hz.
      apply (Permutation_in _ (insertBy_Permutation x l)) in Hz as [<- | Hz]; [done|].
      rewrite List.Forall_forall in Hy. by apply Hy.
Qed.

Lemma sort_sorted l : StronglySorted le (sort compare l).
Proof.
  induction l as [|x l IH]; [constructor|]. by apply insertBy_sorted.
Qed.

End Sort.

(** ** The order of the queue *)

Lemma priorityOrder_inj p q : Queue.priorityOrder p = Queue.priorityOrder q -> p = q.
Proof. destruct p, q; simpl; intros; congruence || lia. Qed.

(** The comparison function puts [a] first exactly when [a] is before [b] in
    the order of the spec. *)
Lemma compareActive_before a b :
  Queue.compareActive a b <= 0 <-> Queue.before a b.
Proof.
  unfold Queue.compareActive, Queue.before.
  destruct (Priority.eqb (Queue.priorityOfRow a) (Queue.priorityOfRow b)) eqn:E; simpl.
  - apply Priority_eqb_eq in E. rewrite E. split; [intros; right; split; [done|lia] |].
    intros [? | [_ ?]]; lia.
  - assert (Hne : Queue.priorityOfRow a <> Queue.priorityOfRow b).
    { intros Heq. apply Priority_eqb_eq in Heq. congruence. }
    assert (Queue.priorityOrder (Queue.priorityOfRow a) <>
            Queue.priorityOrder (Queue.priorityOfRow b))
      by (intros Heq; by apply priorityOrder_inj in Heq).
    split; [intros; left; lia | intros [? | [? _]]; [lia | done]].
Qed.

Lemma before_total a b : Queue.before a b \/ Queue.before b a.
Proof.
  unfold Queue.before.
  destruct (decide (Queue.priorityOfRow a = Queue.priorityOfRow b)) as [->|Hne].
  - destruct (Z.le_ge_cases (Queue.checkInTimeOf a) (Queue.checkInTimeOf b)); [left | right];
      right; split; done || lia.
  - assert (Queue.priorityOrder (Queue.priorityOfRow a) <>
            Queue.priorityOrder (Queue.priorityOfRow b))
      by (intros Heq; by apply priorityOrder_inj in Heq).
    destruct (Z.lt_ge_cases (Queue.priorityOrder (Queue.priorityOfRow a))
                (Queue.priorityOrder (Queue.priorityOfRow b))); [right | left]; left; lia.
Qed.

Lemma before_trans a b c : Queue.before a b -> Queue.before b c -> Queue.before a c.
Proof.
  unfold Queue.before. intros [Hab | [Eab Tab]] [Hbc | [Ebc Tbc]].
  - left. lia.
  - left. rewrite <- Ebc. lia.
  - left. rewrite Eab. lia.
  - right. split; [congruence | lia].
Qed.

Lemma sort_compareActive_sorted l :
  StronglySorted Queue.before (sort Queue.compareActive l).
Proof.
  eapply StronglySorted_weaken; [|apply sort_sorted].
  - intros a b Hab. by apply compareActive_before.
  - intros a b. destruct (before_total a b); [left | right]; by apply compareActive_before.
  - intros a b c Hab Hbc. apply compareActive_before.
    eapply before_trans; by apply compareActive_before.
Qed.

Section QueueStatus.
Context {host : JsDate}.

Lemma activeWhere_true userId k v :
  Queue.activeWhere userId k v = true <->
  vStatus v = VisitStatus.IN_PROGRESS /\ Queue.forUser userId v = true.
Proof. unfold Queue.activeWhere. by rewrite andb_true_iff, VisitStatus_eqb_eq. Qed.

(** The filter [...(userId && { userId })]: the staff user of the visit is
    the one of the request, when the request names one by a non-empty
    string. *)
Lemma forUser_true userId v :
  Queue.forUser userId v = true <->
  (forall u, userId = Some u -> u <> "" -> vUserId v = u).
Proof.
  unfold Queue.forUser, truthy. destruct userId as [u|]; [|split; [by intros _ ? [=] | done]].
  destruct (String.eqb_spec u "") as [->|Hne]; simpl.
  - split; [by intros _ ? [= <-] | done].
  - rewrite String.eqb_eq. split; [by intros -> ? [= <-] | intros H; by apply H].
Qed.

(** C6.  The queue view answers without writing the store; its active
    visits are the visits in progress (those whose staff user is the one of
    the request, when a non-empty [userId] is given), each with the
    appointment that its [appointmentId] names, ordered by priority from
    URGENT down to LOW and, at equal priority, by check-in time from the
    earliest; the priority of a visit is that of its appointment, and NORMAL
    for a visit without one.  The list is a rearrangement of the rows
    fetched for the request. *)
Theorem queue_order env userId db :
  exists p,
    run (Queue.getQueueStatus env userId) db = (db, Success p) /\
    (forall r, In r (Queue.activeVisits p) <->
       exists k v, visits db !! k = Some v /\
         vStatus v = VisitStatus.IN_PROGRESS /\
         (forall u, userId = Some u -> u <> "" -> vUserId v = u) /\
         r = Queue.mkVisitRow k v
               (match appointmentId v with
                | Some a => appointments db !! a
                | None => None
                end)) /\
    Permutation (Queue.activeVisits p)
      (Queue.included true db <$> findMany (Queue.activeWhere userId) (visits db)) /\
    StronglySorted
      (fun x y =>
         let rank r :=
           Queue.priorityOrder
             match Queue.appointment r with
             | Some a => priority a
             | None => Priority.NORMAL
             end in
         rank x > rank y \/
         (rank x = rank y /\ checkInTime (Queue.visit x) <= checkInTime (Queue.visit y)))
      (Queue.activeVisits p) /\
    (forall p1 p2, Queue.priorityOrder p1 > Queue.priorityOrder p2 <->
       match p1, p2 with
       | Priority.URGENT, (Priority.HIGH | Priority.NORMAL | Priority.LOW)
       | Priority.HIGH, (Priority.NORMAL | Priority.LOW)
       | Priority.NORMAL, Priority.LOW => True
       | _, _ => False
       end).
Proof.
  eexists. split; [reflexivity|]. simpl. split_and!.
  - intros r. rewrite !sort_In. rewrite <- list_elem_of_In, list_elem_of_fmap. split.
    + intros ([k v] & -> & Hin). apply list_elem_of_In, findMany_In in Hin as [Hkv Hc].
      apply activeWhere_true in Hc as [Hs Hu]. exists k, v. split_and!; try done.
      by apply forUser_true.
    + intros (k & v & Hkv & Hs & Hu & ->). exists (k, v). split; [done|].
      apply list_elem_of_In, findMany_In. split; [done|].
      apply activeWhere_true. split; [done|]. by apply forUser_true.
  - rewrite !sort_Permutation. done.
  - eapply StronglySorted_weaken; [|apply sort_compareActive_sorted].
    intros x y. unfold Queue.before, Queue.priorityOfRow, Queue.checkInTimeOf.
    intros [Hgt | [Heq Hle]]; [by left | right]. by rewrite Heq.
  - intros p1 p2. destruct p1, p2; simpl; split; try done; lia.
Qed.

(** The completed visits of the day are fetched without their appointment,
    so the sum of the waits is empty. *)
Lemma fold_addWaitTime_none rows acc :
  (forall r, In r rows -> Queue.appointment r = None) ->
  fold_left Queue.addWaitTime rows acc = acc.
Proof.
  revert acc. induction rows as [|r rows IH]; intros acc Hnone; simpl; [done|].
  unfold Queue.addWaitTime at 2. rewrite (Hnone r) by (by left).
  apply IH. intros r' Hr'. apply Hnone. by right.
Qed.

Lemma average_zero n : Qeq (Queue.average 0 n) 0.
Proof.
  unfold Queue.average, Qdiv. rewrite !Qmult_0_l. reflexivity.
Qed.

(** The average wait that the queue view reports is 0 on every store. *)
Lemma averageWaitTime_zero env userId db :
  exists p,
    run (Queue.getQueueStatus env userId) db = (db, Success p) /\
    Qeq (Queue.averageWaitTime (Queue.queueStats p)) 0.
Proof.
  eexists. split; [reflexivity|]. simpl. unfold Queue.averageOver.
  destruct (0 <? _)%Z; [|reflexivity].
  rewrite fold_addWaitTime_none; [apply average_zero|].
  intros r Hr. apply sort_In in Hr.
  apply list_elem_of_In, list_elem_of_fmap in Hr as (x & -> & _). done.
Qed.

End QueueStatus.

(** C7 at its failing input: the served visitor checked in ten minutes after
    the start of the appointment and stayed thirty minutes.  The view
    reports that visit among the completed visits of the day and an average
    duration of 30 minutes, but an average wait of 0 where the visit's wait
    is 10 minutes. *)
Theorem wait_time_of_served_visitor :
  exists p,
    run (Queue.getQueueStatus (host := Utc.utc) Office.noon None) Office.served = (Office.served, Success p) /\
    Queue.id <$> Queue.completedVisitsToday p = ["visit1"] /\
    Qeq (Queue.averageVisitDuration (Queue.queueStats p)) 30 /\
    Qeq (Queue.averageWaitTime (Queue.queueStats p)) 0 /\
    Qeq (Queue.specAverageWaitTime Office.served (Queue.completedVisitsToday p)) 10.
Proof.
  eexists. split; [reflexivity|]. vm_compute. split_and!; reflexivity.
Qed.

(** ** The resolved date of an issue *)

Lemma bind_next {A B} (m : M A) (k : A -> M B) db db' a :
  m db = (db', Next a) -> bind m k db = k a db'.
Proof. unfold bind. by intros ->. Qed.

Lemma checkAssignee_found f db :
  (forall u, f = Value u -> truthy u = true -> is_Some (users db !! u)) ->
  checkAssignee f db = (db, Next tt).
Proof.
  intros Hf. destruct f as [| |u]; simpl; try done.
  destruct (truthy u) eqn:Ht; [|done].
  destruct (Hf u eq_refl Ht) as [x Hx].
  unfold user_findUnique. open_handler. by rewrite Hx.
Qed.

Section Issues.
Context {host : JsDate}.

(** The handler, when it is handed its route context: the update goes
    through when the body passes the schema, the issue and the assignee it
    names exist and its dates are accepted. *)
Lemma updateIssue_success env id b db i :
  UpdateIssue.schema b = true ->
  issues db !! id = Some i ->
  (forall u, UpdateIssue.assignedUserId b = Value u -> is_Some (users db !! u)) ->
  accepted (dateEntry (UpdateIssue.dueDate b)) = true ->
  accepted (resolvedDateEntry env b i) = true ->
  let i' := updateData b (dateEntry (UpdateIssue.dueDate b)) (resolvedDateEntry env b i) i in
  run (updateIssue env (Some (mkRouteParams id)) b) db
    = (set_issues <[id := i']> db, Success i').
Proof.
  intros Hs Hi Hassignee Hdue Hres i'. unfold run, updateIssue.
  rewrite (bind_next _ _ db db id) by done.
  rewrite (bind_next _ _ db db tt) by (unfold validate; by rewrite Hs).
  rewrite (bind_next _ _ db db (Some i)) by (unfold issue_findUnique; open_handler; by rewrite Hi).
  rewrite (bind_next _ _ db db i) by done.
  rewrite (bind_next _ _ db db tt)
    by (apply checkAssignee_found; intros u Hu _; by apply Hassignee).
  rewrite (bind_next _ _ db db tt) by by rewrite Hdue, Hres.
  unfold issue_update. open_handler. rewrite Hi. simpl.
  destruct (UpdateIssue.assignedUserId b) as [| |u] eqn:Hu; simpl.
  - by rewrite ?Hi.
  - by rewrite ?Hi.
  - destruct (Hassignee u eq_refl) as [x Hx]. rewrite Hx. simpl. by rewrite ?Hi.
Qed.

Lemma autoClear_outside b s d :
  UpdateIssue.status b = Some s -> isResolvedOrClosed s = false -> autoClear b d = Clear.
Proof. unfold autoClear. by intros -> ->. Qed.

(** The rule of the handler's body on [resolvedDate], for an update that
    goes through when the handler is handed its route context: a status
    among RESOLVED and CLOSED stamps an issue without resolved date, a
    status outside them clears the date, and in every other case the
    [resolvedDate] of the body, when it has one, is what is written. *)
Lemma updateIssue_resolvedDate env id b db i :
  UpdateIssue.schema b = true ->
  issues db !! id = Some i ->
  (forall u, UpdateIssue.assignedUserId b = Value u -> is_Some (users db !! u)) ->
  accepted (dateEntry (UpdateIssue.dueDate b)) = true ->
  accepted (resolvedDateEntry env b i) = true ->
  exists i',
    run (updateIssue env (Some (mkRouteParams id)) b) db
      = (set_issues <[id := i']> db, Success i') /\
    (forall s, UpdateIssue.status b = Some s -> isResolvedOrClosed s = true ->
       resolvedDate i = None -> resolvedDate i' = Some (now env)) /\
    (forall s d, UpdateIssue.status b = Some s -> isResolvedOrClosed s = true ->
       resolvedDate i = Some d -> UpdateIssue.resolvedDate b = Undefined ->
       resolvedDate i' = Some d) /\
    (forall s, UpdateIssue.status b = Some s -> isResolvedOrClosed s = false ->
       resolvedDate i' = None) /\
    (UpdateIssue.status b = None -> UpdateIssue.resolvedDate b = Undefined ->
       resolvedDate i' = resolvedDate i) /\
    (forall s d, UpdateIssue.status b = Some s -> isResolvedOrClosed s = true ->
       resolvedDate i = Some d ->
       resolvedDate i' = applyDate (dateEntry (UpdateIssue.resolvedDate b)) (Some d)) /\
    (UpdateIssue.status b = None ->
       resolvedDate i' = applyDate (dateEntry (UpdateIssue.resolvedDate b)) (resolvedDate i)).
Proof.
  intros Hs Hi Hassignee Hdue Hres. eexists. split; [by apply updateIssue_success|].
  unfold resolvedDateEntry, autoClear, autoSet in *. simpl. split_and!.
  - intros s Hst Hrc Hnone. by rewrite Hst, Hrc, Hnone.
  - intros s d Hst Hrc Hsome Hundef. by rewrite Hst, Hrc, Hsome, Hundef.
  - intros s Hst Hrc. by rewrite Hst, Hrc.
  - intros Hnone Hundef. by rewrite Hnone, Hundef.
  - intros s d Hst Hrc Hsome. by rewrite Hst, Hrc, Hsome.
  - intros Hnone. by rewrite Hnone.
Qed.

End Issues.

(** C9 at its failing input.  The reported issue is OPEN and has no
    [resolvedDate].  PUT /api/issues/i1 with the body [{ status: 'RESOLVED' }]
    is answered 500 to the staff user and leaves the store as it was:
    [withAuth] calls the handler without the route context, so that the
    handler stops at [context.params].  The issue is OPEN and without
    [resolvedDate] after the request, where the rule of C9 has it RESOLVED
    with [resolvedDate] the time of the request, which is what the handler
    writes when it is handed the context.  No PUT /api/issues/[id] writes
    the store, whatever the host, the caller, the issue and the body. *)
Theorem resolved_date_not_stamped :
  let put := Api.PUT_issue "i1" (Office.setIssueStatus IssueStatus.RESOLVED) in
  let direct :=
    run (updateIssue (host := Utc.utc) Office.noon (Some (mkRouteParams "i1"))
           (Office.setIssueStatus IssueStatus.RESOLVED)) Office.reported in
  issues Office.reported !! "i1"
    = Some (mkIssue "Street light" "The light at the market is out" Priority.NORMAL
              IssueStatus.OPEN None None None None) /\
  (forall (host : JsDate) (auth : Auth) env id b authHeader db,
     (Api.serve env (Api.PUT_issue id b) authHeader db).1 = db) /\
  Api.serve (host := Utc.utc) (auth := Desk.tokens) Office.noon put (Some "Bearer t-staff")
    Office.reported = (Office.reported, 500) /\
  issues direct.1 !! "i1"
    = Some (mkIssue "Street light" "The light at the market is out" Priority.NORMAL
              IssueStatus.RESOLVED None None (Some (now Office.noon)) None).
Proof.
  split_and!.
  - vm_compute. reflexivity.
  - intros host auth env id b authHeader db.
    unfold Api.serve, Api.answer, withAuth, withRole, admitted.
    destruct (isTruthy (extractTokenFromHeader authHeader)); [|reflexivity].
    destruct (verifyToken _) as [u|]; [|reflexivity].
    destruct (existsb _ _); reflexivity.
  - vm_compute. reflexivity.
  - vm_compute. reflexivity.
Qed.

(** ** The free slots of the calendar *)

Lemma forEach_next {A B} (l : list A) (body : A -> M (list B)) (f : A -> list B) db :
  (forall x, In x l -> body x db = (db, Next (f x))) ->
  Calendar.forEach l body db = (db, Next (concat (f <$> l))).
Proof.
  induction l as [|x l IH]; intros Hbody; simpl; [done|].
  rewrite (bind_next _ _ db db (f x)) by (apply Hbody; by left).
  rewrite (bind_next _ _ db db (concat (f <$> l))); [done|].
  apply IH. intros y Hy. apply Hbody. by right.
Qed.

Lemma concat_singletons {A B} (g : A -> B) (l : list A) :
  concat ((fun x => [g x]) <$> l) = g <$> l.
Proof. induction l as [|x l IH]; simpl; [done|]. by f_equal. Qed.

Lemma entry_push {A} k k' (x : A) groups :
  Calendar.entry k (Calendar.push k' x groups) =
    if String.eqb k' k then Some (default [] (Calendar.entry k groups) ++ [x])%list
    else Calendar.entry k groups.
Proof.
  induction groups as [|[k0 xs] rest IH]; simpl; [done|].
  destruct (String.eqb k0 k') eqn:E0; simpl.
  - apply String.eqb_eq in E0 as ->. by destruct (String.eqb k' k).
  - destruct (String.eqb k0 k) eqn:E1; [|exact IH].
    apply String.eqb_eq in E1 as ->. rewrite String.eqb_sym in E0. by rewrite E0.
Qed.

Lemma keys_entry {A} k (groups : list (string * list A)) :
  In k (Calendar.keys groups) <-> is_Some (Calendar.entry k groups).
Proof.
  unfold Calendar.keys. induction groups as [|[k0 xs] rest IH]; simpl.
  - split; [done | by intros [? ?]].
  - destruct (String.eqb k0 k) eqn:E.
    + apply String.eqb_eq in E. split; [by eexists | by left].
    + apply String.eqb_neq in E. rewrite <- IH. split; [by intros [? | ?] | by right].
Qed.

Section Calendar.
Context {host : JsDate}.

Lemma groupByDate_snoc l x :
  Calendar.groupByDate (l ++ [x]) =
    Calendar.push (Calendar.dateKeyOf x) x (Calendar.groupByDate l).
Proof. unfold Calendar.groupByDate. by rewrite fold_left_app. Qed.

Lemma onDate_In date l apt :
  In apt (Calendar.onDate date l) <-> In apt l /\ Calendar.dateKeyOf apt = date.
Proof. unfold Calendar.onDate. by rewrite filter_In, String.eqb_eq. Qed.

(** The entry of a date in [appointmentsByDate] holds the fetched
    appointments of that date, in the order of the fetch; a date without
    appointment has no entry. *)
Lemma entry_groupByDate date l :
  Calendar.entry date (Calendar.groupByDate l) =
    match Calendar.onDate date l with
    | [] => None
    | _ => Some (Calendar.onDate date l)
    end.
Proof.
  induction l as [|x l IH] using rev_ind; [done|].
  rewrite groupByDate_snoc, entry_push, IH.
  unfold Calendar.onDate. rewrite List.filter_app. simpl.
  destruct (String.eqb (Calendar.dateKeyOf x) date).
  - destruct (List.filter _ l); done.
  - by rewrite app_nil_r.
Qed.

Lemma dayAppointments_onDate date l :
  default [] (Calendar.entry date (Calendar.groupByDate l)) = Calendar.onDate date l.
Proof. rewrite entry_groupByDate. by destruct (Calendar.onDate date l). Qed.

Lemma keys_groupByDate date l :
  In date (Calendar.keys (Calendar.groupByDate l)) <->
  exists apt, In apt l /\ Calendar.dateKeyOf apt = date.
Proof.
  rewrite keys_entry, entry_groupByDate. split.
  - destruct (Calendar.onDate date l) as [|apt rest] eqn:E; [by intros [? ?]|].
    intros _. exists apt. apply onDate_In. rewrite E. by left.
  - intros (apt & Hin). apply onDate_In in Hin.
    destruct (Calendar.onDate date l); [done | by eexists].
Qed.

Lemma slotAt_next date dayAppointments hour minute db t :
  parseDate (Calendar.slotString date hour minute) = Some t ->
  Calendar.slotAt date dayAppointments hour minute db =
    (db, Next (Calendar.freeSlot date dayAppointments hour minute)).
Proof.
  intros Ht. unfold Calendar.slotAt, Calendar.freeSlot, validDate. rewrite Ht.
  open_handler. by destruct (existsb _ _).
Qed.

Lemma slotsOf_next date dayAppointments db :
  (forall hour minute, In hour Calendar.hours -> In minute Calendar.minutes ->
     is_Some (parseDate (Calendar.slotString date hour minute))) ->
  Calendar.slotsOf date dayAppointments db =
    (db, Next (Calendar.freeSlots date dayAppointments)).
Proof.
  intros Hread. unfold Calendar.slotsOf, Calendar.freeSlots.
  apply forEach_next. intros hour Hhour.
  apply forEach_next. intros minute Hminute.
  destruct (Hread hour minute Hhour Hminute) as [t Ht]. by eapply slotAt_next.
Qed.

Lemma existsb_overlapsSlot s e l :
  existsb (Calendar.overlapsSlot s e) l = false <->
  forall apt, In apt l -> ~ (s < endTime apt.2 /\ e > startTime apt.2).
Proof.
  rewrite <- not_true_iff_false, existsb_exists. split.
  - intros Hno apt Hin [H1 H2]. apply Hno. exists apt. split; [done|].
    unfold Calendar.overlapsSlot. apply andb_true_iff. split; [lia|]. apply Z.gtb_gt. lia.
  - intros Hno (apt & Hin & Ho). apply (Hno apt Hin).
    unfold Calendar.overlapsSlot in Ho. apply andb_true_iff in Ho as [H1 H2].
    apply Z.ltb_lt in H1. apply Z.gtb_gt in H2. lia.
Qed.

Lemma freeSlots_In date dayAppointments slot :
  In slot (Calendar.freeSlots date dayAppointments) <->
  exists hour minute t,
    In hour Calendar.hours /\ In minute Calendar.minutes /\
    parseDate (Calendar.slotString date hour minute) = Some t /\
    slot = (t, t + Calendar.slotDuration * 60000) /\
    existsb (Calendar.overlapsSlot t (t + Calendar.slotDuration * 60000)) dayAppointments
      = false.
Proof.
  unfold Calendar.freeSlots. rewrite in_concat. split.
  - intros (l & Hl & Hin). apply in_map_iff in Hl as (hour & <- & Hhour).
    apply in_concat in Hin as (l' & Hl' & Hin).
    apply in_map_iff in Hl' as (minute & <- & Hminute).
    unfold Calendar.freeSlot in Hin.
    destruct (parseDate _) as [t|] eqn:Ht; [|done].
    destruct (existsb _ _) eqn:E; [done|].
    destruct Hin as [<- | []]. exists hour, minute, t. done.
  - intros (hour & minute & t & Hhour & Hminute & Ht & -> & E).
    eexists. split; [apply in_map_iff; exists hour; done|].
    apply in_concat. eexists. split; [apply in_map_iff; exists minute; done|].
    unfold Calendar.freeSlot. rewrite Ht, E. by left.
Qed.

End Calendar.

Section FreeSlots.
Context {host : JsDate}.

(** C3, as the code has it.  For a request with both dates, on a host that
    reads them and the slot strings of the fetched days: the answer lists
    slots for the days on which at least one appointment was fetched (those
    in the date range, of the staff user when a non-empty [userId] is
    given), and on such a day a half-hour slot of the working hours is
    listed as available exactly when it overlaps none of the appointments
    fetched for that day.  So a listed slot overlaps no appointment of the
    day that is not cancelled, and a slot that overlaps no appointment of
    the day is listed. *)
Theorem free_slots startDate endDate userId db from to :
  isTruthy startDate = true -> isTruthy endDate = true ->
  parseDate (default "" startDate) = Some from ->
  parseDate (default "" endDate) = Some to ->
  (forall k a hour minute, appointments db !! k = Some a ->
     In hour Calendar.hours -> In minute Calendar.minutes ->
     is_Some (parseDate (Calendar.slotString (isoDate (scheduledDate a)) hour minute))) ->
  exists p,
    run (Calendar.getCalendarAppointments startDate endDate userId) db = (db, Success p) /\
    (forall k a, In (k, a) (Calendar.appointments p) <->
       appointments db !! k = Some a /\ Calendar.calendarWhere from to userId k a = true) /\
    (forall date, In date (Calendar.availableSlots p).*1 <->
       exists apt, In apt (Calendar.appointments p) /\ Calendar.dateKeyOf apt = date) /\
    (forall date slots hour minute t,
       In (date, slots) (Calendar.availableSlots p) ->
       In hour Calendar.hours -> In minute Calendar.minutes ->
       parseDate (Calendar.slotString date hour minute) = Some t ->
       (In (t, t + Calendar.slotDuration * 60000) slots <->
        forall apt, In apt (Calendar.appointments p) -> Calendar.dateKeyOf apt = date ->
          ~ (t < endTime apt.2 /\ t + Calendar.slotDuration * 60000 > startTime apt.2))).
Proof.
  intros Hstart Hend Hfrom Hto Hread.
  set (found := findMany (Calendar.calendarWhere from to userId) (appointments db)).
  set (apps := sort Calendar.byStartTime found).
  set (groups := Calendar.groupByDate apps).
  set (slotsOn := fun date => (date, Calendar.freeSlots date (Calendar.onDate date apps))).
  assert (Happs : forall k a, In (k, a) apps <->
            appointments db !! k = Some a /\ Calendar.calendarWhere from to userId k a = true).
  { intros k a. unfold apps. rewrite sort_In. apply findMany_In. }
  exists (Calendar.mkPayload apps groups (slotsOn <$> Calendar.keys groups)).
  split; [|simpl; split_and!].
  - unfold run, Calendar.getCalendarAppointments.
    rewrite (bind_next _ _ db db tt) by by rewrite Hstart, Hend.
    rewrite (bind_next _ _ db db from) by by rewrite Hfrom.
    rewrite (bind_next _ _ db db to) by by rewrite Hto.
    rewrite (bind_next _ _ db db found) by done.
    fold apps. fold groups.
    rewrite (bind_next _ _ db db (slotsOn <$> Calendar.keys groups)); [done|].
    rewrite <- concat_singletons. apply forEach_next. intros date Hdate.
    unfold groups. rewrite dayAppointments_onDate.
    rewrite (bind_next _ _ db db (Calendar.freeSlots date (Calendar.onDate date apps)));
      [done|].
    apply slotsOf_next. intros hour minute Hhour Hminute.
    apply keys_groupByDate in Hdate as ([k a] & Hin & <-).
    apply Happs in Hin as [Hka _]. by eapply Hread.
  - exact Happs.
  - intros date. rewrite <- list_fmap_compose.
    replace (fst ∘ slotsOn) with (@id string) by done. rewrite list_fmap_id.
    apply keys_groupByDate.
  - intros date slots hour minute t Hin Hhour Hminute Ht.
    apply in_map_iff in Hin as (date' & [= <- <-] & _).
    rewrite freeSlots_In. split.
    + intros (hour' & minute' & t' & _ & _ & _ & [= <-] & E) apt Hapt Hkey.
      rewrite existsb_overlapsSlot in E. apply E. by apply onDate_In.
    + intros Hno. exists hour, minute, t. split_and!; try done.
      apply existsb_overlapsSlot. intros apt Hapt. apply onDate_In in Hapt as [? ?].
      by apply Hno.
Qed.

End FreeSlots.

(** C3 as stated fails: the only appointment of the staff user on 2024-01-10
    is CANCELLED, so the slot from 10:00 to 10:30 overlaps no appointment
    that is not, and the calendar of that day still does not list the slot
    as available. *)
Lemma slot_of_cancelled_appointment_not_available :
  let ten := 1704880800000 in
  let halfPastTen := 1704882600000 in
  findMany (fun _ a =>
      String.eqb (aUserId a) "s1" &&
      negb (AppointmentStatus.eqb (aStatus a) AppointmentStatus.CANCELLED) &&
      Calendar.overlapsSlot ten halfPastTen ("", a))
    (appointments Office.cancelled) = [] /\
  exists p slots,
    run (Calendar.getCalendarAppointments (host := Utc.utc)
           (Some "2024-01-10") (Some "2024-01-10") (Some "s1")) Office.cancelled
      = (Office.cancelled, Success p) /\
    Calendar.availableSlots p = [("2024-01-10", slots)] /\
    Utc.parse (Calendar.slotString "2024-01-10" 10 0) = Some ten /\
    length slots = 15%nat /\
    ~ In (ten, halfPastTen) slots.
Proof.
  split; [vm_compute; reflexivity|].
  eexists _, _. split_and!; try (vm_compute; reflexivity).
  vm_compute. intros H.
  repeat (destruct H as [H | H]; [discriminate H|]). exact H.
Qed.

(** ** The statements on the office *)

(** The scenario of the spec: 10:00 for 30 minutes is booked, 10:15 is a
    conflict, 10:30 is booked. *)
Lemma scheduling_scenario :
  let post id startTime := run (createAppointment (host := Utc.utc) (mkEnv 0 0 id)
                                  (Office.request startTime)) in
  let first := post "a1" "10:00" Office.db0 in
  let second := post "a2" "10:15" first.1 in
  let third := post "a3" "10:30" second.1 in
  statusCode first.2 = 200 /\
  second = (first.1, Failure 409 "Scheduling conflict detected. Please choose a different time.") /\
  statusCode third.2 = 200 /\
  dom (appointments third.1) = {[ "a1"; "a3" ]}.
Proof. vm_compute. split_and!; reflexivity. Qed.

(** At the office: 10:15 collides with the appointment at 10:00; 10:30,
    adjacent to it, is booked; and two hours from 09:00 collide with it. *)
Lemma schedule_conflict_witness :
  run (createAppointment (host := Utc.utc) (mkEnv 0 0 "a2") (Office.request "10:15"))
    Office.booked
  = (Office.booked,
     Failure 409 "Scheduling conflict detected. Please choose a different time.") /\
  statusCode (run (createAppointment (host := Utc.utc) (mkEnv 0 0 "a2")
                     (Office.request "10:30")) Office.booked).2 = 200 /\
  run (createAppointment (host := Utc.utc) (mkEnv 0 0 "a2") Office.twoHours) Office.booked
  = (Office.booked,
     Failure 409 "Scheduling conflict detected. Please choose a different time.").
Proof.
  split_and!.
  - destruct (schedule_conflict (host := Utc.utc) (mkEnv 0 0 "a2") (Office.request "10:15")
                Office.booked 1704881700000 1704844800000 30) as (_ & Hconflict & _);
      [vm_compute; reflexivity..|].
    apply (Hconflict "a1" (Office.atTen AppointmentStatus.PENDING));
      solve [vm_compute; reflexivity | discriminate].
  - destruct (schedule_conflict (host := Utc.utc) (mkEnv 0 0 "a2") (Office.request "10:30")
                Office.booked 1704882600000 1704844800000 30)
      as (_ & _ & Hadjacent & Hfree); [vm_compute; reflexivity..|].
    destruct Hfree as (r & -> & _);
      [ | vm_compute; eauto | vm_compute; eauto | vm_compute; reflexivity | reflexivity].
    intros k a Hka _ _ _ _. simpl in Hka. apply lookup_singleton_Some in Hka as [_ <-].
    apply (Hadjacent (Office.atTen AppointmentStatus.PENDING));
      [vm_compute; reflexivity | left; vm_compute; reflexivity].
  - destruct (schedule_conflict (host := Utc.utc) (mkEnv 0 0 "a2") Office.twoHours
                Office.booked 1704877200000 1704844800000 120) as (_ & Hconflict & _);
      [vm_compute; reflexivity..|].
    apply (Hconflict "a1" (Office.atTen AppointmentStatus.PENDING));
      solve [vm_compute; reflexivity | discriminate].
Defined.

(** At the office: the visitor is in, and a second check-in is answered 409
    through both entry points. *)
Lemma second_check_in_rejected_witness :
  resolves Office.secondCheckIn Office.booked /\
  (exists db' s e,
     run (createVisit Office.noon Office.secondCheckIn) Office.booked = (db', Failure s e) /\
     visits db' = visits Office.booked /\ visitors db' = visitors Office.booked /\
     (resolves Office.secondCheckIn Office.booked -> s = 409)) /\
  (exists db' s e,
     run (checkInVisitor Office.noon Office.secondCheckIn) Office.booked = (db', Failure s e) /\
     visits db' = visits Office.booked /\ visitors db' = visitors Office.booked /\
     (resolves Office.secondCheckIn Office.booked -> s = 409)).
Proof.
  split.
  - unfold resolves. split_and!; [vm_compute; reflexivity | vm_compute; eauto..|].
    intros id [= <-] _. vm_compute. eauto.
  - apply (second_check_in_rejected Office.noon Office.secondCheckIn Office.booked "visit1"
             (mkVisit "v1" "s1" None 1704880000000 None VisitStatus.IN_PROGRESS None None None));
      vm_compute; reflexivity.
Defined.

(** At the office: the rejected check-in of the visits route leaves the
    appointment COMPLETED, that of the queue action leaves the store. *)
Lemma rejected_check_in_writes_appointment_witness :
  run (createVisit Office.noon Office.secondCheckIn) Office.booked =
    (set_appointments <["a1" := Office.atTen AppointmentStatus.COMPLETED]> Office.booked,
     Failure 409 "Visitor already has an active visit") /\
  run (checkInVisitor Office.noon Office.secondCheckIn) Office.booked =
    (Office.booked, Failure 409 "Visitor already has an active visit").
Proof.
  apply (rejected_check_in_writes_appointment Office.noon Office.secondCheckIn Office.booked
           "visit1"
           (mkVisit "v1" "s1" None 1704880000000 None VisitStatus.IN_PROGRESS None None None)
           "a1" (Office.atTen AppointmentStatus.PENDING)); try (vm_compute; reflexivity).
  unfold resolves. split_and!; [vm_compute; reflexivity | vm_compute; eauto..|].
  intros id [= <-] _. vm_compute. eauto.
Defined.

(** At the office: an unknown visit is not found, and the second check-out
    of the visit is refused with the first [checkOutTime] in place. *)
Lemma checkOut_guards_witness :
  let first := run (checkOutVisitor Office.noon (Office.checkOut "visit1")) Office.booked in
  run (checkOutVisitor Office.noon (Office.checkOut "visit9")) Office.booked
    = (Office.booked, Failure 404 "Visit not found") /\
  (checkOutTime <$> visits first.1 !! "visit1" = Some (Some (now Office.noon))) /\
  run (checkOutVisitor (mkEnv 1704890000000 0 "") (Office.checkOut "visit1")) first.1
    = (first.1, Failure 400 "Visit is not in progress").
Proof.
  destruct (checkOut_guards Office.noon (Office.checkOut "visit9") Office.booked)
    as (Hmissing & _); [vm_compute; reflexivity|].
  destruct (checkOut_guards Office.noon (Office.checkOut "visit1") Office.booked)
    as (_ & _ & Htwice); [vm_compute; reflexivity|].
  destruct (Htwice
    (mkVisit "v1" "s1" None 1704880000000 None VisitStatus.IN_PROGRESS None None None)
    (mkEnv 1704890000000 0 "") (Office.checkOut "visit1"))
    as [(w & Hw & _ & Hout) Hsecond]; try (vm_compute; reflexivity).
  split_and!.
  - apply Hmissing. vm_compute. reflexivity.
  - simpl. simpl in Hw. rewrite Hw. simpl. by rewrite Hout.
  - exact Hsecond.
Defined.

(** At the office, for staff user s1: the URGENT appointment first, then
    the HIGH one, then the walk-in (NORMAL), who came before it, then the
    LOW appointment, though it came first; the visitor who waits for staff
    user s2 is not listed. *)
Lemma queue_order_witness :
  exists p,
    run (Queue.getQueueStatus (host := Utc.utc) Office.noon (Some "s1")) Office.waiting
      = (Office.waiting, Success p) /\
    Queue.id <$> Queue.activeVisits p = ["w2"; "w5"; "w1"; "w3"] /\
    (forall r, In r (Queue.activeVisits p) -> vUserId (Queue.visit r) = "s1").
Proof.
  destruct (queue_order (host := Utc.utc) Office.noon (Some "s1") Office.waiting)
    as (p & Hrun & Hin & _).
  exists p. split_and!; [exact Hrun | |].
  - vm_compute in Hrun. injection Hrun as <-. reflexivity.
  - intros r (k & v & _ & _ & Hu & ->)%Hin. apply (Hu "s1"); [reflexivity | discriminate].
Defined.



(** At the office: of the day of the pending appointment, the slot at 10:00
    is not listed and the slot at 10:30 is. *)
Lemma free_slots_witness :
  exists p slots,
    run (Calendar.getCalendarAppointments (host := Utc.utc)
           (Some "2024-01-10") (Some "2024-01-10") (Some "s1")) Office.booked
      = (Office.booked, Success p) /\
    In ("2024-01-10", slots) (Calendar.availableSlots p) /\
    ~ In (1704880800000, 1704882600000) slots /\
    In (1704882600000, 1704884400000) slots.
Proof.
  assert (Hread : forall k a hour minute, appointments Office.booked !! k = Some a ->
            In hour Calendar.hours -> In minute Calendar.minutes ->
            is_Some (Utc.parse (Calendar.slotString (Utc.format (scheduledDate a)) hour minute))).
  { intros k a hour minute Hka Hhour Hminute. simpl in Hka.
    apply lookup_singleton_Some in Hka as [_ <-].
    cbv in Hhour, Hminute.
    repeat (destruct Hhour as [<- | Hhour];
      [repeat (destruct Hminute as [<- | Hminute]; [vm_compute; eauto|]); destruct Hminute|]).
    destruct Hhour. }
  assert (Hday0 : Utc.parse "2024-01-10" = Some 1704844800000) by (vm_compute; reflexivity).
  destruct (free_slots (host := Utc.utc) (Some "2024-01-10") (Some "2024-01-10") (Some "s1")
              Office.booked 1704844800000 1704844800000 eq_refl eq_refl Hday0 Hday0 Hread)
    as (p & Hrun & Happs & Hdays & Hslots).
  assert (Ha1 : In ("a1", Office.atTen AppointmentStatus.PENDING) (Calendar.appointments p))
    by (apply Happs; split; vm_compute; reflexivity).
  assert (Hday : In "2024-01-10" (Calendar.availableSlots p).*1)
    by (apply Hdays; eexists; split; [exact Ha1 | vm_compute; reflexivity]).
  apply in_map_iff in Hday as ([date slots] & Hdate & Hin). simpl in Hdate. subst date.
  exists p, slots. split_and!; [exact Hrun | exact Hin | |].
  - intros Hslot.
    assert (Hten : Utc.parse (Calendar.slotString "2024-01-10" 10 0) = Some 1704880800000)
      by (vm_compute; reflexivity).
    assert (Hhour : In 10 Calendar.hours) by (cbv; tauto).
    assert (Hminute : In 0 Calendar.minutes) by (cbv; tauto).
    apply (proj1 (Hslots "2024-01-10" slots 10 0 1704880800000 Hin Hhour Hminute Hten) Hslot
             ("a1", Office.atTen AppointmentStatus.PENDING) Ha1);
      [vm_compute; reflexivity|]. split; vm_compute; reflexivity.
  - assert (Hten : Utc.parse (Calendar.slotString "2024-01-10" 10 30) = Some 1704882600000)
      by (vm_compute; reflexivity).
    assert (Hhour : In 10 Calendar.hours) by (cbv; tauto).
    assert (Hminute : In 30 Calendar.minutes) by (cbv; tauto).
    apply (proj2 (Hslots "2024-01-10" slots 10 30 1704882600000 Hin Hhour Hminute Hten)).
    intros [k a] Hapt _. apply Happs in Hapt as [Hka _]. simpl in Hka.
    apply lookup_singleton_Some in Hka as [_ <-]. intros [Hlt _]. vm_compute in Hlt. discriminate Hlt.
Defined.

(** C3 as stated fails: nothing is scheduled, so no slot of 2024-01-10
    overlaps an appointment, and the calendar of that day lists no slot as
    available, the day not being among those it computes slots for. *)
Lemma no_slot_listed_on_a_free_day :
  appointments Office.db0 = ∅ /\
  Utc.parse (Calendar.slotString "2024-01-10" 10 0) = Some 1704880800000 /\
  run (Calendar.getCalendarAppointments (host := Utc.utc)
         (Some "2024-01-10") (Some "2024-01-10") (Some "s1")) Office.db0
    = (Office.db0, Success (Calendar.mkPayload [] [] [])).
Proof. vm_compute. split_and!; reflexivity. Qed.

(** * Further properties of the handlers *)

(** ** Steps that do not write, and steps that keep the rows *)

Lemma bind_return {A B} (m : M A) (k : A -> M B) db db' s e :
  m db = (db', Return s e) -> bind m k db = (db', Return s e).
Proof. unfold bind. by intros ->. Qed.

Lemma readOnly_ret {A} (a : A) : readOnly (ret a).
Proof. done. Qed.

Lemma readOnly_respond {A} s e : readOnly (@respond A s e).
Proof. done. Qed.

Lemma readOnly_throw {A} : readOnly (@throw A).
Proof. done. Qed.

Lemma readOnly_get : readOnly get.
Proof. done. Qed.

Lemma readOnly_validate ok : readOnly (validate ok).
Proof. by destruct ok. Qed.

Lemma readOnly_orReturn {A} (o : option A) s e : readOnly (orReturn o s e).
Proof. by destruct o. Qed.

Lemma readOnly_validDate {A} (o : option A) : readOnly (validDate o).
Proof. by destruct o. Qed.

Lemma readOnly_bind {A B} (m : M A) (k : A -> M B) :
  readOnly m -> (forall a, readOnly (k a)) -> readOnly (bind m k).
Proof.
  intros Hm Hk db. unfold bind. specialize (Hm db).
  destruct (m db) as [db' [a|s e]]; simpl in *; subst; [apply Hk | done].
Qed.

Create HintDb handlers.

#[local] Hint Resolve readOnly_ret readOnly_respond readOnly_throw readOnly_get
  readOnly_validate readOnly_orReturn readOnly_validDate : handlers.

(** Goes through the binds and the branches of a handler. *)
Ltac read_only :=
  repeat first
    [ apply readOnly_bind; [|intros ?]
    | solve [auto with handlers]
    | match goal with
      | |- readOnly (match ?x with _ => _ end) => destruct x
      end ].

Lemma readOnly_idOf context : readOnly (idOf context).
Proof. by destruct context. Qed.

Lemma readOnly_references {A} (table : Db -> gmap string A) key :
  readOnly (references table key).
Proof.
  intros db. unfold references, bind, get. destruct key as [k|]; [|done].
  by destruct (table db !! k).
Qed.

#[local] Hint Resolve readOnly_idOf readOnly_references : handlers.

Lemma readOnly_visitor_findUnique id : readOnly (visitor_findUnique id).
Proof. unfold visitor_findUnique. read_only. Qed.

Lemma readOnly_user_findUnique id : readOnly (user_findUnique id).
Proof. unfold user_findUnique. read_only. Qed.

Lemma readOnly_appointment_findUnique id : readOnly (appointment_findUnique id).
Proof. unfold appointment_findUnique. read_only. Qed.

Lemma readOnly_visit_findUnique id : readOnly (visit_findUnique id).
Proof. unfold visit_findUnique. read_only. Qed.

Lemma readOnly_issue_findUnique id : readOnly (issue_findUnique id).
Proof. unfold issue_findUnique. read_only. Qed.

Lemma readOnly_visit_findFirst cond : readOnly (visit_findFirst cond).
Proof. unfold visit_findFirst. read_only. Qed.

Lemma readOnly_appointment_findMany cond : readOnly (appointment_findMany cond).
Proof. unfold appointment_findMany. read_only. Qed.

#[local] Hint Resolve readOnly_visitor_findUnique readOnly_user_findUnique
  readOnly_appointment_findUnique readOnly_visit_findUnique readOnly_issue_findUnique
  readOnly_visit_findFirst readOnly_appointment_findMany : handlers.

Lemma readOnly_getVisit context : readOnly (getVisit context).
Proof. unfold getVisit. read_only. Qed.

Lemma readOnly_getAppointment context : readOnly (getAppointment context).
Proof. unfold getAppointment. read_only. Qed.

Lemma readOnly_getIssue context : readOnly (getIssue context).
Proof. unfold getIssue. read_only. Qed.

Lemma readOnly_rejectActive visitorId : readOnly (rejectActive visitorId).
Proof. unfold rejectActive. read_only. Qed.

Lemma readOnly_requireInProgress visit : readOnly (requireInProgress visit).
Proof. unfold requireInProgress. read_only. Qed.

Lemma readOnly_checkAssignee f : readOnly (checkAssignee f).
Proof. unfold checkAssignee. read_only. Qed.

#[local] Hint Resolve readOnly_rejectActive readOnly_requireInProgress
  readOnly_checkAssignee : handlers.

Section ReadOnly.
Context {host : JsDate}.

Lemma readOnly_getQueueStatus env userId : readOnly (Queue.getQueueStatus env userId).
Proof. unfold Queue.getQueueStatus. read_only. Qed.

Lemma readOnly_forEach {A B} (l : list A) (body : A -> M (list B)) :
  (forall x, readOnly (body x)) -> readOnly (Calendar.forEach l body).
Proof.
  intros Hbody. induction l as [|x l IH]; simpl; [read_only|].
  apply readOnly_bind; [apply Hbody | intros first].
  apply readOnly_bind; [apply IH | intros more; read_only].
Qed.

Lemma readOnly_slotsOf date dayAppointments :
  readOnly (Calendar.slotsOf date dayAppointments).
Proof.
  unfold Calendar.slotsOf. apply readOnly_forEach. intros hour.
  apply readOnly_forEach. intros minute. unfold Calendar.slotAt. read_only.
Qed.

Lemma readOnly_getCalendarAppointments startDate endDate userId :
  readOnly (Calendar.getCalendarAppointments startDate endDate userId).
Proof.
  unfold Calendar.getCalendarAppointments.
  do 4 (apply readOnly_bind; [read_only | intros ?]).
  apply readOnly_bind; [|intros; read_only].
  apply readOnly_forEach. intros date.
  apply readOnly_bind; [apply readOnly_slotsOf | intros; read_only].
Qed.

Lemma readOnly_timeBlock id b existingAppointment :
  readOnly (timeBlock id b existingAppointment).
Proof. unfold timeBlock. read_only. Qed.

End ReadOnly.

Lemma keepsRows_refl db : keepsRows db db.
Proof. unfold keepsRows. done. Qed.

Lemma keepsRows_trans db1 db2 db3 :
  keepsRows db1 db2 -> keepsRows db2 db3 -> keepsRows db1 db3.
Proof.
  unfold keepsRows. intros (? & ? & ? & ? & ?) (? & ? & ? & ? & ?).
  split_and!; etrans; done.
Qed.

Lemma growing_readOnly {A} (m : M A) : readOnly m -> growing m.
Proof. intros Hm db. rewrite Hm. apply keepsRows_refl. Qed.

Lemma growing_bind {A B} (m : M A) (k : A -> M B) :
  growing m -> (forall a, growing (k a)) -> growing (bind m k).
Proof.
  intros Hm Hk db. unfold bind. specialize (Hm db).
  destruct (m db) as [db' [a|s e]]; simpl in *; [|done].
  eapply keepsRows_trans; [exact Hm | apply Hk].
Qed.

Lemma growing_modify_insert_visitors id v :
  growing (modify (set_visitors <[id := v]>)).
Proof. intros db. unfold keepsRows. simpl. split_and!; try done. apply dom_insert_subseteq. Qed.

Lemma growing_modify_insert_appointments id a :
  growing (modify (set_appointments <[id := a]>)).
Proof. intros db. unfold keepsRows. simpl. split_and!; try done. apply dom_insert_subseteq. Qed.

Lemma growing_modify_insert_visits id v :
  growing (modify (set_visits <[id := v]>)).
Proof. intros db. unfold keepsRows. simpl. split_and!; try done. apply dom_insert_subseteq. Qed.

Lemma growing_modify_insert_issues id i :
  growing (modify (set_issues <[id := i]>)).
Proof. intros db. unfold keepsRows. simpl. split_and!; try done. apply dom_insert_subseteq. Qed.

#[local] Hint Resolve growing_modify_insert_visitors growing_modify_insert_appointments
  growing_modify_insert_visits growing_modify_insert_issues : handlers.

(** Goes through a handler that may write but never deletes. *)
Ltac growing_step :=
  first
    [ solve [auto with handlers]
    | solve [apply growing_readOnly; read_only]
    | apply growing_bind; [|intros ?]
    | match goal with
      | |- growing (match ?x with _ => _ end) => destruct x
      end ].

Ltac grows := repeat growing_step.

Lemma growing_visitor_update id f : growing (visitor_update id f).
Proof. unfold visitor_update. grows. Qed.

Lemma growing_appointment_update id u f : growing (appointment_update id u f).
Proof. unfold appointment_update. grows. Qed.

Lemma growing_visit_update id f : growing (visit_update id f).
Proof. unfold visit_update. grows. Qed.

Lemma growing_issue_update id u f : growing (issue_update id u f).
Proof. unfold issue_update. grows. Qed.

Lemma growing_visit_create id row : growing (visit_create id row).
Proof. unfold visit_create. grows. Qed.

Lemma growing_appointment_create id row : growing (appointment_create id row).
Proof. unfold appointment_create. grows. Qed.

#[local] Hint Resolve growing_visitor_update growing_appointment_update
  growing_visit_update growing_issue_update growing_visit_create
  growing_appointment_create : handlers.

Lemma growing_linkAppointment appointmentId s : growing (linkAppointment appointmentId s).
Proof. unfold linkAppointment. grows. Qed.

Lemma growing_closeAppointment visit s : growing (closeAppointment visit s).
Proof. unfold closeAppointment. grows. Qed.

#[local] Hint Resolve growing_linkAppointment growing_closeAppointment : handlers.

Lemma growing_createVisit env b : growing (createVisit env b).
Proof. unfold createVisit. grows. Qed.

Lemma growing_checkInVisitor env b : growing (checkInVisitor env b).
Proof. unfold checkInVisitor. grows. Qed.

Lemma growing_checkOutVisitor env b : growing (checkOutVisitor env b).
Proof. unfold checkOutVisitor. grows. Qed.

Lemma growing_cancelVisit env b : growing (cancelVisit env b).
Proof. unfold cancelVisit. grows. Qed.

Lemma growing_updateVisit env context b : growing (updateVisit env context b).
Proof. unfold updateVisit. grows. Qed.

#[local] Hint Resolve growing_createVisit growing_checkInVisitor growing_checkOutVisitor
  growing_cancelVisit growing_updateVisit : handlers.

Lemma growing_queueAction env action j : growing (queueAction env action j).
Proof. unfold queueAction, mapM, parsed. cbv zeta. grows. Qed.

Section Growing.
Context {host : JsDate}.

Lemma growing_createAppointment env b : growing (createAppointment env b).
Proof. unfold createAppointment. grows. Qed.

Lemma growing_updateAppointment context b : growing (updateAppointment context b).
Proof. unfold updateAppointment. grows. Qed.

Lemma growing_updateIssue env context b : growing (updateIssue env context b).
Proof. unfold updateIssue. grows. Qed.

End Growing.

(** ** Who can do what *)

Section Wrappers.
Context {host : JsDate} {auth : Auth}.

Lemma withAuth_caller {A} (handler : option AuthUser -> option RouteParams -> M A)
    authHeader context u :
  caller authHeader = Some u -> withAuth handler authHeader context = handler (Some u) None.
Proof.
  unfold caller, withAuth, admitted. destruct (isTruthy _); [|done].
  destruct (verifyToken _); [|done]. by intros [= ->].
Qed.

Lemma withAuth_nobody {A} (handler : option AuthUser -> option RouteParams -> M A)
    authHeader context :
  caller authHeader = None -> exists e, withAuth handler authHeader context = respond 401 e.
Proof.
  unfold caller, withAuth. destruct (isTruthy _); [|by eexists].
  destruct (verifyToken _); [done | by eexists].
Qed.

Lemma withRole_refused {A} roles (handler : option RouteParams -> M A) user context :
  hasRole roles user = false ->
  exists s e, withRole roles handler user context = respond s e /\ (is_Some user -> s = 403).
Proof.
  unfold hasRole, withRole. destruct user as [u|].
  - intros ->. eexists _, _. done.
  - intros _. eexists _, _. split; [done | by intros [? ?]].
Qed.

Lemma withRole_allowed {A} roles (handler : option RouteParams -> M A) user context :
  hasRole roles user = true -> withRole roles handler user context = handler context.
Proof. unfold hasRole, withRole. destruct user as [u|]; [by intros -> | done]. Qed.

Lemma hasRole_managers_staff user :
  hasRole Api.managers user = true -> hasRole Api.staff user = true.
Proof.
  unfold hasRole. destruct user as [u|]; [|done]. simpl.
  destruct (String.eqb (authRole u) UserRole.ADMIN); [done|].
  destruct (String.eqb (authRole u) UserRole.POLITICIAN); done.
Qed.

Lemma answer_respond {A} s e db : Api.answer (@respond A s e) db = (db, s).
Proof. done. Qed.

Lemma answer_readOnly {A} (h : M A) db : readOnly h -> (Api.answer h db).1 = db.
Proof. intros Hh. unfold Api.answer, run. simpl. specialize (Hh db). by destruct (h db) as [? []]. Qed.

Lemma answer_growing {A} (h : M A) db : growing h -> keepsRows db (Api.answer h db).1.
Proof. intros Hh. unfold Api.answer, run. simpl. specialize (Hh db). by destruct (h db) as [? []]. Qed.

Lemma serve_nobody env call authHeader db :
  caller authHeader = None -> Api.serve env call authHeader db = (db, 401).
Proof.
  intros Hnone. destruct call; cbn [Api.serve];
    match goal with
    | |- Api.answer (withAuth ?h _ ?c) _ = _ =>
        destruct (withAuth_nobody h authHeader c Hnone) as [e ->]
    end; apply answer_respond.
Qed.

Lemma serve_get env call authHeader db :
  isGet call = true -> (Api.serve env call authHeader db).1 = db.
Proof.
  intros Hget. destruct (caller authHeader) as [u|] eqn:Hu.
  - destruct call; try discriminate Hget; cbn [Api.serve];
      rewrite (withAuth_caller _ _ _ u Hu);
      apply answer_readOnly;
      first [ apply readOnly_getVisit | apply readOnly_getQueueStatus
            | apply readOnly_getAppointment | apply readOnly_getCalendarAppointments
            | apply readOnly_getIssue ].
  - by rewrite serve_nobody.
Qed.

(** X1: every route answers 401 and leaves the store when the request carries
    no token that verifies, and the routes served by a GET never write,
    whoever calls. *)
Theorem serve_unauthenticated env call authHeader db :
  (caller authHeader = None -> Api.serve env call authHeader db = (db, 401)) /\
  (isGet call = true -> (Api.serve env call authHeader db).1 = db).
Proof. split; [apply serve_nobody | apply serve_get]. Qed.

Lemma withRole_growing {A} roles (handler : option RouteParams -> M A) user context :
  (forall c, growing (handler c)) -> growing (withRole roles handler user context).
Proof.
  intros Hh. unfold withRole. destruct user as [u|]; [|apply growing_readOnly; read_only].
  destruct (existsb _ _); [apply Hh | apply growing_readOnly; read_only].
Qed.

Lemma answer_refused {A} roles (handler : option RouteParams -> M A) u context db :
  hasRole roles (Some u) = false ->
  Api.answer (withRole roles handler (Some u) context) db = (db, 403).
Proof. unfold hasRole, withRole. by intros ->. Qed.

Lemma answer_allowed {A} roles (handler : option RouteParams -> M A) u context db :
  hasRole roles (Some u) = true ->
  Api.answer (withRole roles handler (Some u) context) db = Api.answer (handler context) db.
Proof. unfold hasRole, withRole. by intros ->. Qed.

(** X2: the store changes only for a caller whose role is ADMIN, POLITICIAN or
    STAFF, and a row is removed only for a caller whose role is ADMIN or
    POLITICIAN; a verified caller without the role of a writing route is
    answered 403: one with none of the three roles on every route that is
    not served by a GET, and one who is neither ADMIN nor POLITICIAN on the
    routes served by a DELETE. *)
Theorem serve_role_gate env call authHeader db :
  (hasRole Api.staff (caller authHeader) = false ->
     (Api.serve env call authHeader db).1 = db) /\
  (hasRole Api.managers (caller authHeader) = false ->
     keepsRows db (Api.serve env call authHeader db).1) /\
  (forall u, caller authHeader = Some u -> isGet call = false ->
     hasRole Api.staff (Some u) = false ->
     Api.serve env call authHeader db = (db, 403)) /\
  (forall u, caller authHeader = Some u -> isDelete call = true ->
     hasRole Api.managers (Some u) = false ->
     Api.serve env call authHeader db = (db, 403)).
Proof.
  destruct (caller authHeader) as [u|] eqn:Hu.
  2: { rewrite (serve_nobody env call authHeader db Hu).
       split_and!; [done | intros; apply keepsRows_refl | done | done]. }
  assert (Hmanagers : hasRole Api.staff (Some u) = false ->
                      hasRole Api.managers (Some u) = false).
  { intros Hs. destruct (hasRole Api.managers (Some u)) eqn:Hm; [|done].
    apply hasRole_managers_staff in Hm. congruence. }
  split_and!.
  - intros Hstaff. destruct (isGet call) eqn:Hget.
    { by apply serve_get. }
    destruct call; try discriminate Hget; cbn [Api.serve];
      rewrite (withAuth_caller _ _ _ u Hu);
      first [ by rewrite (answer_refused Api.staff)
            | by rewrite (answer_refused Api.managers) by auto ].
  - intros Hm. destruct (isGet call) eqn:Hget.
    { rewrite (serve_get env call authHeader db Hget). apply keepsRows_refl. }
    destruct call; try discriminate Hget; cbn [Api.serve];
      rewrite (withAuth_caller _ _ _ u Hu);
      first [ rewrite (answer_refused Api.managers) by done; apply keepsRows_refl
            | apply answer_growing, withRole_growing; intros c;
              first [ apply growing_createVisit | apply growing_updateVisit
                    | apply growing_queueAction | apply growing_createAppointment
                    | apply growing_updateAppointment | apply growing_updateIssue ] ].
  - intros u' [= <-] Hget Hstaff.
    destruct call; try discriminate Hget; cbn [Api.serve];
      rewrite (withAuth_caller _ _ _ u Hu);
      first [ by rewrite (answer_refused Api.staff)
            | by rewrite (answer_refused Api.managers) by auto ].
  - intros u' [= <-] Hdel Hm.
    destruct call; try discriminate Hdel; cbn [Api.serve];
      rewrite (withAuth_caller _ _ _ u Hu); by rewrite (answer_refused Api.managers).
Qed.

(** X21: the routes with an [[id]] segment are not served.  GET, PUT and
    DELETE of a visit, an appointment or an issue by id never write the
    store, whoever calls and whatever the id and the body; and they answer
    500 to every caller that the wrappers admit (any verified caller on a
    GET, ADMIN, POLITICIAN or STAFF on a PUT, ADMIN or POLITICIAN on a
    DELETE): [withAuth] calls the handler with the request only, so the
    handler stops at its first statement, [context.params]. *)
Theorem id_routes_not_served env call authHeader db :
  isById call = true ->
  (Api.serve env call authHeader db).1 = db /\
  (forall u, caller authHeader = Some u ->
     hasRole (if isGet call then [authRole u]
              else if isDelete call then Api.managers else Api.staff) (Some u) = true ->
     Api.serve env call authHeader db = (db, 500)).
Proof.
  intros Hid. destruct (caller authHeader) as [u|] eqn:Hu.
  2: { rewrite (serve_nobody env call authHeader db Hu). done. }
  assert (Hserve : exists s, Api.serve env call authHeader db = (db, s) /\
            (hasRole (if isGet call then [authRole u]
                      else if isDelete call then Api.managers else Api.staff) (Some u) = true
             -> s = 500)).
  { destruct call; try discriminate Hid; cbn [Api.serve isGet isDelete];
      rewrite (withAuth_caller _ _ _ u Hu);
      first
        [ by eexists
        | destruct (hasRole Api.staff (Some u)) eqn:Hr;
          [ rewrite (answer_allowed Api.staff) by done; by eexists
          | rewrite (answer_refused Api.staff) by done; by eexists ]
        | destruct (hasRole Api.managers (Some u)) eqn:Hr;
          [ rewrite (answer_allowed Api.managers) by done; by eexists
          | rewrite (answer_refused Api.managers) by done; by eexists ] ]. }
  destruct Hserve as (s & Hs & H500). rewrite Hs. split; [done|].
  intros u' [= <-] Hrole. by rewrite (H500 Hrole).
Qed.

End Wrappers.

(** ** Requests that fail write nothing *)

Lemma atomic_readOnly {A} (m : M A) : readOnly m -> atomic m.
Proof. intros Hm db db' s e Hrun. specialize (Hm db). rewrite Hrun in Hm. done. Qed.

Lemma atomic_bind {A B} (m : M A) (k : A -> M B) :
  readOnly m -> (forall a, atomic (k a)) -> atomic (bind m k).
Proof.
  intros Hm Hk db db' s e. unfold bind. specialize (Hm db).
  destruct (m db) as [db1 [a|s1 e1]]; simpl in Hm; subst db1.
  - apply Hk.
  - by intros [= <- _ _].
Qed.

Lemma atomic_write {A} (f : Db -> Db) (a : A) : atomic (modify f ;;; ret a).
Proof. intros db db' s e. unfold bind, modify, ret. done. Qed.

Lemma atomic_modify (f : Db -> Db) : atomic (modify f).
Proof. intros db db' s e. unfold modify. done. Qed.

#[local] Hint Resolve atomic_write atomic_modify : handlers.

(** Goes through a handler that checks first and writes last. *)
Ltac atomic_step :=
  first
    [ solve [auto with handlers]
    | solve [apply atomic_readOnly; read_only]
    | apply atomic_bind; [solve [read_only] | intros ?]
    | match goal with
      | |- atomic (match ?x with _ => _ end) => destruct x
      end ].

Ltac all_or_nothing := repeat atomic_step.

Lemma atomic_appointment_update id u f : atomic (appointment_update id u f).
Proof. unfold appointment_update. all_or_nothing. Qed.

Lemma atomic_visit_update id f : atomic (visit_update id f).
Proof. unfold visit_update. all_or_nothing. Qed.

Lemma atomic_issue_update id u f : atomic (issue_update id u f).
Proof. unfold issue_update. all_or_nothing. Qed.

Lemma atomic_appointment_create id row : atomic (appointment_create id row).
Proof. unfold appointment_create. all_or_nothing. Qed.

Lemma atomic_visit_delete id : atomic (visit_delete id).
Proof. unfold visit_delete. all_or_nothing. Qed.

Lemma atomic_appointment_delete id : atomic (appointment_delete id).
Proof. unfold appointment_delete. all_or_nothing. Qed.

Lemma atomic_issue_delete id : atomic (issue_delete id).
Proof. unfold issue_delete. all_or_nothing. Qed.

#[local] Hint Resolve atomic_appointment_update atomic_visit_update atomic_issue_update
  atomic_appointment_create atomic_visit_delete atomic_appointment_delete
  atomic_issue_delete : handlers.

Lemma atomic_run {A} (h : M A) db db' s e :
  atomic h -> run h db = (db', Failure s e) -> db' = db.
Proof.
  intros Hh. unfold run. destruct (h db) as [db1 [a|s1 e1]] eqn:E; [done|].
  intros [= <- <- <-]. by eapply Hh.
Qed.

Section Atomic.
Context {host : JsDate}.

Lemma atomic_createAppointment env b : atomic (createAppointment env b).
Proof. unfold createAppointment. all_or_nothing. Qed.

Lemma atomic_updateAppointment context b : atomic (updateAppointment context b).
Proof.
  unfold updateAppointment. do 4 (apply atomic_bind; [solve [read_only] | intros ?]).
  apply atomic_bind; [|intros; all_or_nothing].
  destruct (UpdateAppointment.touchesTime b); [|read_only].
  apply readOnly_bind; [apply readOnly_timeBlock | intros; read_only].
Qed.

Lemma atomic_updateIssue env context b : atomic (updateIssue env context b).
Proof. unfold updateIssue. all_or_nothing. Qed.

Lemma atomic_updateVisit env context b : atomic (updateVisit env context b).
Proof. unfold updateVisit. all_or_nothing. Qed.

Lemma atomic_deleteVisit context : atomic (deleteVisit context).
Proof. unfold deleteVisit. all_or_nothing. Qed.

Lemma atomic_deleteAppointment context : atomic (deleteAppointment context).
Proof. unfold deleteAppointment. all_or_nothing. Qed.

Lemma atomic_deleteIssue context : atomic (deleteIssue context).
Proof. unfold deleteIssue. all_or_nothing. Qed.

(** X3: a request to schedule, reschedule, update an issue or a visit, or delete
    a row that is answered with an error has written nothing: these handlers
    make all their checks before their one write, whether they are handed
    a route context or not.  (The check-ins and the check-out are not of
    that kind.) *)
Theorem failed_request_writes_nothing env context db db' s e :
  (forall b, run (createAppointment env b) db = (db', Failure s e) -> db' = db) /\
  (forall b, run (updateAppointment context b) db = (db', Failure s e) -> db' = db) /\
  (forall b, run (updateIssue env context b) db = (db', Failure s e) -> db' = db) /\
  (forall b, run (updateVisit env context b) db = (db', Failure s e) -> db' = db) /\
  (run (deleteVisit context) db = (db', Failure s e) -> db' = db) /\
  (run (deleteAppointment context) db = (db', Failure s e) -> db' = db) /\
  (run (deleteIssue context) db = (db', Failure s e) -> db' = db).
Proof.
  split_and!; intros; eapply atomic_run; try eassumption.
  - apply atomic_createAppointment.
  - apply atomic_updateAppointment.
  - apply atomic_updateIssue.
  - apply atomic_updateVisit.
  - apply atomic_deleteVisit.
  - apply atomic_deleteAppointment.
  - apply atomic_deleteIssue.
Qed.

End Atomic.

(** ** A check-in that goes through *)

Lemma set_appointments_id db : set_appointments (fun t => t) db = db.
Proof. by destruct db. Qed.

Lemma linkAppointment_linked appointmentId s db :
  (forall id, appointmentId = Some id -> truthy id = true ->
     is_Some (appointments db !! id)) ->
  linkAppointment appointmentId s db = (set_appointments (linked appointmentId s) db, Next tt).
Proof.
  intros Hfound.
  destruct (linkAppointment_cases appointmentId s db)
    as [[-> Hf] | [(id & Hid & Ht & Hnone & _) | (id & a & Hid & Ht & Ha & ->)]].
  - f_equal. destruct db. unfold set_appointments, linked. simpl in *.
    destruct appointmentId as [id|]; [|done]. simpl in Hf. by rewrite Hf.
  - destruct (Hfound id Hid Ht) as [a Ha]. congruence.
  - f_equal. unfold set_appointments, linked. by rewrite Hid, Ht, Ha.
Qed.

(** The store takes the row of a check-in whose references it holds. *)
Lemma visit_create_runs env b db :
  visits db !! newId env = None ->
  is_Some (visitors db !! CheckIn.visitorId b) ->
  is_Some (users db !! CheckIn.userId b) ->
  (forall a, CheckIn.appointmentId b = Some a -> is_Some (appointments db !! a)) ->
  visit_create (newId env) (newVisit env b) db
    = (set_visits <[newId env := newVisit env b]> db, Next (newId env, newVisit env b)).
Proof.
  intros Hfresh [x Hx] [u Hu] Happ. unfold visit_create. open_handler.
  rewrite Hfresh, Hx, Hu. simpl.
  destruct (CheckIn.appointmentId b) as [a|]; [|done].
  destruct (Happ a eq_refl) as [r ->]. done.
Qed.

Lemma linked_reference appointmentId s (t : gmap string Appointment) :
  appointmentId <> Some "" ->
  (forall id, appointmentId = Some id -> truthy id = true -> is_Some (t !! id)) ->
  forall a, appointmentId = Some a -> is_Some (linked appointmentId s t !! a).
Proof.
  intros Hne Happ a ->. unfold linked.
  assert (Ht : truthy a = true).
  { unfold truthy. destruct (String.eqb_spec a "") as [->|]; [by destruct Hne | done]. }
  rewrite Ht. destruct (Happ a eq_refl Ht) as [r Hr]. rewrite Hr.
  rewrite lookup_insert_eq. by eexists.
Qed.

Lemma check_in_runs env b db x :
  resolves b db ->
  CheckIn.appointmentId b <> Some "" ->
  visitors db !! CheckIn.visitorId b = Some x ->
  (forall k v, visits db !! k = Some v ->
     activeVisitOf (CheckIn.visitorId b) k v = false) ->
  visits db !! newId env = None ->
  let after s :=
    set_visitors <[CheckIn.visitorId b := countVisit env x]>
      (set_visits <[newId env := newVisit env b]>
         (set_appointments (linked (CheckIn.appointmentId b) s) db)) in
  run (createVisit env b) db
    = (after AppointmentStatus.COMPLETED, Success (newId env, newVisit env b)) /\
  run (checkInVisitor env b) db
    = (after AppointmentStatus.CONFIRMED, Success (newId env, newVisit env b)).
Proof.
  intros (Hschema & _ & [u Hu] & Happ) Hne Hx Hnone Hfresh after.
  assert (Hcreate : forall s,
    visit_create (newId env) (newVisit env b)
      (set_appointments (linked (CheckIn.appointmentId b) s) db)
    = (set_visits <[newId env := newVisit env b]>
         (set_appointments (linked (CheckIn.appointmentId b) s) db),
       Next (newId env, newVisit env b))).
  { intros s. apply visit_create_runs; simpl; [done | by eexists | by eexists |].
    by apply linked_reference. }
  split.
  - unfold run, createVisit.
    rewrite (bind_next _ _ db db tt) by (unfold validate; by rewrite Hschema).
    rewrite (bind_next _ _ db db (Some x))
      by (unfold visitor_findUnique; open_handler; by rewrite Hx).
    rewrite (bind_next _ _ db db x) by done.
    rewrite (bind_next _ _ db db (Some u))
      by (unfold user_findUnique; open_handler; by rewrite Hu).
    rewrite (bind_next _ _ db db u) by done.
    rewrite (bind_next _ _ db _ tt (linkAppointment_linked _ _ db Happ)).
    rewrite (bind_next _ _ _ _ tt
               (rejectActive_none (CheckIn.visitorId b)
                  (set_appointments (linked (CheckIn.appointmentId b)
                     AppointmentStatus.COMPLETED) db) Hnone)).
    rewrite (bind_next _ _ _ _ _ (Hcreate AppointmentStatus.COMPLETED)).
    unfold visitor_update. open_handler. rewrite Hx. done.
  - unfold run, checkInVisitor.
    rewrite (bind_next _ _ db db tt) by (unfold validate; by rewrite Hschema).
    rewrite (bind_next _ _ db db (Some x))
      by (unfold visitor_findUnique; open_handler; by rewrite Hx).
    rewrite (bind_next _ _ db db x) by done.
    rewrite (bind_next _ _ db db (Some u))
      by (unfold user_findUnique; open_handler; by rewrite Hu).
    rewrite (bind_next _ _ db db u) by done.
    rewrite (bind_next _ _ _ _ tt (rejectActive_none _ _ Hnone)).
    rewrite (bind_next _ _ db _ tt (linkAppointment_linked _ _ db Happ)).
    rewrite (bind_next _ _ _ _ _ (Hcreate AppointmentStatus.CONFIRMED)).
    unfold visitor_update. open_handler. rewrite Hx. done.
Qed.

(** X4: a check-in of a visitor who has no visit in progress, by a body that
    passes the schema and names a visitor, a staff user and, if any, an
    appointment that exist (an [appointmentId] that is the empty string
    names none: the store refuses the row), under a fresh id.  The answer is
    the new visit: of that visitor, staff user and appointment, IN_PROGRESS,
    checked in at the first clock reading, not checked out, with the purpose
    and the notes of the body and no satisfaction.  The store gains that
    row, counts the visit on the visitor and stamps [lastVisit] with the
    second clock reading; the appointment named, if any, gets the status
    COMPLETED through the visits route and CONFIRMED through the queue
    action, its other columns staying.  Nothing else changes. *)
Theorem check_in_success env b db x :
  resolves b db ->
  CheckIn.appointmentId b <> Some "" ->
  visitors db !! CheckIn.visitorId b = Some x ->
  (forall k v, visits db !! k = Some v ->
     vVisitorId v = CheckIn.visitorId b -> vStatus v <> VisitStatus.IN_PROGRESS) ->
  visits db !! newId env = None ->
  forall route s,
    (route = createVisit /\ s = AppointmentStatus.COMPLETED) \/
    (route = checkInVisitor /\ s = AppointmentStatus.CONFIRMED) ->
    exists db' v,
      run (route env b) db = (db', Success (newId env, v)) /\
      v = mkVisit (CheckIn.visitorId b) (CheckIn.userId b) (CheckIn.appointmentId b)
            (now env) None VisitStatus.IN_PROGRESS (CheckIn.purpose b) (CheckIn.notes b)
            None /\
      visits db' = <[newId env := v]> (visits db) /\
      visitors db' =
        <[CheckIn.visitorId b := mkVisitor (visitorName x) (visitCount x + 1) (Some (now2 env))]>
          (visitors db) /\
      match CheckIn.appointmentId b with
      | Some id =>
          exists a, appointments db !! id = Some a /\
            appointments db' =
              <[id := mkAppointment (aTitle a) (aVisitorId a) (aUserId a) (scheduledDate a)
                        (startTime a) (endTime a) (duration a) s (priority a)]>
                (appointments db)
      | None => appointments db' = appointments db
      end /\
      users db' = users db /\ issues db' = issues db.
Proof.
  intros Hres Hne Hx Hnone Hfresh route s Hroute.
  assert (Hnone' : forall k v, visits db !! k = Some v ->
            activeVisitOf (CheckIn.visitorId b) k v = false).
  { intros k v Hk. apply not_true_is_false. intros [Hv Hs]%activeVisitOf_true.
    by apply (Hnone k v Hk). }
  pose proof (check_in_runs env b db x Hres Hne Hx Hnone' Hfresh) as Hruns.
  cbv zeta in Hruns. destruct Hruns as [Hvisits Hqueue].
  assert (Hlinked : forall s',
    match CheckIn.appointmentId b with
    | Some id =>
        exists a, appointments db !! id = Some a /\
          linked (CheckIn.appointmentId b) s' (appointments db) =
            <[id := mkAppointment (aTitle a) (aVisitorId a) (aUserId a) (scheduledDate a)
                      (startTime a) (endTime a) (duration a) s' (priority a)]>
              (appointments db)
    | None => linked (CheckIn.appointmentId b) s' (appointments db) = appointments db
    end).
  { intros s'. destruct Hres as (_ & _ & _ & Happ).
    destruct (CheckIn.appointmentId b) as [id|] eqn:Hid; [|done].
    assert (Ht : truthy id = true).
    { unfold truthy. destruct (String.eqb_spec id "") as [->|]; [by destruct Hne | done]. }
    destruct (Happ id eq_refl Ht) as [a Ha]. exists a. split; [done|].
    unfold linked. by rewrite Ht, Ha. }
  destruct Hroute as [[-> ->] | [-> ->]]; eexists _, _.
  - split; [exact Hvisits|]. split_and!; try done. simpl.
    specialize (Hlinked AppointmentStatus.COMPLETED).
    by destruct (CheckIn.appointmentId b).
  - split; [exact Hqueue|]. split_and!; try done. simpl.
    specialize (Hlinked AppointmentStatus.CONFIRMED).
    by destruct (CheckIn.appointmentId b).
Qed.

(** ** A check-out and a cancellation that go through *)

Lemma closeAppointment_linked visit s db :
  (forall id, appointmentId visit = Some id -> truthy id = true ->
     is_Some (appointments db !! id)) ->
  closeAppointment visit s db
    = (set_appointments (linked (appointmentId visit) s) db, Next tt).
Proof.
  intros Hfound. unfold closeAppointment, linked, appointment_update.
  destruct (appointmentId visit) as [id|]; [|by destruct db].
  destruct (truthy id) eqn:Ht; [|by destruct db].
  destruct (Hfound id eq_refl Ht) as [a Ha]. open_handler.
  unfold set_appointments. by rewrite !Ha.
Qed.

Lemma close_runs (handler : Env -> CheckOut.Body -> M Visit) data s env b db v :
  (handler = checkOutVisitor /\ data = checkOutData /\ s = AppointmentStatus.COMPLETED /\
     CheckOut.schema b = true) \/
  (handler = cancelVisit /\ data = cancelData /\ s = AppointmentStatus.CANCELLED /\
     truthy (CheckOut.visitId b) = true) ->
  visits db !! CheckOut.visitId b = Some v ->
  vStatus v = VisitStatus.IN_PROGRESS ->
  (forall id, appointmentId v = Some id -> truthy id = true ->
     is_Some (appointments db !! id)) ->
  run (handler env b) db
    = (set_appointments (linked (appointmentId v) s)
         (set_visits <[CheckOut.visitId b := data env b v v]> db),
       Success (data env b v v)).
Proof.
  intros Hcase Hv Hst Hfound.
  destruct Hcase as [(-> & -> & -> & Hs) | (-> & -> & -> & Hs)].
  - unfold run, checkOutVisitor.
    rewrite (bind_next _ _ db db tt) by (unfold validate; by rewrite Hs).
    rewrite (bind_next _ _ db db (Some v))
      by (unfold visit_findUnique; open_handler; by rewrite Hv).
    rewrite (bind_next _ _ db db v) by done.
    rewrite (bind_next _ _ db db tt) by (unfold requireInProgress; by rewrite Hst).
    rewrite (bind_next _ _ db (set_visits <[CheckOut.visitId b := checkOutData env b v v]> db)
               (checkOutData env b v v))
      by (unfold visit_update; open_handler; by rewrite Hv).
    rewrite (bind_next _ _ _ _ tt
               (closeAppointment_linked v AppointmentStatus.COMPLETED
                  (set_visits <[CheckOut.visitId b := checkOutData env b v v]> db) Hfound)).
    done.
  - unfold run, cancelVisit.
    rewrite (bind_next _ _ db db tt) by (unfold validate; by rewrite Hs).
    rewrite (bind_next _ _ db db (Some v))
      by (unfold visit_findUnique; open_handler; by rewrite Hv).
    rewrite (bind_next _ _ db db v) by done.
    rewrite (bind_next _ _ db db tt) by (unfold requireInProgress; by rewrite Hst).
    rewrite (bind_next _ _ db (set_visits <[CheckOut.visitId b := cancelData env b v v]> db)
               (cancelData env b v v))
      by (unfold visit_update; open_handler; by rewrite Hv).
    rewrite (bind_next _ _ _ _ tt
               (closeAppointment_linked v AppointmentStatus.CANCELLED
                  (set_visits <[CheckOut.visitId b := cancelData env b v v]> db) Hfound)).
    done.
Qed.

(** X5: a check-out of a visit in progress whose linked appointment, if it has
    one, exists: the visit becomes COMPLETED with [checkOutTime] the clock
    reading; the notes of the body replace those of the visit only when they
    are a non-empty string; an absent satisfaction leaves the stored one and
    [null] clears it; the linked appointment becomes COMPLETED; the visitor
    and the rest of the visit are as before. *)
Theorem check_out_success env b db v :
  CheckOut.schema b = true ->
  visits db !! CheckOut.visitId b = Some v ->
  vStatus v = VisitStatus.IN_PROGRESS ->
  (forall id, appointmentId v = Some id -> truthy id = true ->
     is_Some (appointments db !! id)) ->
  exists db' w,
    run (checkOutVisitor env b) db = (db', Success w) /\
    visits db' = <[CheckOut.visitId b := w]> (visits db) /\
    appointments db' = linked (appointmentId v) AppointmentStatus.COMPLETED (appointments db) /\
    visitors db' = visitors db /\
    vStatus w = VisitStatus.COMPLETED /\
    checkOutTime w = Some (now env) /\
    notes w = match CheckOut.notes b with
              | Some n => if String.eqb n "" then notes v else Some n
              | None => notes v
              end /\
    satisfaction w = match CheckOut.satisfaction b with
                     | Undefined => satisfaction v
                     | Null => None
                     | Value s => Some s
                     end /\
    (vVisitorId w, vUserId w, appointmentId w, checkInTime w, purpose w)
      = (vVisitorId v, vUserId v, appointmentId v, checkInTime v, purpose v).
Proof.
  intros Hs Hv Hst Hfound.
  eexists _, _. split.
  - apply (close_runs checkOutVisitor checkOutData AppointmentStatus.COMPLETED); try done.
    left. done.
  - simpl. unfold orElse, isTruthy, truthy.
    destruct (CheckOut.notes b) as [n|], (CheckOut.satisfaction b);
      try destruct (String.eqb n ""); done.
Qed.

Lemma cancelVisit_missing env b db :
  truthy (CheckOut.visitId b) = true -> visits db !! CheckOut.visitId b = None ->
  run (cancelVisit env b) db = (db, Failure 404 "Visit not found").
Proof.
  intros Hs Hnone. unfold cancelVisit. open_handler. by rewrite Hs, Hnone.
Qed.

Lemma cancelVisit_not_in_progress env b db v :
  truthy (CheckOut.visitId b) = true -> visits db !! CheckOut.visitId b = Some v ->
  vStatus v <> VisitStatus.IN_PROGRESS ->
  run (cancelVisit env b) db = (db, Failure 400 "Visit is not in progress").
Proof.
  intros Hs Hv Hst. unfold cancelVisit, requireInProgress. open_handler.
  rewrite Hs, Hv. simpl.
  apply VisitStatus_eqb_neq in Hst. by rewrite Hst.
Qed.

(** X6: the cancel action answers 404 for a visit that does not exist and 400
    for one that is not in progress, without writing.  On a visit in
    progress it sets CANCELLED, stamps [checkOutTime], leaves the
    satisfaction alone and sets the linked appointment to CANCELLED; after
    it, neither a cancel nor a check-out of that visit goes through. *)
Theorem cancel_visit env b db :
  truthy (CheckOut.visitId b) = true ->
  (visits db !! CheckOut.visitId b = None ->
     run (cancelVisit env b) db = (db, Failure 404 "Visit not found")) /\
  (forall v, visits db !! CheckOut.visitId b = Some v ->
     vStatus v <> VisitStatus.IN_PROGRESS ->
     run (cancelVisit env b) db = (db, Failure 400 "Visit is not in progress")) /\
  (forall v, visits db !! CheckOut.visitId b = Some v ->
     vStatus v = VisitStatus.IN_PROGRESS ->
     (forall id, appointmentId v = Some id -> truthy id = true ->
        is_Some (appointments db !! id)) ->
     exists db' w,
       run (cancelVisit env b) db = (db', Success w) /\
       visits db' = <[CheckOut.visitId b := w]> (visits db) /\
       appointments db'
         = linked (appointmentId v) AppointmentStatus.CANCELLED (appointments db) /\
       vStatus w = VisitStatus.CANCELLED /\
       checkOutTime w = Some (now env) /\
       satisfaction w = satisfaction v /\
       (forall env2 b2, CheckOut.visitId b2 = CheckOut.visitId b ->
          run (cancelVisit env2 b2) db' = (db', Failure 400 "Visit is not in progress") /\
          (CheckOut.schema b2 = true ->
           run (checkOutVisitor env2 b2) db'
             = (db', Failure 400 "Visit is not in progress")))).
Proof.
  intros Hs. split_and!.
  - by apply cancelVisit_missing.
  - intros v. by apply cancelVisit_not_in_progress.
  - intros v Hv Hst Hfound. eexists _, _. split.
    + apply (close_runs cancelVisit cancelData AppointmentStatus.CANCELLED); try done.
      right. done.
    + simpl. split_and!; try done.
      intros env2 b2 Hid.
      assert (Hw : visits (set_appointments
                     (linked (appointmentId v) AppointmentStatus.CANCELLED)
                     (set_visits <[CheckOut.visitId b := cancelData env b v v]> db))
                   !! CheckOut.visitId b2 = Some (cancelData env b v v))
        by (rewrite Hid; simpl; apply lookup_insert_eq).
      split.
      * eapply cancelVisit_not_in_progress; [by rewrite Hid | exact Hw | done].
      * intros Hs2. eapply checkOutVisitor_not_in_progress; [done | exact Hw | done].
Qed.

Lemma linked_is_Some appointmentId s (t : gmap string Appointment) k :
  is_Some (t !! k) -> is_Some (linked appointmentId s t !! k).
Proof.
  intros Hk. unfold linked. destruct appointmentId as [id|]; [|done].
  destruct (truthy id); [|done]. destruct (t !! id) eqn:E; [|done].
  destruct (decide (id = k)) as [->|Hne].
  - rewrite lookup_insert_eq. by eexists.
  - by rewrite lookup_insert_ne.
Qed.

(** X7: check-out and check-in compose: in a store with at most one visit in
    progress per visitor, once the visit in progress of a visitor is checked
    out the visitor has none, and a check-in of that visitor (through either
    entry point) that was held back only by that visit goes through: it
    answers, and stores under the generated id, a visit of the visitor that
    is IN_PROGRESS. *)
Theorem check_in_after_check_out env b db v env2 b2 :
  singleActive db ->
  CheckOut.schema b = true ->
  visits db !! CheckOut.visitId b = Some v ->
  vStatus v = VisitStatus.IN_PROGRESS ->
  (forall id, appointmentId v = Some id -> truthy id = true ->
     is_Some (appointments db !! id)) ->
  CheckIn.visitorId b2 = vVisitorId v ->
  resolves b2 db ->
  CheckIn.appointmentId b2 <> Some "" ->
  visits db !! newId env2 = None ->
  let db1 := (run (checkOutVisitor env b) db).1 in
  (forall k w, visits db1 !! k = Some w -> vVisitorId w = vVisitorId v ->
     vStatus w <> VisitStatus.IN_PROGRESS) /\
  (forall route, route = createVisit \/ route = checkInVisitor ->
     exists db2 w,
       run (route env2 b2) db1 = (db2, Success (newId env2, w)) /\
       visits db2 !! newId env2 = Some w /\
       vVisitorId w = vVisitorId v /\ vStatus w = VisitStatus.IN_PROGRESS /\
       checkInTime w = now env2).
Proof.
  intros Hinv Hs Hv Hst Hfound Hvisitor Hres Hne Hfresh db1.
  assert (Hdb1 : db1 = set_appointments (linked (appointmentId v) AppointmentStatus.COMPLETED)
                         (set_visits <[CheckOut.visitId b := checkOutData env b v v]> db)).
  { unfold db1.
    rewrite (close_runs checkOutVisitor checkOutData AppointmentStatus.COMPLETED
               env b db v); try done. left. done. }
  assert (Hnone : forall k w, visits db1 !! k = Some w ->
                    activeVisitOf (vVisitorId v) k w = false).
  { intros k w Hk. rewrite Hdb1 in Hk. simpl in Hk.
    apply lookup_insert_Some in Hk as [[_ <-] | [Hne' Hk]];
      [unfold activeVisitOf; simpl; apply andb_false_r|].
    apply not_true_is_false. intros Hact. apply activeVisitOf_true in Hact as [Hvis Hip].
    apply Hne'. by apply (Hinv (CheckOut.visitId b) k v w). }
  split.
  { intros k w Hk Hvis Hip. specialize (Hnone k w Hk).
    apply not_true_iff_false in Hnone. apply Hnone. by apply activeVisitOf_true. }
  destruct Hres as (Hschema & [x Hx] & Hu & Happ).
  assert (Hres1 : resolves b2 db1).
  { rewrite Hdb1. unfold resolves. simpl. split_and!; [done | by exists x | done |].
    intros id Hid Ht. apply linked_is_Some. by apply Happ. }
  assert (Hfresh1 : visits db1 !! newId env2 = None).
  { rewrite Hdb1. simpl. rewrite lookup_insert_ne; [done|]. intros Heq. congruence. }
  assert (Hx1 : visitors db1 !! CheckIn.visitorId b2 = Some x) by by rewrite Hdb1.
  rewrite <- Hvisitor in Hnone.
  pose proof (check_in_runs env2 b2 db1 x Hres1 Hne Hx1 Hnone Hfresh1) as Hruns.
  cbv zeta in Hruns. destruct Hruns as [Hvisits Hqueue].
  intros route [-> | ->]; eexists _, _; (split; [eassumption|]); simpl;
    rewrite lookup_insert_eq; done.
Qed.

(** ** The visit update *)

(** X8: the handler of the visit update.  Called without a route context,
    which is how [withAuth] calls it for a caller it admits, [updateVisit]
    answers 500 and writes nothing, whatever the body.  Handed the context
    of the route, it answers 400 for a body out of the schema and 404 for a
    visit that does not exist, without a write, and otherwise rewrites that
    visit row only: its visitor, staff user, appointment and check-in time
    stay; the status is that of the body when it has one, with no check on
    the status that the visit has; and [checkOutTime] becomes the clock
    reading exactly when the body sets COMPLETED on a visit that was not
    COMPLETED, and stays otherwise (a visit set to CANCELLED gets no
    check-out time, a reopened visit keeps its old one). *)
Theorem put_visit env id b db :
  (forall context,
     run (admitted (fun context => updateVisit env context b) context) db
       = (db, Failure 500 "Internal server error")) /\
  (UpdateVisit.schema b = false ->
     run (updateVisit env (Some (mkRouteParams id)) b) db
       = (db, Failure 400 "Validation failed")) /\
  (UpdateVisit.schema b = true -> visits db !! id = None ->
     run (updateVisit env (Some (mkRouteParams id)) b) db
       = (db, Failure 404 "Visit not found")) /\
  (forall v, UpdateVisit.schema b = true -> visits db !! id = Some v ->
     exists w,
       run (updateVisit env (Some (mkRouteParams id)) b) db
         = (set_visits <[id := w]> db, Success w) /\
       (vVisitorId w, vUserId w, appointmentId w, checkInTime w)
         = (vVisitorId v, vUserId v, appointmentId v, checkInTime v) /\
       vStatus w = match UpdateVisit.status b with Some s => s | None => vStatus v end /\
       checkOutTime w =
         (if bool_decide (UpdateVisit.status b = Some VisitStatus.COMPLETED /\
                          vStatus v <> VisitStatus.COMPLETED)
          then Some (now env) else checkOutTime v)).
Proof.
  split_and!.
  - done.
  - intros Hs. unfold updateVisit. open_handler. by rewrite Hs.
  - intros Hs Hnone. unfold updateVisit. open_handler. by rewrite Hs, Hnone.
  - intros v Hs Hv. eexists. split.
    + unfold updateVisit, visit_update. open_handler. rewrite Hs, Hv. simpl.
      rewrite Hv. reflexivity.
    + simpl. split_and!; try done.
      * unfold stampCheckOut. case_bool_decide as Hd.
        -- destruct Hd as [-> Hne]. apply VisitStatus_eqb_neq in Hne. by rewrite Hne.
        -- destruct (UpdateVisit.status b) as [[]|]; try done.
           destruct (VisitStatus.eqb (vStatus v) VisitStatus.COMPLETED) eqn:Ec; [done|].
           exfalso. apply Hd. split; [done | by apply VisitStatus_eqb_neq].
Qed.

(** ** The visit counter *)

Lemma filter_length_Permutation {A} (f : A -> bool) l l' :
  Permutation l l' -> length (List.filter f l) = length (List.filter f l').
Proof.
  induction 1 as [|x l l' _ IH|x y l|l1 l2 l3 _ IH1 _ IH2]; simpl.
  - done.
  - destruct (f x); simpl; by rewrite IH.
  - by destruct (f x), (f y).
  - by rewrite IH1.
Qed.

Section Counting.
Context {A : Type} (cond : string -> A -> bool).

Lemma findMany_insert_fresh (t : gmap string A) k v :
  t !! k = None ->
  length (findMany cond (<[k := v]> t)) = (one (cond k v) + length (findMany cond t))%nat.
Proof.
  intros Hk. unfold findMany, rows.
  rewrite (filter_length_Permutation _ _ _ (map_to_list_insert t k v Hk)).
  cbn. destruct (cond k v); reflexivity.
Qed.

Lemma findMany_delete (t : gmap string A) k v :
  t !! k = Some v ->
  (length (findMany cond (delete k t)) + one (cond k v))%nat = length (findMany cond t).
Proof.
  intros Hk. unfold findMany, rows.
  rewrite <- (filter_length_Permutation _ _ _ (map_to_list_delete t k v Hk)).
  cbn. destruct (cond k v); simpl; lia.
Qed.

Lemma findMany_insert_over (t : gmap string A) k v0 v :
  t !! k = Some v0 ->
  (length (findMany cond (<[k := v]> t)) + one (cond k v0))%nat
    = (length (findMany cond t) + one (cond k v))%nat.
Proof.
  intros Hk. rewrite <- (insert_delete_eq t).
  rewrite findMany_insert_fresh by apply lookup_delete_eq.
  rewrite <- (findMany_delete t k v0 Hk). lia.
Qed.

End Counting.

Lemma keepsVisitors_readOnly {A} (m : M A) : readOnly m -> keepsVisitors m.
Proof. intros Hm db. by rewrite Hm. Qed.

Lemma keepsVisitors_bind {A B} (m : M A) (k : A -> M B) :
  keepsVisitors m -> (forall a, keepsVisitors (k a)) -> keepsVisitors (bind m k).
Proof.
  intros Hm Hk db. unfold bind. specialize (Hm db).
  destruct (m db) as [db' [a|s e]]; simpl in *; [|done].
  etrans; [apply Hk | exact Hm].
Qed.

Lemma keepsVisitors_set_visits f : keepsVisitors (modify (set_visits f)).
Proof. done. Qed.

Lemma keepsVisitors_set_appointments f : keepsVisitors (modify (set_appointments f)).
Proof. done. Qed.

#[local] Hint Resolve keepsVisitors_set_visits keepsVisitors_set_appointments : handlers.

Ltac keeps_visitors :=
  repeat first
    [ solve [auto with handlers]
    | solve [apply keepsVisitors_readOnly; read_only]
    | apply keepsVisitors_bind; [|intros ?]
    | match goal with
      | |- keepsVisitors (match ?x with _ => _ end) => destruct x
      end ].

Lemma keepsVisitors_checkOutVisitor env b : keepsVisitors (checkOutVisitor env b).
Proof. unfold checkOutVisitor, visit_update, closeAppointment, appointment_update. keeps_visitors. Qed.

Lemma keepsVisitors_cancelVisit env b : keepsVisitors (cancelVisit env b).
Proof. unfold cancelVisit, visit_update, closeAppointment, appointment_update. keeps_visitors. Qed.

Lemma keepsVisitors_updateVisit env context b :
  keepsVisitors (updateVisit env context b).
Proof. unfold updateVisit, visit_update. keeps_visitors. Qed.

Lemma keepsVisitors_deleteVisit context : keepsVisitors (deleteVisit context).
Proof. unfold deleteVisit, visit_delete. keeps_visitors. Qed.

Lemma run_keepsVisitors {A} (h : M A) db :
  keepsVisitors h -> visitors (run h db).1 = visitors db.
Proof. intros Hh. unfold run. specialize (Hh db). by destruct (h db) as [? []]. Qed.

(** What a check-in does to the visits and to the visitors together. *)
Lemma check_in_written env b db1 x :
  visitors db1 !! CheckIn.visitorId b = Some x ->
  let after := ((visit <- visit_create (newId env) (newVisit env b) ;;
                 visitor_update (CheckIn.visitorId b) (countVisit env) ;;;
                 ret visit) db1).1 in
  (visits after = visits db1 /\ visitors after = visitors db1) \/
  (visits db1 !! newId env = None /\
   visits after = <[newId env := newVisit env b]> (visits db1) /\
   visitors after = <[CheckIn.visitorId b := countVisit env x]> (visitors db1)).
Proof.
  intros Hx. unfold visit_create, visitor_update. open_handler.
  destruct (visits db1 !! newId env) eqn:Hfresh; simpl; [by left|].
  rewrite Hx. simpl.
  destruct (users db1 !! CheckIn.userId b); simpl; [|by left].
  destruct (CheckIn.appointmentId b) as [a|]; simpl.
  - destruct (appointments db1 !! a); simpl; [|by left]. rewrite Hx. by right.
  - rewrite Hx. by right.
Qed.

Lemma check_in_both route env b db :
  route = createVisit \/ route = checkInVisitor ->
  (visits (run (route env b) db).1 = visits db /\
   visitors (run (route env b) db).1 = visitors db) \/
  (exists x, visits db !! newId env = None /\
     visitors db !! CheckIn.visitorId b = Some x /\
     visits (run (route env b) db).1 = <[newId env := newVisit env b]> (visits db) /\
     visitors (run (route env b) db).1
       = <[CheckIn.visitorId b := countVisit env x]> (visitors db)).
Proof.
  intros [-> | ->].
  - unfold createVisit. open_handler.
    destruct (CheckIn.schema b); simpl; [|by left].
    destruct (visitors db !! CheckIn.visitorId b) as [x|] eqn:Hx; simpl; [|by left].
    destruct (users db !! CheckIn.userId b); simpl; [|by left].
    pose proof (linkAppointment_visits (CheckIn.appointmentId b)
                  AppointmentStatus.COMPLETED db) as [Hv Hvs].
    destruct (linkAppointment _ _ db) as [db1 [[]|]]; simpl in *; [|by left].
    destruct (rejectActive_cases (CheckIn.visitorId b) db1) as [[-> _] | [-> _]];
      [|by left].
    rewrite <- Hvs in Hx.
    pose proof (check_in_written env b db1 x Hx) as Hw. cbv zeta in Hw.
    unfold bind in Hw.
    destruct (visit_create (newId env) (newVisit env b) db1) as [db2 [r|]];
      simpl in *.
    + destruct (visitor_update _ _ db2) as [db3 [?|]]; simpl in *;
        (destruct Hw as [[Ha Hb] | (Ha & Hb & Hc)];
          [left; by rewrite Ha, Hb | right; exists x; by rewrite Hb, Hc, <- Hv, <- Hvs]).
    + destruct Hw as [[Ha Hb] | (Ha & Hb & Hc)];
        [left; by rewrite Ha, Hb | right; exists x; by rewrite Hb, Hc, <- Hv, <- Hvs].
  - unfold checkInVisitor. open_handler.
    destruct (CheckIn.schema b); simpl; [|by left].
    destruct (visitors db !! CheckIn.visitorId b) as [x|] eqn:Hx; simpl; [|by left].
    destruct (users db !! CheckIn.userId b); simpl; [|by left].
    destruct (rejectActive_cases (CheckIn.visitorId b) db) as [[-> _] | [-> _]];
      [|by left].
    pose proof (linkAppointment_visits (CheckIn.appointmentId b)
                  AppointmentStatus.CONFIRMED db) as [Hv Hvs].
    destruct (linkAppointment _ _ db) as [db1 [[]|]]; simpl in *; [|by left].
    rewrite <- Hvs in Hx.
    pose proof (check_in_written env b db1 x Hx) as Hw. cbv zeta in Hw.
    unfold bind in Hw.
    destruct (visit_create (newId env) (newVisit env b) db1) as [db2 [r|]];
      simpl in *.
    + destruct (visitor_update _ _ db2) as [db3 [?|]]; simpl in *;
        (destruct Hw as [[Ha Hb] | (Ha & Hb & Hc)];
          [left; by rewrite Ha, Hb | right; exists x; by rewrite Hb, Hc, <- Hv, <- Hvs]).
    + destruct Hw as [[Ha Hb] | (Ha & Hb & Hc)];
        [left; by rewrite Ha, Hb | right; exists x; by rewrite Hb, Hc, <- Hv, <- Hvs].
Qed.

Lemma countsVisits_same db db' :
  visits db' = visits db -> visitors db' = visitors db ->
  countsVisits db -> countsVisits db'.
Proof. unfold countsVisits, visitsOf. by intros -> ->. Qed.

(** Rewriting a visit row for the same visitor, with the visitors left
    alone, keeps the count. *)
Lemma countsVisits_rewrite db db' id v w :
  visits db !! id = Some v -> vVisitorId w = vVisitorId v ->
  visits db' = <[id := w]> (visits db) -> visitors db' = visitors db ->
  countsVisits db -> countsVisits db'.
Proof.
  intros Hv Hsame Hvisits Hvisitors Hinv x. specialize (Hinv x).
  unfold visitsOf in *. rewrite Hvisits, Hvisitors.
  pose proof (findMany_insert_over (fun _ v => String.eqb (vVisitorId v) x)
                (visits db) id v w Hv) as Hlen.
  simpl in Hlen. rewrite Hsame in Hlen. lia.
Qed.

(** X9: [visitCount] never undercounts and never goes down: every operation on
    visits keeps each visitor's [visitCount] at or above the number of the
    visitor's visit rows, and at or above what it was. *)
Theorem visit_count_covers env op db :
  countsVisits db ->
  countsVisits (exec env op db) /\
  (forall x v, visitors db !! x = Some v ->
     exists v', visitors (exec env op db) !! x = Some v' /\
       visitCount v <= visitCount v').
Proof.
  intros Hinv.
  assert (Hcheckin : forall route b, route = createVisit \/ route = checkInVisitor ->
    countsVisits (run (route env b) db).1 /\
    (forall x v, visitors db !! x = Some v ->
       exists v', visitors (run (route env b) db).1 !! x = Some v' /\
         visitCount v <= visitCount v')).
  { intros route b Hroute.
    destruct (check_in_both route env b db Hroute)
      as [[Hv Hvs] | (y & Hfresh & Hy & Hv & Hvs)].
    - split; [by eapply countsVisits_same|]. intros x v Hx. exists v. by rewrite Hvs.
    - split.
      + intros x. specialize (Hinv x). unfold visitsOf in *. rewrite Hv, Hvs.
        rewrite findMany_insert_fresh by done. simpl.
        destruct (decide (CheckIn.visitorId b = x)) as [<-|Hne].
        * rewrite lookup_insert_eq, String.eqb_refl. rewrite Hy in Hinv. simpl. lia.
        * rewrite lookup_insert_ne by done.
          apply String.eqb_neq in Hne. rewrite Hne. simpl. lia.
      + intros x v Hx. rewrite Hvs.
        destruct (decide (CheckIn.visitorId b = x)) as [<-|Hne].
        * rewrite lookup_insert_eq. eexists. split; [done|].
          assert (y = v) as -> by congruence. simpl. lia.
        * rewrite lookup_insert_ne by done. exists v. split; [done | lia]. }
  assert (Hkeep : forall db', visitors db' = visitors db ->
    forall x v, visitors db !! x = Some v ->
      exists v', visitors db' !! x = Some v' /\ visitCount v <= visitCount v').
  { intros db' Hvs x v Hx. exists v. rewrite Hvs. split; [done | lia]. }
  destruct op as [b|b|b|b|i b|i]; simpl.
  - apply Hcheckin. by left.
  - apply Hcheckin. by right.
  - pose proof (run_keepsVisitors _ db (keepsVisitors_checkOutVisitor env b)) as Hvs.
    split; [|by apply Hkeep].
    destruct (checkOutVisitor_effect env b db) as [Hv | (v & Hv & _ & He)].
    + by eapply countsVisits_same.
    + by eapply (countsVisits_rewrite db _ _ v (checkOutData env b v v)).
  - pose proof (run_keepsVisitors _ db (keepsVisitors_cancelVisit env b)) as Hvs.
    split; [|by apply Hkeep].
    destruct (cancelVisit_effect env b db) as [Hv | (v & Hv & _ & He)].
    + by eapply countsVisits_same.
    + by eapply (countsVisits_rewrite db _ _ v (cancelData env b v v)).
  - split; [done|]. by apply Hkeep.
  - split; [done|]. by apply Hkeep.
Qed.

(** ** The schedule *)

Section Schedule.
Context {host : JsDate}.

(** What scheduling does to the appointments: nothing, or one new row that
    the conflict query found no match for. *)
Lemma createAppointment_effect env b db :
  let db' := (run (createAppointment env b) db).1 in
  appointments db' = appointments db \/
  (exists day s,
     CreateAppointment.schema b = true /\
     appointments db !! newId env = None /\
     (forall k a, appointments db !! k = Some a ->
        conflictWhere (CreateAppointment.userId b) day s
          (s + CreateAppointment.durationOf b * 60000) k a = false) /\
     appointments db' =
       <[newId env := newAppointment b day s (s + CreateAppointment.durationOf b * 60000)]>
         (appointments db)).
Proof.
  unfold createAppointment, appointment_findMany, appointment_create, validDate.
  open_handler.
  destruct (CreateAppointment.schema b); simpl; [|by left].
  destruct (parseDate (_ +:+ _)) as [s|]; simpl; [|by left].
  destruct (parseDate _) as [day|]; simpl; [|by left].
  destruct (findMany _ _) as [|r l] eqn:E; simpl; [|by left].
  destruct (visitors db !! _) eqn:Hx; simpl; [|by left].
  destruct (users db !! _) eqn:Hu; simpl; [|by left].
  destruct (appointments db !! newId env) eqn:Hfresh; simpl; [by left|].
  rewrite Hx. simpl. rewrite Hu. simpl.
  right. exists day, s. split_and!; try done.
  intros k a Hka. apply not_true_is_false. intros Hc.
  assert (Hin : In (k, a) (findMany (conflictWhere (CreateAppointment.userId b) day s
             (s + CreateAppointment.durationOf b * 60000)) (appointments db)))
    by by apply findMany_In.
  rewrite E in Hin. destruct Hin.
Qed.

Lemma conflictWhereNot_true id userId day s e k a :
  conflictWhereNot id userId day s e k a = true <->
  conflictWhere userId day s e k a = true /\ k <> id.
Proof.
  unfold conflictWhereNot. rewrite andb_true_iff, negb_true_iff, String.eqb_neq. done.
Qed.

(** The time block: an Invalid Date is an exception, a match of the
    conflict query is a 409, and otherwise the block yields the recomputed
    dates. *)
Lemma timeBlock_cases id b a db :
  match rescheduledDate b a with
  | None => timeBlock id b a db = (db, Return 500 "Internal server error")
  | Some day =>
      match rescheduledStart b a day with
      | None => timeBlock id b a db = (db, Return 500 "Internal server error")
      | Some s =>
          let e := rescheduledEnd b a s in
          let user := userIdOr (UpdateAppointment.userId b) (aUserId a) in
          ((exists k a', appointments db !! k = Some a' /\
              conflictWhereNot id user day s e k a' = true) /\
           timeBlock id b a db =
             (db, Return 409 "Scheduling conflict detected. Please choose a different time."))
          \/
          ((forall k a', appointments db !! k = Some a' ->
              conflictWhereNot id user day s e k a' = false) /\
           timeBlock id b a db = (db, Next (mkNewTimes day s e)))
      end
  end.
Proof.
  unfold timeBlock, rescheduledDate, rescheduledEnd.
  assert (Hdone : forall day s,
    let e := (s + durationOr (UpdateAppointment.duration b) (duration a) * 60000)%Z in
    let user := userIdOr (UpdateAppointment.userId b) (aUserId a) in
    let rest := (conflicts <- appointment_findMany (conflictWhereNot id user day s e) ;;
                 (if (0 <? Z.of_nat (length conflicts))%Z
                  then respond 409 "Scheduling conflict detected. Please choose a different time."
                  else ret tt) ;;;
                 ret (mkNewTimes day s e)) in
    ((exists k a', appointments db !! k = Some a' /\
        conflictWhereNot id user day s e k a' = true) /\
     rest db = (db, Return 409 "Scheduling conflict detected. Please choose a different time."))
    \/
    ((forall k a', appointments db !! k = Some a' ->
        conflictWhereNot id user day s e k a' = false) /\
     rest db = (db, Next (mkNewTimes day s e)))).
  { intros day s e user rest. unfold rest, appointment_findMany. open_handler.
    destruct (findMany _ _) as [|[k a'] l] eqn:E; simpl.
    - right. split; [|done]. intros k a' Hka. apply not_true_is_false. intros Hc.
      assert (Hin : In (k, a') (findMany (conflictWhereNot id user day s e) (appointments db)))
        by by apply findMany_In.
      rewrite E in Hin. destruct Hin.
    - left. split; [|done]. exists k, a'. apply findMany_In. rewrite E. by left. }
  assert (Hstart : forall day,
    match rescheduledStart b a day with
    | None =>
        (startTime' <-
           (match UpdateAppointment.startTime b with
            | Some t => if truthy t
                        then validDate (parseDate (isoDate day +:+ "T" +:+ t))
                        else ret (startTime a)
            | None => ret (startTime a)
            end) ;;
         let e := (startTime' + durationOr (UpdateAppointment.duration b) (duration a) * 60000)%Z in
         let user := userIdOr (UpdateAppointment.userId b) (aUserId a) in
         conflicts <- appointment_findMany (conflictWhereNot id user day startTime' e) ;;
         (if (0 <? Z.of_nat (length conflicts))%Z
          then respond 409 "Scheduling conflict detected. Please choose a different time."
          else ret tt) ;;;
         ret (mkNewTimes day startTime' e)) db = (db, Return 500 "Internal server error")
    | Some s =>
        (startTime' <-
           (match UpdateAppointment.startTime b with
            | Some t => if truthy t
                        then validDate (parseDate (isoDate day +:+ "T" +:+ t))
                        else ret (startTime a)
            | None => ret (startTime a)
            end) ;;
         let e := (startTime' + durationOr (UpdateAppointment.duration b) (duration a) * 60000)%Z in
         let user := userIdOr (UpdateAppointment.userId b) (aUserId a) in
         conflicts <- appointment_findMany (conflictWhereNot id user day startTime' e) ;;
         (if (0 <? Z.of_nat (length conflicts))%Z
          then respond 409 "Scheduling conflict detected. Please choose a different time."
          else ret tt) ;;;
         ret (mkNewTimes day startTime' e)) db =
        (conflicts <- appointment_findMany
           (conflictWhereNot id (userIdOr (UpdateAppointment.userId b) (aUserId a)) day s
              (s + durationOr (UpdateAppointment.duration b) (duration a) * 60000)) ;;
         (if (0 <? Z.of_nat (length conflicts))%Z
          then respond 409 "Scheduling conflict detected. Please choose a different time."
          else ret tt) ;;;
         ret (mkNewTimes day s
                (s + durationOr (UpdateAppointment.duration b) (duration a) * 60000))) db
    end).
  { intros day. unfold rescheduledStart.
    destruct (UpdateAppointment.startTime b) as [st|]; [destruct (truthy st)|]; try done.
    by destruct (parseDate _). }
  assert (Hafter : forall day,
    match rescheduledStart b a day with
    | None => True
    | Some s =>
        let e := (s + durationOr (UpdateAppointment.duration b) (duration a) * 60000)%Z in
        let user := userIdOr (UpdateAppointment.userId b) (aUserId a) in
        ((exists k a', appointments db !! k = Some a' /\
            conflictWhereNot id user day s e k a' = true) /\
         (startTime' <-
            (match UpdateAppointment.startTime b with
             | Some t => if truthy t
                         then validDate (parseDate (isoDate day +:+ "T" +:+ t))
                         else ret (startTime a)
             | None => ret (startTime a)
             end) ;;
          let e := (startTime' + durationOr (UpdateAppointment.duration b) (duration a) * 60000)%Z in
          let user := userIdOr (UpdateAppointment.userId b) (aUserId a) in
          conflicts <- appointment_findMany (conflictWhereNot id user day startTime' e) ;;
          (if (0 <? Z.of_nat (length conflicts))%Z
           then respond 409 "Scheduling conflict detected. Please choose a different time."
           else ret tt) ;;;
          ret (mkNewTimes day startTime' e)) db =
           (db, Return 409 "Scheduling conflict detected. Please choose a different time."))
        \/
        ((forall k a', appointments db !! k = Some a' ->
            conflictWhereNot id user day s e k a' = false) /\
         (startTime' <-
            (match UpdateAppointment.startTime b with
             | Some t => if truthy t
                         then validDate (parseDate (isoDate day +:+ "T" +:+ t))
                         else ret (startTime a)
             | None => ret (startTime a)
             end) ;;
          let e := (startTime' + durationOr (UpdateAppointment.duration b) (duration a) * 60000)%Z in
          let user := userIdOr (UpdateAppointment.userId b) (aUserId a) in
          conflicts <- appointment_findMany (conflictWhereNot id user day startTime' e) ;;
          (if (0 <? Z.of_nat (length conflicts))%Z
           then respond 409 "Scheduling conflict detected. Please choose a different time."
           else ret tt) ;;;
          ret (mkNewTimes day startTime' e)) db = (db, Next (mkNewTimes day s e)))
    end).
  { intros day. specialize (Hstart day). destruct (rescheduledStart b a day) as [s|]; [|done].
    rewrite Hstart. exact (Hdone day s). }
  assert (Hday : forall day,
    match rescheduledStart b a day with
    | None =>
        (startTime' <-
           (match UpdateAppointment.startTime b with
            | Some t => if truthy t
                        then validDate (parseDate (isoDate day +:+ "T" +:+ t))
                        else ret (startTime a)
            | None => ret (startTime a)
            end) ;;
         let e := (startTime' + durationOr (UpdateAppointment.duration b) (duration a) * 60000)%Z in
         let user := userIdOr (UpdateAppointment.userId b) (aUserId a) in
         conflicts <- appointment_findMany (conflictWhereNot id user day startTime' e) ;;
         (if (0 <? Z.of_nat (length conflicts))%Z
          then respond 409 "Scheduling conflict detected. Please choose a different time."
          else ret tt) ;;;
         ret (mkNewTimes day startTime' e)) db = (db, Return 500 "Internal server error")
    | Some s => True
    end).
  { intros day. specialize (Hstart day). by destruct (rescheduledStart b a day). }
  clear Hstart Hdone.
  destruct (UpdateAppointment.scheduledDate b) as [sd|]; [destruct (truthy sd)|].
  - destruct (parseDate sd) as [day|]; [|done].
    specialize (Hafter day). specialize (Hday day).
    destruct (rescheduledStart b a day); [exact Hafter | exact Hday].
  - specialize (Hafter (scheduledDate a)). specialize (Hday (scheduledDate a)).
    destruct (rescheduledStart b a (scheduledDate a)); [exact Hafter | exact Hday].
  - specialize (Hafter (scheduledDate a)). specialize (Hday (scheduledDate a)).
    destruct (rescheduledStart b a (scheduledDate a)); [exact Hafter | exact Hday].
Qed.

(** The update, for a valid body and a stored appointment, by the handler
    handed the context of the route.  The store refuses the write of a staff
    user that is not registered. *)
Lemma updateAppointment_runs id b db a :
  UpdateAppointment.schema b = true -> appointments db !! id = Some a ->
  let context := Some (mkRouteParams id) in
  let write r :=
    match UpdateAppointment.userId b with
    | Some u =>
        match users db !! u with
        | Some _ => (set_appointments <[id := r]> db, Success r)
        | None => (db, Failure 500 "Internal server error")
        end
    | None => (set_appointments <[id := r]> db, Success r)
    end in
  if UpdateAppointment.touchesTime b then
    match rescheduledDate b a with
    | None => run (updateAppointment context b) db = (db, Failure 500 "Internal server error")
    | Some day =>
        match rescheduledStart b a day with
        | None =>
            run (updateAppointment context b) db = (db, Failure 500 "Internal server error")
        | Some s =>
            let e := rescheduledEnd b a s in
            let user := userIdOr (UpdateAppointment.userId b) (aUserId a) in
            let r := updateAppointmentData b (Some (mkNewTimes day s e)) a in
            ((exists k a', appointments db !! k = Some a' /\
                conflictWhereNot id user day s e k a' = true) /\
             run (updateAppointment context b) db =
               (db, Failure 409 "Scheduling conflict detected. Please choose a different time."))
            \/
            ((forall k a', appointments db !! k = Some a' ->
                conflictWhereNot id user day s e k a' = false) /\
             run (updateAppointment context b) db = write r)
        end
    end
  else
    run (updateAppointment context b) db = write (updateAppointmentData b None a).
Proof.
  intros Hs Ha. cbv zeta. unfold updateAppointment, appointment_update. open_handler.
  rewrite Hs, Ha. simpl.
  destruct (UpdateAppointment.touchesTime b); simpl.
  { pose proof (timeBlock_cases id b a db) as Ht.
    destruct (rescheduledDate b a) as [day|]; [|by rewrite Ht].
    destruct (rescheduledStart b a day) as [s|]; [|by rewrite Ht].
    destruct Ht as [[Hc ->]|[Hc ->]]; simpl.
    - left. by split.
    - right. rewrite Ha. split; [done|].
      destruct (UpdateAppointment.userId b) as [u|]; simpl; [|done].
      by destruct (users db !! u). }
  rewrite Ha.
  destruct (UpdateAppointment.userId b) as [u|]; simpl; [|done].
  by destruct (users db !! u).
Qed.

Lemma updateAppointment_effect context b db :
  let db' := (run (updateAppointment context b) db).1 in
  appointments db' = appointments db \/
  exists id a times,
    context = Some (mkRouteParams id) /\
    UpdateAppointment.schema b = true /\ appointments db !! id = Some a /\
    appointments db' = <[id := updateAppointmentData b times a]> (appointments db) /\
    if UpdateAppointment.touchesTime b then
      exists day s,
        times = Some (mkNewTimes day s (rescheduledEnd b a s)) /\
        forall k a', appointments db !! k = Some a' ->
          conflictWhereNot id (userIdOr (UpdateAppointment.userId b) (aUserId a)) day s
            (rescheduledEnd b a s) k a' = false
    else times = None.
Proof.
  destruct context as [[id]|]; [|by left].
  destruct (UpdateAppointment.schema b) eqn:Hs; cycle 1.
  { left. unfold updateAppointment. open_handler. by rewrite Hs. }
  destruct (appointments db !! id) as [a|] eqn:Ha; cycle 1.
  { left. unfold updateAppointment. open_handler. by rewrite Hs, Ha. }
  pose proof (updateAppointment_runs id b db a Hs Ha) as Hrun. cbv zeta in Hrun. simpl.
  assert (Hwrite : forall r,
    let out := match UpdateAppointment.userId b with
               | Some u =>
                   match users db !! u with
                   | Some _ => (set_appointments <[id := r]> db, Success r)
                   | None => (db, Failure 500 "Internal server error")
                   end
               | None => (set_appointments <[id := r]> db, Success r)
               end in
    appointments out.1 = appointments db \/
    appointments out.1 = <[id := r]> (appointments db)).
  { intros r. simpl. destruct (UpdateAppointment.userId b) as [u|]; [|by right].
    destruct (users db !! u); [by right | by left]. }
  destruct (UpdateAppointment.touchesTime b) eqn:Ht.
  - destruct (rescheduledDate b a) as [day|]; [|left; by rewrite Hrun].
    destruct (rescheduledStart b a day) as [s|]; [|left; by rewrite Hrun].
    destruct Hrun as [[_ ->]|[Hfree ->]]; [by left|].
    destruct (Hwrite (updateAppointmentData b
               (Some (mkNewTimes day s (rescheduledEnd b a s))) a)) as [Hw|Hw];
      [by left|].
    right. exists id, a, (Some (mkNewTimes day s (rescheduledEnd b a s))).
    split_and!; try done. by exists day, s.
  - rewrite Hrun.
    destruct (Hwrite (updateAppointmentData b None a)) as [Hw|Hw]; [by left|].
    right. by exists id, a, None.
Qed.

Lemma allWellFormed_insert db db' id r :
  appointments db' = <[id := r]> (appointments db) ->
  allWellFormed db -> wellFormed r -> allWellFormed db'.
Proof.
  intros Heq Hall Hr i a. rewrite Heq. intros [[_ <-]|[_ Hi]]%lookup_insert_Some; [done|].
  by apply (Hall i).
Qed.

(** Writing a row that the conflict query found no match for, among the
    other rows, keeps the schedule free of double bookings. *)
Lemma noDoubleBooking_insert db db' id r :
  appointments db' = <[id := r]> (appointments db) ->
  allWellFormed db -> noDoubleBooking db -> wellFormed r ->
  (forall k a, k <> id -> appointments db !! k = Some a ->
     conflictWhere (aUserId r) (scheduledDate r) (startTime r) (endTime r) k a = false) ->
  noDoubleBooking db'.
Proof.
  intros Heq Hall Hno [Hr _] Hfree i j a b. rewrite !Heq.
  intros [[-> <-]|[Hi Ha]]%lookup_insert_Some [[-> <-]|[Hj Hb]]%lookup_insert_Some
    Hij Hu Hd Hsa Hsb [H1 H2].
  - done.
  - assert (Hj' : j <> i) by congruence.
    pose proof (Hfree j b Hj' Hb) as Hc. apply not_true_iff_false in Hc. apply Hc.
    apply conflictWhere_true. split_and!; try done.
    apply overlapsOR_half_open; [by apply (Hall j b Hb)|done|done].
  - assert (Hi' : i <> j) by congruence.
    pose proof (Hfree i a Hi' Ha) as Hc. apply not_true_iff_false in Hc. apply Hc.
    apply conflictWhere_true. split_and!; try done.
    apply overlapsOR_half_open; [by apply (Hall i a Ha)|done|done].
  - by apply (Hno i j a b).
Qed.

Lemma schema_update_duration b a :
  UpdateAppointment.schema b = true -> 0 < duration a ->
  0 < durationOr (UpdateAppointment.duration b) (duration a) /\
  default (duration a) (UpdateAppointment.duration b) =
    durationOr (UpdateAppointment.duration b) (duration a).
Proof.
  unfold UpdateAppointment.schema, UpdateAppointment.inRange, durationOr.
  rewrite !andb_true_iff. intros [_ Hd] Ha.
  destruct (UpdateAppointment.duration b) as [d|]; simpl; [|done].
  apply andb_true_iff in Hd as [Hd1%Z.leb_le Hd2]. 
  destruct (Z.eqb_spec d 0); [lia|]. split; [lia|done].
Qed.

Lemma schema_update_userId b a :
  UpdateAppointment.schema b = true ->
  default (aUserId a) (UpdateAppointment.userId b) =
    userIdOr (UpdateAppointment.userId b) (aUserId a).
Proof.
  unfold UpdateAppointment.schema, UpdateAppointment.nonEmpty, userIdOr.
  rewrite !andb_true_iff. intros [[[[_ Hu] _] _] _].
  destruct (UpdateAppointment.userId b) as [u|]; simpl; [|done]. by rewrite Hu.
Qed.

(** X10: scheduling keeps the schedule sound.  In a store whose appointments
    end after they start and last a positive number of minutes, and where no
    staff user is double booked, the store after POST /api/appointments and
    the store after a PUT /api/appointments/[id] that names a date, a start
    time or a duration are again such stores, whatever the answers are. *)
Theorem schedule_stays_free env b context b' db :
  allWellFormed db -> noDoubleBooking db ->
  (let db' := (run (createAppointment env b) db).1 in
   allWellFormed db' /\ noDoubleBooking db') /\
  (UpdateAppointment.touchesTime b' = true ->
   let db' := (run (updateAppointment context b') db).1 in
   allWellFormed db' /\ noDoubleBooking db').
Proof.
  intros Hall Hno. split.
  - destruct (createAppointment_effect env b db) as [Heq|(day & s & Hs & _ & Hfree & Heq)];
      simpl.
    + split.
      * intros i a. rewrite Heq. apply Hall.
      * intros i j a c. rewrite !Heq. apply Hno.
    + pose proof (schema_duration b Hs) as Hd.
      assert (Hr : wellFormed (newAppointment b day s
                     (s + CreateAppointment.durationOf b * 60000))).
      { unfold wellFormed. simpl. lia. }
      split.
      * by eapply allWellFormed_insert.
      * eapply noDoubleBooking_insert; try done. intros k a _ Hk. by apply Hfree.
  - intros Ht.
    destruct (updateAppointment_effect context b' db)
      as [Heq|(id & a & times & _ & Hs & Ha & Heq & Htimes)]; simpl.
    + split.
      * intros i c. rewrite Heq. apply Hall.
      * intros i j c d. rewrite !Heq. apply Hno.
    + rewrite Ht in Htimes. destruct Htimes as (day & s & -> & Hfree).
      destruct (Hall id a Ha) as [_ Hdur].
      destruct (schema_update_duration b' a Hs Hdur) as [Hpos Hsame].
      assert (Hr : wellFormed (updateAppointmentData b'
                     (Some (mkNewTimes day s (rescheduledEnd b' a s))) a)).
      { unfold wellFormed, rescheduledEnd. simpl. rewrite Hsame. lia. }
      split.
      * by eapply allWellFormed_insert.
      * eapply noDoubleBooking_insert; try done. intros k c Hk Hc. simpl.
        rewrite (schema_update_userId b' a Hs).
        specialize (Hfree k c Hc). unfold conflictWhereNot in Hfree.
        apply andb_false_iff in Hfree as [Hfree|Hfree]; [done|].
        apply negb_false_iff, String.eqb_eq in Hfree. done.
Qed.

(** X11: the handler of the appointment update looks at the other
    appointments only.  Called without a route context, which is how
    [withAuth] calls it for a caller it admits, [updateAppointment] answers
    500 and writes nothing.  Handed the context of the route, for a valid
    body that names a date, a start time or a duration, and no staff user
    but a registered one (the handler does not look the user up; the store
    refuses the reference), a stored appointment and dates that parse, it
    answers 409 and writes nothing exactly when an appointment other than
    [id], of the staff user of the request (or else of the stored row), on
    the new day, neither CANCELLED nor NO_SHOW, overlaps the new interval;
    otherwise it writes the row with the new day, start and end, the end
    being the start plus the duration in minutes.  The appointment's own
    stored interval never counts as a conflict. *)
Theorem reschedule_checks_others id b db a day s :
  UpdateAppointment.schema b = true -> appointments db !! id = Some a ->
  (forall u, UpdateAppointment.userId b = Some u -> is_Some (users db !! u)) ->
  UpdateAppointment.touchesTime b = true ->
  rescheduledDate b a = Some day -> rescheduledStart b a day = Some s ->
  let e := (s + durationOr (UpdateAppointment.duration b) (duration a) * 60000)%Z in
  let user := userIdOr (UpdateAppointment.userId b) (aUserId a) in
  let r := updateAppointmentData b (Some (mkNewTimes day s e)) a in
  (forall context,
     run (admitted (fun context => updateAppointment context b) context) db
       = (db, Failure 500 "Internal server error")) /\
  (((exists k a', k <> id /\ appointments db !! k = Some a' /\
       aUserId a' = user /\ scheduledDate a' = day /\
       aStatus a' <> AppointmentStatus.CANCELLED /\
       aStatus a' <> AppointmentStatus.NO_SHOW /\
       overlapsOR a' s e = true) /\
    run (updateAppointment (Some (mkRouteParams id)) b) db =
      (db, Failure 409 "Scheduling conflict detected. Please choose a different time."))
   \/
   ((forall k a', k <> id -> appointments db !! k = Some a' ->
       aUserId a' = user -> scheduledDate a' = day ->
       aStatus a' <> AppointmentStatus.CANCELLED ->
       aStatus a' <> AppointmentStatus.NO_SHOW ->
       overlapsOR a' s e = false) /\
    run (updateAppointment (Some (mkRouteParams id)) b) db
      = (set_appointments <[id := r]> db, Success r) /\
    scheduledDate r = day /\ startTime r = s /\ endTime r = e)).
Proof.
  intros Hs Ha Hreg Ht Hday Hstart e user r. split; [done|].
  pose proof (updateAppointment_runs id b db a Hs Ha) as Hrun. cbv zeta in Hrun.
  rewrite Ht, Hday, Hstart in Hrun.
  assert (Hwrite : forall r',
    match UpdateAppointment.userId b with
    | Some u =>
        match users db !! u with
        | Some _ => (set_appointments <[id := r']> db, Success r')
        | None => (db, Failure 500 "Internal server error")
        end
    | None => (set_appointments <[id := r']> db, Success r')
    end = (set_appointments <[id := r']> db, Success r')).
  { intros r'. destruct (UpdateAppointment.userId b) as [u|]; [|done].
    by destruct (Hreg u eq_refl) as [x ->]. }
  destruct Hrun as [[(k & a' & Hk & Hc) Hrun]|[Hfree Hrun]].
  - left. split; [|exact Hrun].
    apply conflictWhereNot_true in Hc as [Hc Hne].
    apply conflictWhere_true in Hc as (Hu & Hd & Ho & Hst).
    apply notCancelledOrNoShow_true in Hst as [Hc1 Hc2].
    exists k, a'. by split_and!.
  - right. rewrite Hwrite in Hrun. split_and!; try done.
    intros k a' Hne Hk Hu Hd Hc1 Hc2. specialize (Hfree k a' Hk).
    apply not_true_is_false. intros Ho.
    apply not_true_iff_false in Hfree. apply Hfree.
    apply conflictWhereNot_true. split; [|done].
    apply conflictWhere_true. split_and!; try done.
    by apply notCancelledOrNoShow_true.
Qed.

(** X12: an update that names no time is not checked.  Handed the context
    of the route (the served route hands none and answers 500), for a valid
    body without a date, a start time and a duration, whose staff user, if
    it names one, is registered, [updateAppointment] of a stored appointment
    always succeeds: it runs no conflict query, so its answer does not
    depend on the other appointments, and it writes the title, the staff
    user, the status and the priority of the body over the stored row, whose
    visitor, day and interval stay.  A staff user that is not registered is
    refused by the store: 500, and nothing is written. *)
Theorem update_without_times id b db a :
  UpdateAppointment.schema b = true -> appointments db !! id = Some a ->
  UpdateAppointment.touchesTime b = false ->
  ((forall u, UpdateAppointment.userId b = Some u -> is_Some (users db !! u)) ->
   exists r,
     run (updateAppointment (Some (mkRouteParams id)) b) db
       = (set_appointments <[id := r]> db, Success r) /\
     aVisitorId r = aVisitorId a /\ scheduledDate r = scheduledDate a /\
     startTime r = startTime a /\ endTime r = endTime a /\
     aUserId r = match UpdateAppointment.userId b with Some u => u | None => aUserId a end /\
     aStatus r = match UpdateAppointment.status b with Some x => x | None => aStatus a end /\
     priority r = match UpdateAppointment.priority b with Some x => x | None => priority a end /\
     (forall db2, appointments db2 !! id = Some a ->
        (forall u, UpdateAppointment.userId b = Some u -> is_Some (users db2 !! u)) ->
        (run (updateAppointment (Some (mkRouteParams id)) b) db2).2 = Success r)) /\
  (forall u, UpdateAppointment.userId b = Some u -> users db !! u = None ->
     run (updateAppointment (Some (mkRouteParams id)) b) db
       = (db, Failure 500 "Internal server error")) /\
  (forall context,
     run (admitted (fun context => updateAppointment context b) context) db
       = (db, Failure 500 "Internal server error")).
Proof.
  intros Hs Ha Ht.
  assert (Hrun : forall db2, appointments db2 !! id = Some a ->
    run (updateAppointment (Some (mkRouteParams id)) b) db2 =
      match UpdateAppointment.userId b with
      | Some u =>
          match users db2 !! u with
          | Some _ => (set_appointments <[id := updateAppointmentData b None a]> db2,
                       Success (updateAppointmentData b None a))
          | None => (db2, Failure 500 "Internal server error")
          end
      | None => (set_appointments <[id := updateAppointmentData b None a]> db2,
                 Success (updateAppointmentData b None a))
      end).
  { intros db2 Ha2. pose proof (updateAppointment_runs id b db2 a Hs Ha2) as H.
    cbv zeta in H. by rewrite Ht in H. }
  split_and!; [| |done].
  - intros Hreg. exists (updateAppointmentData b None a).
    assert (Hok : forall db2, appointments db2 !! id = Some a ->
      (forall u, UpdateAppointment.userId b = Some u -> is_Some (users db2 !! u)) ->
      run (updateAppointment (Some (mkRouteParams id)) b) db2 =
        (set_appointments <[id := updateAppointmentData b None a]> db2,
         Success (updateAppointmentData b None a))).
    { intros db2 Ha2 Hreg2. rewrite (Hrun db2 Ha2).
      destruct (UpdateAppointment.userId b) as [u|]; [|done].
      by destruct (Hreg2 u eq_refl) as [x ->]. }
    split_and!; try done; try by apply Hok.
    intros db2 Ha2 Hreg2. by rewrite (Hok db2 Ha2 Hreg2).
  - intros u Hu Hnone. rewrite (Hrun db Ha), Hu. by rewrite Hnone.
Qed.

End Schedule.

(** ** Reading back what was written *)

Section ReadBack.
Context {host : JsDate}.






End ReadBack.

(** X14: a visit deleted by the handler is gone, and the counter of its
    visitor stays.  Handed the context of the route, [deleteVisit] of a
    stored visit succeeds; on the store it leaves, the GET handler and a
    second [deleteVisit] of the id answer 404, the other visits are as
    before, the visitor has one visit row less and the visitors, with their
    [visitCount], are as before.  Without a route context, which is how
    [withAuth] calls it, [deleteVisit] answers 500 and the visit stays. *)
Theorem deleted_visit_is_gone id db v :
  visits db !! id = Some v ->
  let context := Some (mkRouteParams id) in
  (exists db',
     run (deleteVisit context) db = (db', Success tt) /\
     visits db' !! id = None /\
     run (getVisit context) db' = (db', Failure 404 "Visit not found") /\
     run (deleteVisit context) db' = (db', Failure 404 "Visit not found") /\
     (forall k, k <> id -> visits db' !! k = visits db !! k) /\
     S (length (visitsOf (vVisitorId v) db')) = length (visitsOf (vVisitorId v) db) /\
     visitors db' = visitors db) /\
  (forall c, run (admitted deleteVisit c) db = (db, Failure 500 "Internal server error")).
Proof.
  intros Hv. cbv zeta. split; [|done]. exists (set_visits (delete id) db).
  assert (Hgone : visits (set_visits (delete id) db) !! id = None)
    by (simpl; apply lookup_delete_eq).
  split_and!.
  - unfold deleteVisit, visit_delete. open_handler. by rewrite !Hv.
  - done.
  - unfold getVisit. open_handler. simpl in Hgone. by rewrite Hgone.
  - unfold deleteVisit, visit_delete. open_handler. simpl in Hgone. by rewrite Hgone.
  - intros k Hk. simpl. by apply lookup_delete_ne.
  - pose proof (findMany_delete (fun _ w => String.eqb (vVisitorId w) (vVisitorId v))
                  (visits db) id v Hv) as Hlen.
    cbv beta in Hlen. rewrite String.eqb_refl in Hlen. unfold visitsOf. simpl in *. lia.
  - done.
Qed.

(** ** The days and the statistics of the calendar *)

Section CalendarDays.
Context {host : JsDate}.

(** The answer of the calendar, on a host that reads the dates of the
    request and the slot strings of the stored days. *)
Lemma getCalendarAppointments_runs startDate endDate userId db from to :
  isTruthy startDate = true -> isTruthy endDate = true ->
  parseDate (default "" startDate) = Some from ->
  parseDate (default "" endDate) = Some to ->
  (forall k a hour minute, appointments db !! k = Some a ->
     In hour Calendar.hours -> In minute Calendar.minutes ->
     is_Some (parseDate (Calendar.slotString (isoDate (scheduledDate a)) hour minute))) ->
  let apps := sort Calendar.byStartTime
                (findMany (Calendar.calendarWhere from to userId) (appointments db)) in
  let groups := Calendar.groupByDate apps in
  run (Calendar.getCalendarAppointments startDate endDate userId) db =
    (db, Success (Calendar.mkPayload apps groups
                    ((fun date => (date, Calendar.freeSlots date (Calendar.onDate date apps)))
                       <$> Calendar.keys groups))).
Proof.
  intros Hstart Hend Hfrom Hto Hread apps groups.
  set (found := findMany (Calendar.calendarWhere from to userId) (appointments db)).
  set (slotsOn := fun date => (date, Calendar.freeSlots date (Calendar.onDate date apps))).
  unfold run, Calendar.getCalendarAppointments.
  rewrite (bind_next _ _ db db tt) by by rewrite Hstart, Hend.
  rewrite (bind_next _ _ db db from) by by rewrite Hfrom.
  rewrite (bind_next _ _ db db to) by by rewrite Hto.
  rewrite (bind_next _ _ db db found) by done.
  fold apps. fold groups.
  rewrite (bind_next _ _ db db (slotsOn <$> Calendar.keys groups)); [done|].
  rewrite <- concat_singletons. apply forEach_next. intros date Hdate.
  unfold groups. rewrite dayAppointments_onDate.
  rewrite (bind_next _ _ db db (Calendar.freeSlots date (Calendar.onDate date apps)));
    [done|].
  apply slotsOf_next. intros hour minute Hhour Hminute.
  apply keys_groupByDate in Hdate as ([k a] & Hin & <-).
  unfold apps in Hin. apply sort_In, findMany_In in Hin as [Hka _]. by eapply Hread.
Qed.

Lemma keys_push {A} k k' (x : A) groups :
  In k (Calendar.keys (Calendar.push k' x groups)) <-> k = k' \/ In k (Calendar.keys groups).
Proof.
  rewrite !keys_entry, entry_push. destruct (String.eqb_spec k' k) as [->|Hne].
  - split; [by left | by eexists].
  - split; [by right | by intros [? | ?]].
Qed.

Lemma NoDup_keys_push {A} k (x : A) groups :
  List.NoDup (Calendar.keys groups) -> List.NoDup (Calendar.keys (Calendar.push k x groups)).
Proof.
  induction groups as [|[k0 xs] rest IH]; simpl.
  - intros _. constructor; [by intros []|constructor].
  - intros Hnd. apply List.NoDup_cons_iff in Hnd as [Hk0 Hnd].
    destruct (String.eqb_spec k0 k) as [->|Hne]; simpl.
    + by constructor.
    + constructor; [|by apply IH].
      intros [->|Hin]%keys_push; [done|]. by apply Hk0.
Qed.

Lemma NoDup_keys_groupByDate l : List.NoDup (Calendar.keys (Calendar.groupByDate l)).
Proof.
  induction l as [|x l IH] using rev_ind; [constructor|].
  rewrite groupByDate_snoc. by apply NoDup_keys_push.
Qed.

Lemma sum_push {A} k (x : A) groups :
  sum_list (length <$> (Calendar.push k x groups).*2) = S (sum_list (length <$> groups.*2)).
Proof.
  induction groups as [|[k0 xs] rest IH]; simpl; [done|].
  destruct (String.eqb k0 k); simpl in *.
  - rewrite length_app. simpl. lia.
  - etrans; [apply (f_equal (Nat.add (length xs))); exact IH|].
    exact (Nat.add_succ_r _ _).
Qed.

Lemma sum_groupByDate l :
  sum_list (length <$> (Calendar.groupByDate l).*2) = length l.
Proof.
  induction l as [|x l IH] using rev_ind; [done|].
  rewrite groupByDate_snoc, sum_push, IH, length_app. simpl. lia.
Qed.

Lemma entry_In {A} k (xs : list A) groups :
  List.NoDup (Calendar.keys groups) -> In (k, xs) groups -> Calendar.entry k groups = Some xs.
Proof.
  induction groups as [|[k0 ys] rest IH]; simpl; [done|].
  intros Hnd. apply List.NoDup_cons_iff in Hnd as [Hk0 Hnd].
  intros [[= -> ->]|Hin].
  - by rewrite String.eqb_refl.
  - destruct (String.eqb_spec k0 k) as [->|Hne]; [|by apply IH].
    destruct Hk0. unfold Calendar.keys. apply in_map_iff. by exists (k, xs).
Qed.

Lemma entries_of_keys {A} (groups : list (string * list A)) :
  List.NoDup (Calendar.keys groups) ->
  (fun k => default [] (Calendar.entry k groups)) <$> Calendar.keys groups = groups.*2.
Proof.
  intros Hnd. unfold Calendar.keys. rewrite <- list_fmap_compose.
  apply list_fmap_ext. intros i [k xs] Hi. simpl.
  rewrite (entry_In k xs); [done|done|]. apply list_elem_of_In. by eapply list_elem_of_lookup_2.
Qed.

Lemma countStatus_le day :
  (CalendarStats.countStatus AppointmentStatus.CONFIRMED day +
   CalendarStats.countStatus AppointmentStatus.PENDING day +
   CalendarStats.countStatus AppointmentStatus.COMPLETED day +
   CalendarStats.countStatus AppointmentStatus.CANCELLED day <= length day)%nat.
Proof.
  unfold CalendarStats.countStatus.
  induction day as [|[k a] day IH]; simpl; [lia|].
  destruct (aStatus a); simpl; lia.
Qed.

Lemma length_concat_le {A B} (f : A -> list B) n l :
  (forall x, length (f x) <= n)%nat -> (length (concat (f <$> l)) <= n * length l)%nat.
Proof.
  intros Hf. induction l as [|x l IH]; [simpl; lia|].
  rewrite fmap_cons. cbn [concat length]. rewrite length_app, Nat.mul_succ_r.
  specialize (Hf x). lia.
Qed.

Lemma length_freeSlots date day : (length (Calendar.freeSlots date day) <= 16)%nat.
Proof.
  unfold Calendar.freeSlots.
  etrans; [apply (length_concat_le _ 2)|by vm_compute].
  intros hour. etrans; [apply (length_concat_le _ 1)|by vm_compute].
  intros minute. unfold Calendar.freeSlot.
  destruct (parseDate _); simpl; [|lia]. destruct (existsb _ _); simpl; lia.
Qed.

Lemma size_list_to_set_le (l : list string) :
  (size (list_to_set l : gset string) <= length l)%nat.
Proof.
  induction l as [|x l IH]; [done|].
  rewrite list_to_set_cons. cbn [length]. rewrite size_union_alt, size_singleton.
  assert (Hle : (size (list_to_set l ∖ {[x]} : gset string) <= size (list_to_set l : gset string))%nat)
    by (apply subseteq_size, subseteq_difference_l; reflexivity).
  lia.
Qed.

Lemma entry_Some_In {A} k (xs : list A) groups :
  Calendar.entry k groups = Some xs -> In (k, xs) groups.
Proof.
  induction groups as [|[k0 ys] rest IH]; simpl; [done|].
  destruct (String.eqb_spec k0 k) as [->|Hne].
  - intros [= ->]. by left.
  - intros H. right. by apply IH.
Qed.

(** X15: the days of the calendar.  On a host that reads the dates of the
    request and the slot strings of the stored days, the calendar answers
    the fetched appointments by ascending start time; every fetched
    appointment is in the group of its own day and in no other one: the day
    of every fetched appointment is listed, with the appointment in its
    group; the days are listed once each, none is empty, and a day's group
    is the fetched appointments of that day in the order of the fetch; and
    each listed day has at most sixteen available slots, each half an hour
    long. *)
Theorem calendar_days startDate endDate userId db from to :
  isTruthy startDate = true -> isTruthy endDate = true ->
  parseDate (default "" startDate) = Some from ->
  parseDate (default "" endDate) = Some to ->
  (forall k a hour minute, appointments db !! k = Some a ->
     In hour Calendar.hours -> In minute Calendar.minutes ->
     is_Some (parseDate (Calendar.slotString (isoDate (scheduledDate a)) hour minute))) ->
  exists p,
    run (Calendar.getCalendarAppointments startDate endDate userId) db = (db, Success p) /\
    StronglySorted (fun x y => startTime x.2 <= startTime y.2) (Calendar.appointments p) /\
    List.NoDup (Calendar.keys (Calendar.appointmentsByDate p)) /\
    (forall date day, In (date, day) (Calendar.appointmentsByDate p) ->
       day <> [] /\ day = Calendar.onDate date (Calendar.appointments p)) /\
    (Calendar.availableSlots p).*1 = Calendar.keys (Calendar.appointmentsByDate p) /\
    (forall date slots, In (date, slots) (Calendar.availableSlots p) ->
       (length slots <= 16)%nat /\
       forall s e, In (s, e) slots -> e = s + 30 * 60000) /\
    (forall apt, In apt (Calendar.appointments p) ->
       In (isoDate (scheduledDate apt.2)) (Calendar.keys (Calendar.appointmentsByDate p)) /\
       exists day, In (isoDate (scheduledDate apt.2), day) (Calendar.appointmentsByDate p) /\
                   In apt day).
Proof.
  intros Hstart Hend Hfrom Hto Hread. eexists. split.
  { by apply (getCalendarAppointments_runs _ _ _ _ from to). }
  simpl. split_and!.
  - eapply StronglySorted_weaken; [|apply sort_sorted].
    + unfold ordered, Calendar.byStartTime. intros x y. lia.
    + unfold ordered, Calendar.byStartTime. intros x y. lia.
    + unfold ordered, Calendar.byStartTime. intros x y z. lia.
  - apply NoDup_keys_groupByDate.
  - intros date day Hin.
    pose proof (entry_In date day _ (NoDup_keys_groupByDate _) Hin) as He.
    rewrite entry_groupByDate in He.
    destruct (Calendar.onDate date _) eqn:E; [done|]. by injection He as <-.
  - rewrite <- list_fmap_compose. apply list_fmap_id.
  - intros date slots Hin. apply in_map_iff in Hin as (date' & [= <- <-] & _). split.
    + apply length_freeSlots.
    + intros s e Hs. apply freeSlots_In in Hs as (? & ? & t & _ & _ & _ & [= -> ->] & _).
      done.
  - intros apt Hin. split.
    + apply keys_groupByDate. by exists apt.
    + change (isoDate (scheduledDate apt.2)) with (Calendar.dateKeyOf apt).
      revert Hin.
      generalize (sort Calendar.byStartTime
                    (findMany (Calendar.calendarWhere from to userId) (appointments db))).
      intros l Hin.
      assert (Hapt : In apt (Calendar.onDate (Calendar.dateKeyOf apt) l))
        by by apply onDate_In.
      exists (Calendar.onDate (Calendar.dateKeyOf apt) l). split; [|done].
      apply entry_Some_In. rewrite entry_groupByDate.
      by destruct (Calendar.onDate (Calendar.dateKeyOf apt) l).
Qed.

(** X16: the statistics of the calendar.  On a host that reads the dates
    of the request and the slot strings of the stored days, the daily totals of [dailyStats] add up to the number of fetched
    appointments; on every day the total is positive and the confirmed,
    pending, completed and cancelled counts together do not exceed it; and
    the numbers of unique visitors and of unique staff users of [summary] do
    not exceed the number of fetched appointments, the latter being at most
    one when the request names a staff user. *)
Theorem calendar_statistics startDate endDate userId db from to :
  isTruthy startDate = true -> isTruthy endDate = true ->
  parseDate (default "" startDate) = Some from ->
  parseDate (default "" endDate) = Some to ->
  (forall k a hour minute, appointments db !! k = Some a ->
     In hour Calendar.hours -> In minute Calendar.minutes ->
     is_Some (parseDate (Calendar.slotString (isoDate (scheduledDate a)) hour minute))) ->
  exists p,
    run (Calendar.getCalendarAppointments startDate endDate userId) db = (db, Success p) /\
    let stats := CalendarStats.dailyStats (Calendar.appointmentsByDate p) in
    let total := CalendarStats.summary (Calendar.appointments p) in
    sum_list (CalendarStats.totalAppointments <$> stats) = length (Calendar.appointments p) /\
    (forall s, In s stats ->
       (0 < CalendarStats.totalAppointments s)%nat /\
       (CalendarStats.confirmedAppointments s + CalendarStats.pendingAppointments s +
        CalendarStats.completedAppointments s + CalendarStats.cancelledAppointments s
        <= CalendarStats.totalAppointments s)%nat) /\
    CalendarStats.summaryTotal total = length (Calendar.appointments p) /\
    (CalendarStats.uniqueVisitors total <= length (Calendar.appointments p))%nat /\
    (CalendarStats.uniqueUsers total <= length (Calendar.appointments p))%nat /\
    (forall u, userId = Some u -> truthy u = true ->
       (CalendarStats.uniqueUsers total <= 1)%nat).
Proof.
  intros Hstart Hend Hfrom Hto Hread. eexists. split.
  { by apply (getCalendarAppointments_runs _ _ _ _ from to). }
  simpl. set (apps := sort Calendar.byStartTime _). split_and!.
  - unfold CalendarStats.dailyStats. rewrite <- list_fmap_compose.
    rewrite <- (sum_groupByDate apps), <- (entries_of_keys (Calendar.groupByDate apps))
      by apply NoDup_keys_groupByDate.
    by rewrite <- list_fmap_compose.
  - intros s (date & <- & Hdate)%in_map_iff. simpl. split; [|apply countStatus_le].
    rewrite dayAppointments_onDate.
    apply keys_groupByDate in Hdate as (apt & Hin & Hkey).
    assert (Hday : In apt (Calendar.onDate date apps)) by by apply onDate_In.
    destruct (Calendar.onDate date apps); [done | simpl; lia].
  - done.
  - etrans; [apply size_list_to_set_le|]. by rewrite length_fmap.
  - etrans; [apply size_list_to_set_le|]. by rewrite length_fmap.
  - intros u -> Hu.
    assert (Hsub : (list_to_set ((fun apt : string * Appointment => aUserId apt.2) <$> apps)
                      : gset string) ⊆ {[u]}).
    { intros x (y & -> & Hy)%elem_of_list_to_set%list_elem_of_fmap.
      apply list_elem_of_In in Hy. destruct y as [k a].
      apply sort_In, findMany_In in Hy as [_ Hc].
      unfold Calendar.calendarWhere in Hc. rewrite Hu in Hc.
      apply andb_true_iff in Hc as [_ Hc%String.eqb_eq]. simpl. set_solver. }
    apply subseteq_size in Hsub. by rewrite size_singleton in Hsub.
Qed.

End CalendarDays.

(** ** The dispatcher of the queue actions *)

Lemma answer_mapM {A B} (f : A -> B) (m : M A) db :
  Api.answer (mapM f m) db = Api.answer m db.
Proof.
  unfold Api.answer, mapM, run, bind, ret. by destruct (m db) as [db' [a|s e]].
Qed.

(** X17: the queue actions.  POST /api/queue/actions runs the check-in for
    the action [checkin], the check-out for [checkout] and the
    cancellation for [cancel], each on the body it parses, with the store
    and the status of that handler; a body without the keys that the
    handler requires is answered 400; and every other action, a missing one
    or one in other letter case included, is answered 400 and writes
    nothing. *)
Theorem queue_action_dispatch env action j db :
  (action = Some "checkin" ->
   match parseCheckIn j with
   | Some b => Api.answer (queueAction env action j) db = Api.answer (checkInVisitor env b) db
   | None => run (queueAction env action j) db = (db, Failure 400 "Validation failed")
   end) /\
  (action = Some "checkout" ->
   match parseCheckOut j with
   | Some b => Api.answer (queueAction env action j) db = Api.answer (checkOutVisitor env b) db
   | None => run (queueAction env action j) db = (db, Failure 400 "Validation failed")
   end) /\
  (action = Some "cancel" ->
   match parseCheckOut j with
   | Some b => Api.answer (queueAction env action j) db = Api.answer (cancelVisit env b) db
   | None => run (queueAction env action j) db = (db, Failure 400 "Validation failed")
   end) /\
  (action <> Some "checkin" -> action <> Some "checkout" -> action <> Some "cancel" ->
   run (queueAction env action j) db = (db, Failure 400 "Invalid action")).
Proof.
  split_and!.
  - intros ->. unfold queueAction. cbn [default String.eqb Ascii.eqb Bool.eqb].
    destruct (parseCheckIn j); [apply answer_mapM | reflexivity].
  - intros ->. unfold queueAction. cbn [default String.eqb Ascii.eqb Bool.eqb].
    destruct (parseCheckOut j); [apply answer_mapM | reflexivity].
  - intros ->. unfold queueAction. cbn [default String.eqb Ascii.eqb Bool.eqb].
    destruct (parseCheckOut j); [apply answer_mapM | reflexivity].
  - intros H1 H2 H3. unfold queueAction.
    destruct action as [a|]; [|done]. cbv zeta. change (default "" (Some a)) with a.
    destruct (String.eqb_spec a "checkin") as [->|_]; [done|].
    destruct (String.eqb_spec a "checkout") as [->|_]; [done|].
    destruct (String.eqb_spec a "cancel") as [->|_]; [done|]. done.
Qed.

(** ** Refusals *)

Section Refusals.
Context {host : JsDate}.

(** X19: what a request to schedule is refused for, when no appointment
    conflicts.  POST /api/appointments answers 400 for a body out of the
    schema and 500 for a date or a start time that the host does not read;
    for a body it reads and that conflicts with nothing, it answers 404 for
    a visitor that is not registered and, the visitor being registered, 404
    for a staff user that is not.  None of these writes. *)
Theorem schedule_refusals env b db :
  (CreateAppointment.schema b = false ->
     run (createAppointment env b) db = (db, Failure 400 "Validation failed")) /\
  (CreateAppointment.schema b = true ->
     parseDate (CreateAppointment.scheduledDate b +:+ "T" +:+ CreateAppointment.startTime b)
       = None \/
     parseDate (CreateAppointment.scheduledDate b) = None ->
     run (createAppointment env b) db = (db, Failure 500 "Internal server error")) /\
  (forall s day,
     CreateAppointment.schema b = true ->
     parseDate (CreateAppointment.scheduledDate b +:+ "T" +:+ CreateAppointment.startTime b)
       = Some s ->
     parseDate (CreateAppointment.scheduledDate b) = Some day ->
     (forall k a, appointments db !! k = Some a ->
        conflictWhere (CreateAppointment.userId b) day s
          (s + CreateAppointment.durationOf b * 60000) k a = false) ->
     (visitors db !! CreateAppointment.visitorId b = None ->
        run (createAppointment env b) db = (db, Failure 404 "Visitor not found")) /\
     (is_Some (visitors db !! CreateAppointment.visitorId b) ->
      users db !! CreateAppointment.userId b = None ->
        run (createAppointment env b) db = (db, Failure 404 "User not found"))).
Proof.
  split_and!.
  - intros Hs. unfold createAppointment. open_handler. by rewrite Hs.
  - intros Hs Hdates. unfold createAppointment, validDate. open_handler. rewrite Hs. simpl.
    destruct (parseDate (_ +:+ _)) as [s|]; simpl; [|done].
    destruct Hdates as [Hd|Hd]; [done|]. by rewrite Hd.
  - intros s day Hs Hstart Hday Hfree.
    assert (Hnone : findMany (conflictWhere (CreateAppointment.userId b) day s
                      (s + CreateAppointment.durationOf b * 60000)) (appointments db) = []).
    { destruct (findMany _ _) as [|[k a] l] eqn:E; [done|].
      assert (Hin : In (k, a) (findMany (conflictWhere (CreateAppointment.userId b) day s
                 (s + CreateAppointment.durationOf b * 60000)) (appointments db)))
        by (rewrite E; by left).
      apply findMany_In in Hin as [Hka Hc]. by rewrite (Hfree k a Hka) in Hc. }
    split.
    + intros Hv. unfold createAppointment, appointment_findMany, validDate. open_handler.
      rewrite Hs, Hstart, Hday. simpl. rewrite Hnone. simpl. by rewrite Hv.
    + intros [v Hv] Hu. unfold createAppointment, appointment_findMany, validDate.
      open_handler. rewrite Hs, Hstart, Hday. simpl. rewrite Hnone. simpl.
      rewrite Hv. simpl. by rewrite Hu.
Qed.

Lemma checkAssignee_missing u db :
  truthy u = true -> users db !! u = None ->
  checkAssignee (Value u) db = (db, Return 404 "Assigned user not found").
Proof. intros Ht Hu. unfold checkAssignee. rewrite Ht. open_handler. by rewrite Hu. Qed.

(** X20: what the handler of the issue update is refused for.  Called
    without a route context, which is how [withAuth] calls it for a caller
    it admits, [updateIssue] answers 500 and writes nothing, whatever the
    body.  Handed the context of the route, it answers 400 for a body out of
    the schema, 404 for an issue that does not exist, 404 for an assignee,
    named by a non-empty string, that is not registered, 500 for a date
    entry that the store refuses and 500 for an assignee named by the empty
    string, which the handler does not look up and the store refuses; none
    of these writes.  The [resolvedDate] of the body is not what reaches the
    store when the body has a status outside RESOLVED and CLOSED, or a status
    among them on an issue without resolved date: such an update is never
    refused for its [resolvedDate]. *)
Theorem put_issue_refusals env id b db :
  (forall context,
     run (admitted (fun context => updateIssue env context b) context) db
       = (db, Failure 500 "Internal server error")) /\
  (UpdateIssue.schema b = false ->
     run (updateIssue env (Some (mkRouteParams id)) b) db
       = (db, Failure 400 "Validation failed")) /\
  (UpdateIssue.schema b = true -> issues db !! id = None ->
     run (updateIssue env (Some (mkRouteParams id)) b) db
       = (db, Failure 404 "Issue not found")) /\
  (forall i u, UpdateIssue.schema b = true -> issues db !! id = Some i ->
     UpdateIssue.assignedUserId b = Value u -> truthy u = true -> users db !! u = None ->
     run (updateIssue env (Some (mkRouteParams id)) b) db
       = (db, Failure 404 "Assigned user not found")) /\
  (forall i, UpdateIssue.schema b = true -> issues db !! id = Some i ->
     (forall u, UpdateIssue.assignedUserId b = Value u -> truthy u = true ->
        is_Some (users db !! u)) ->
     accepted (dateEntry (UpdateIssue.dueDate b)) = false \/
     accepted (resolvedDateEntry env b i) = false ->
     run (updateIssue env (Some (mkRouteParams id)) b) db
       = (db, Failure 500 "Internal server error")) /\
  (forall i, UpdateIssue.schema b = true -> issues db !! id = Some i ->
     UpdateIssue.assignedUserId b = Value "" -> users db !! "" = None ->
     run (updateIssue env (Some (mkRouteParams id)) b) db
       = (db, Failure 500 "Internal server error")) /\
  (forall i s, UpdateIssue.status b = Some s ->
     isResolvedOrClosed s = false \/ resolvedDate i = None ->
     accepted (resolvedDateEntry env b i) = true).
Proof.
  split_and!.
  - done.
  - intros Hs. unfold updateIssue. open_handler. by rewrite Hs.
  - intros Hs Hi. unfold updateIssue. open_handler. by rewrite Hs, Hi.
  - intros i u Hs Hi Hb Ht Hu. unfold run, updateIssue.
    rewrite (bind_next _ _ db db id) by done.
    rewrite (bind_next _ _ db db tt) by (unfold validate; by rewrite Hs).
    rewrite (bind_next _ _ db db (Some i))
      by (unfold issue_findUnique; open_handler; by rewrite Hi).
    rewrite (bind_next _ _ db db i) by done.
    rewrite (bind_return _ _ db db 404 "Assigned user not found"); [done|].
    rewrite Hb. by apply checkAssignee_missing.
  - intros i Hs Hi Hassignee Hdates. unfold run, updateIssue.
    rewrite (bind_next _ _ db db id) by done.
    rewrite (bind_next _ _ db db tt) by (unfold validate; by rewrite Hs).
    rewrite (bind_next _ _ db db (Some i))
      by (unfold issue_findUnique; open_handler; by rewrite Hi).
    rewrite (bind_next _ _ db db i) by done.
    rewrite (bind_next _ _ db db tt) by by apply checkAssignee_found.
    rewrite (bind_return _ _ db db 500 "Internal server error"); [done|].
    destruct Hdates as [-> | ->]; [done|]. by rewrite andb_false_r.
  - intros i Hs Hi Hb Hu. unfold run, updateIssue.
    rewrite (bind_next _ _ db db id) by done.
    rewrite (bind_next _ _ db db tt) by (unfold validate; by rewrite Hs).
    rewrite (bind_next _ _ db db (Some i))
      by (unfold issue_findUnique; open_handler; by rewrite Hi).
    rewrite (bind_next _ _ db db i) by done.
    rewrite (bind_next _ _ db db tt) by by rewrite Hb.
    destruct (accepted (dateEntry (UpdateIssue.dueDate b)) &&
              accepted (resolvedDateEntry env b i)).
    + rewrite (bind_next _ _ db db tt) by done.
      rewrite Hb. unfold issue_update. open_handler. rewrite Hi. simpl. by rewrite Hu.
    + by rewrite (bind_return _ _ db db 500 "Internal server error").
  - intros i s Hst Hcase. unfold resolvedDateEntry, autoClear, autoSet. rewrite Hst.
    destruct (isResolvedOrClosed s); [|done].
    destruct Hcase as [Hcase| ->]; done.
Qed.

End Refusals.

(** ** The completed visits of the queue *)

Section QueueCompleted.
Context {host : JsDate}.

Lemma completedWhere_true today tomorrow userId k v :
  Queue.completedWhere today tomorrow userId k v = true <->
  vStatus v = VisitStatus.COMPLETED /\ today <= checkInTime v < tomorrow /\
  Queue.forUser userId v = true.
Proof.
  unfold Queue.completedWhere.
  rewrite !andb_true_iff, VisitStatus_eqb_eq, Z.leb_le, Z.ltb_lt. tauto.
Qed.

Lemma fold_addDuration_nonneg rows acc :
  (forall r out, In r rows -> checkOutTime (Queue.visit r) = Some out ->
     Queue.checkInTimeOf r <= out) ->
  0 <= acc -> 0 <= fold_left Queue.addDuration rows acc.
Proof.
  revert acc. induction rows as [|r rows IH]; intros acc Hout Hacc; simpl; [done|].
  apply IH; [intros r' out Hr'; apply Hout; by right|].
  unfold Queue.addDuration. destruct (checkOutTime (Queue.visit r)) as [out|] eqn:E; [|done].
  pose proof (Hout r out (or_introl eq_refl) E). lia.
Qed.

Lemma average_nonneg total n : 0 <= total -> (0 < n)%nat -> Qle 0 (Queue.average total n).
Proof.
  intros Ht Hn. unfold Queue.average.
  apply Qle_shift_div_l; [reflexivity|]. rewrite Qmult_0_l.
  apply Qle_shift_div_l.
  - unfold Qlt. simpl. lia.
  - rewrite Qmult_0_l. unfold Qle. simpl. lia.
Qed.

(** X18: the completed visits of the queue view.  GET /api/queue lists as
    completed today the COMPLETED visits checked in from the start of the
    host's day to the start of the next one, those of the staff user only
    when the request gives a non-empty [userId] and those of every staff
    user otherwise, without their appointment, the later check-out first; a
    visit is never listed both as active and as completed; the two totals
    are the lengths of the two lists; and the average visit duration is 0
    when no visit is listed and is not negative when no listed visit was
    checked out before it was checked in. *)
Theorem queue_completed_today env userId db :
  exists p,
    run (Queue.getQueueStatus env userId) db = (db, Success p) /\
    (forall r, In r (Queue.completedVisitsToday p) <->
       exists k v, visits db !! k = Some v /\
         vStatus v = VisitStatus.COMPLETED /\
         startOfDay (now env) <= checkInTime v < nextDay (startOfDay (now env)) /\
         (forall u, userId = Some u -> u <> "" -> vUserId v = u) /\
         r = Queue.mkVisitRow k v None) /\
    StronglySorted
      (fun a b =>
         match checkOutTime (Queue.visit a), checkOutTime (Queue.visit b) with
         | Some x, Some y => y <= x
         | None, Some _ => False
         | _, _ => True
         end)
      (Queue.completedVisitsToday p) /\
    (forall r r', In r (Queue.activeVisits p) -> In r' (Queue.completedVisitsToday p) ->
       Queue.id r <> Queue.id r') /\
    Queue.totalActive (Queue.queueStats p) = length (Queue.activeVisits p) /\
    Queue.totalCompletedToday (Queue.queueStats p) = length (Queue.completedVisitsToday p) /\
    (Queue.completedVisitsToday p = [] ->
       Queue.averageVisitDuration (Queue.queueStats p) = 0%Q) /\
    ((forall r out, In r (Queue.completedVisitsToday p) ->
        checkOutTime (Queue.visit r) = Some out -> Queue.checkInTimeOf r <= out) ->
     Qle 0 (Queue.averageVisitDuration (Queue.queueStats p))).
Proof.
  eexists. split; [reflexivity|]. simpl.
  set (completed := sort Queue.byCheckOutTimeDesc _).
  assert (Hcompleted : forall r, In r completed <->
    exists k v, visits db !! k = Some v /\
      vStatus v = VisitStatus.COMPLETED /\
      startOfDay (now env) <= checkInTime v < nextDay (startOfDay (now env)) /\
      (forall u, userId = Some u -> u <> "" -> vUserId v = u) /\
      r = Queue.mkVisitRow k v None).
  { intros r. unfold completed. rewrite sort_In, <- list_elem_of_In, list_elem_of_fmap. split.
    - intros ([k v] & -> & Hin). apply list_elem_of_In, findMany_In in Hin as [Hkv Hc].
      apply completedWhere_true in Hc as (Hs & Ht & Hu).
      pose proof (proj1 (forUser_true userId v) Hu) as Hu'. exists k, v. done.
    - intros (k & v & Hkv & Hs & Ht & Hu & ->). exists (k, v). split; [done|].
      pose proof (proj2 (forUser_true userId v) Hu) as Hu'.
      apply list_elem_of_In, findMany_In. split; [done|]. by apply completedWhere_true. }
  split_and!.
  - exact Hcompleted.
  - eapply StronglySorted_weaken; [|apply sort_sorted].
    + intros a b. unfold ordered, Queue.byCheckOutTimeDesc.
      destruct (checkOutTime (Queue.visit a)), (checkOutTime (Queue.visit b)); lia.
    + intros a b. unfold ordered, Queue.byCheckOutTimeDesc.
      destruct (checkOutTime (Queue.visit a)), (checkOutTime (Queue.visit b)); lia.
    + intros a b c. unfold ordered, Queue.byCheckOutTimeDesc.
      destruct (checkOutTime (Queue.visit a)), (checkOutTime (Queue.visit b)),
        (checkOutTime (Queue.visit c)); lia.
  - intros r r' Hr Hr' Hid.
    apply sort_In, sort_In in Hr.
    apply list_elem_of_In, list_elem_of_fmap in Hr as ([k v] & -> & Hin).
    apply list_elem_of_In, findMany_In in Hin as [Hkv Hc].
    apply activeWhere_true in Hc as [Hs _].
    apply Hcompleted in Hr' as (k' & v' & Hkv' & Hs' & _ & _ & ->). simpl in Hid. subst k'.
    rewrite Hkv in Hkv'. injection Hkv' as <-. by rewrite Hs in Hs'.
  - by rewrite !sort_length.
  - done.
  - intros Hnil. unfold Queue.averageOver. by rewrite Hnil.
  - intros Hout. unfold Queue.averageOver.
    destruct (Z.ltb_spec 0 (Z.of_nat (length completed))) as [Hn|_]; [|done].
    apply average_nonneg; [|lia]. by apply fold_addDuration_nonneg.
Qed.

End QueueCompleted.

(** ** At the front desk *)

(** A request without the header is answered 401. *)
Lemma serve_unauthenticated_witness :
  Api.serve (host := Utc.utc) (auth := Desk.tokens) Office.noon (Api.DELETE_visit "visit1")
    None Office.booked = (Office.booked, 401).
Proof.
  apply (proj1 (serve_unauthenticated (host := Utc.utc) (auth := Desk.tokens) Office.noon
                  (Api.DELETE_visit "visit1") None Office.booked)).
  vm_compute. reflexivity.
Defined.

(** The guest is refused the deletion of a visit, and so is the staff
    user, whose role lets them write but not delete. *)
Lemma serve_role_gate_witness :
  Api.serve (host := Utc.utc) (auth := Desk.tokens) Office.noon (Api.DELETE_visit "visit1")
    (Some "Bearer t-guest") Office.booked = (Office.booked, 403) /\
  Api.serve (host := Utc.utc) (auth := Desk.tokens) Office.noon (Api.DELETE_visit "visit1")
    (Some "Bearer t-staff") Office.booked = (Office.booked, 403).
Proof.
  split.
  - apply (proj1 (proj2 (proj2 (serve_role_gate (host := Utc.utc) (auth := Desk.tokens)
                    Office.noon (Api.DELETE_visit "visit1") (Some "Bearer t-guest")
                    Office.booked)))
             (mkAuthUser "g1" "g1@office.example" "GUEST"));
      vm_compute; reflexivity.
  - apply (proj2 (proj2 (proj2 (serve_role_gate (host := Utc.utc) (auth := Desk.tokens)
                    Office.noon (Api.DELETE_visit "visit1") (Some "Bearer t-staff")
                    Office.booked)))
             (mkAuthUser "s1" "s1@office.example" UserRole.STAFF));
      vm_compute; reflexivity.
Defined.

(** The staff user closes the visit that is in progress through the visit
    update: the answer is 500 and the visit stays as it was. *)
Lemma id_routes_not_served_witness :
  Api.serve (host := Utc.utc) (auth := Desk.tokens) Office.noon
    (Api.PUT_visit "visit1" (Office.setStatus VisitStatus.COMPLETED))
    (Some "Bearer t-staff") Office.booked = (Office.booked, 500).
Proof.
  apply (proj2 (id_routes_not_served (host := Utc.utc) (auth := Desk.tokens) Office.noon
                  (Api.PUT_visit "visit1" (Office.setStatus VisitStatus.COMPLETED))
                  (Some "Bearer t-staff") Office.booked eq_refl)
           (mkAuthUser "s1" "s1@office.example" UserRole.STAFF));
    vm_compute; reflexivity.
Defined.

(** Moving an appointment that does not exist writes nothing. *)
Lemma failed_request_writes_nothing_witness :
  (run (updateAppointment (host := Utc.utc) (Some (mkRouteParams "a9")) (Desk.moveTo "10:15"))
     Office.booked).1 = Office.booked.
Proof.
  apply (proj1 (proj2 (failed_request_writes_nothing (host := Utc.utc) Office.noon
                  (Some (mkRouteParams "a9")) Office.booked
                  (run (updateAppointment (host := Utc.utc) (Some (mkRouteParams "a9"))
                          (Desk.moveTo "10:15")) Office.booked).1
                  404 "Appointment not found")) (Desk.moveTo "10:15")).
  vm_compute. reflexivity.
Defined.

(** The visitor with the appointment at 10:00 is checked in through the
    queue: the visit is in progress and the appointment is CONFIRMED. *)
Lemma check_in_success_witness :
  exists db' v,
    run (checkInVisitor (mkEnv 1704880500000 1704880500001 "visit1")
           (CheckIn.mkBody "v1" "s1" (Some "a1") None None)) Desk.twoBooked
      = (db', Success ("visit1", v)) /\
    vStatus v = VisitStatus.IN_PROGRESS /\ appointmentId v = Some "a1" /\
    checkInTime v = 1704880500000 /\
    aStatus <$> appointments db' !! "a1" = Some AppointmentStatus.CONFIRMED /\
    visitCount <$> visitors db' !! "v1" = Some 1.
Proof.
  assert (Hres : resolves (CheckIn.mkBody "v1" "s1" (Some "a1") None None) Desk.twoBooked).
  { split_and!; [vm_compute; reflexivity | vm_compute; eauto | vm_compute; eauto |].
    intros id [= <-] _. vm_compute. eauto. }
  assert (Hx : visitors Desk.twoBooked !! "v1" = Some (mkVisitor "Asha" 0 None))
    by (vm_compute; reflexivity).
  assert (Hnone : forall k v, visits Desk.twoBooked !! k = Some v ->
            vVisitorId v = "v1" -> vStatus v <> VisitStatus.IN_PROGRESS).
  { intros k v Hk. simpl in Hk. rewrite lookup_empty in Hk. discriminate Hk. }
  destruct (check_in_success (mkEnv 1704880500000 1704880500001 "visit1")
              (CheckIn.mkBody "v1" "s1" (Some "a1") None None) Desk.twoBooked
              (mkVisitor "Asha" 0 None) Hres ltac:(discriminate) Hx Hnone eq_refl
              checkInVisitor AppointmentStatus.CONFIRMED (or_intror (conj eq_refl eq_refl)))
    as (db' & v & Hrun & Hv & _ & Hvisitors & (a & Ha & Happ) & _).
  exists db', v. split; [exact Hrun|]. subst v. split_and!; try reflexivity.
  - rewrite Happ. simpl. rewrite lookup_insert_eq. reflexivity.
  - rewrite Hvisitors. simpl. rewrite lookup_insert_eq. reflexivity.
Defined.

(** The visitor who is in checks out at noon. *)
Lemma check_out_success_witness :
  exists db' w,
    run (checkOutVisitor Office.noon (Office.checkOut "visit1")) Office.booked
      = (db', Success w) /\
    vStatus w = VisitStatus.COMPLETED /\ checkOutTime w = Some (now Office.noon).
Proof.
  destruct (check_out_success Office.noon (Office.checkOut "visit1") Office.booked
              Desk.inProgress)
    as (db' & w & Hrun & _ & _ & _ & Hst & Hout & _);
    [vm_compute; reflexivity | vm_compute; reflexivity | vm_compute; reflexivity | |].
  - intros id Hid. discriminate Hid.
  - exists db', w. split_and!; [exact Hrun | exact Hst | exact Hout].
Defined.

(** The visit of the visitor who is in is cancelled at noon. *)
Lemma cancel_visit_witness :
  exists db' w,
    run (cancelVisit Office.noon (Office.checkOut "visit1")) Office.booked
      = (db', Success w) /\
    vStatus w = VisitStatus.CANCELLED.
Proof.
  destruct (cancel_visit Office.noon (Office.checkOut "visit1") Office.booked)
    as (_ & _ & Hcancel); [vm_compute; reflexivity|].
  destruct (Hcancel Desk.inProgress) as (db' & w & Hrun & _ & _ & Hst & _);
    [vm_compute; reflexivity | vm_compute; reflexivity | |].
  - intros id Hid. discriminate Hid.
  - exists db', w. split; [exact Hrun | exact Hst].
Defined.

(** The visitor checks out at noon and is checked in again with staff user
    s2. *)
Lemma check_in_after_check_out_witness :
  let db1 := (run (checkOutVisitor Office.noon (Office.checkOut "visit1")) Office.booked).1 in
  exists db2 w,
    run (checkInVisitor (mkEnv 1704890000000 1704890000001 "visit2") (Office.checkIn "s2")) db1
      = (db2, Success ("visit2", w)) /\
    vStatus w = VisitStatus.IN_PROGRESS /\ checkInTime w = 1704890000000.
Proof.
  assert (Hsingle : singleActive Office.booked).
  { intros i j v w Hi Hj _ _ _. simpl in Hi, Hj.
    apply lookup_singleton_Some in Hi as [<- _].
    apply lookup_singleton_Some in Hj as [<- _]. reflexivity. }
  assert (Hres : resolves (Office.checkIn "s2") Office.booked).
  { split_and!; [vm_compute; reflexivity | vm_compute; eauto | vm_compute; eauto |].
    intros id Hid. discriminate Hid. }
  destruct (check_in_after_check_out Office.noon (Office.checkOut "visit1") Office.booked
              Desk.inProgress (mkEnv 1704890000000 1704890000001 "visit2")
              (Office.checkIn "s2") Hsingle)
    as (_ & Hin);
    [vm_compute; reflexivity | vm_compute; reflexivity | vm_compute; reflexivity
    | intros id Hid; discriminate Hid | vm_compute; reflexivity | exact Hres
    | discriminate | vm_compute; reflexivity |].
  destruct (Hin checkInVisitor (or_intror eq_refl)) as (db2 & w & Hrun & _ & _ & Hst & Ht).
  exists db2, w. split_and!; [exact Hrun | exact Hst | exact Ht].
Defined.

(** A visit set to CANCELLED by the handler of the visit update gets no
    check-out time; without the route context the handler answers 500. *)
Lemma put_visit_witness :
  (exists w,
     run (updateVisit Office.noon (Some (mkRouteParams "visit1"))
            (Office.setStatus VisitStatus.CANCELLED))
       Office.booked = (set_visits <["visit1" := w]> Office.booked, Success w) /\
     vStatus w = VisitStatus.CANCELLED /\ checkOutTime w = None) /\
  run (admitted (fun context =>
                   updateVisit Office.noon context (Office.setStatus VisitStatus.CANCELLED))
         (Some (mkRouteParams "visit1")))
    Office.booked = (Office.booked, Failure 500 "Internal server error").
Proof.
  destruct (put_visit Office.noon "visit1" (Office.setStatus VisitStatus.CANCELLED)
              Office.booked) as (Hserved & _ & _ & Hput).
  split; [|apply Hserved].
  destruct (Hput Desk.inProgress) as (w & Hrun & _ & Hst & Hout);
    [vm_compute; reflexivity | vm_compute; reflexivity |].
  exists w. split_and!; [exact Hrun | exact Hst |].
  rewrite Hout. case_bool_decide as Hd; [|reflexivity].
  destruct Hd as [Hd _]. discriminate Hd.
Defined.

(** The counters of the empty office cover its visits, and still do after
    the first check-in. *)
Lemma visit_count_covers_witness :
  countsVisits (exec (mkEnv 1000 1001 "visit1") (PostVisits (Office.checkIn "s1")) Office.db0).
Proof.
  apply (visit_count_covers (mkEnv 1000 1001 "visit1") (PostVisits (Office.checkIn "s1"))
           Office.db0).
  intros x. unfold visitsOf, findMany, rows. simpl.
  rewrite map_to_list_empty. simpl.
  destruct ({[ "v1" := mkVisitor "Asha" 0 None ]} !! x) as [v|] eqn:E; [|lia].
  apply lookup_singleton_Some in E as [_ <-]. simpl. lia.
Defined.

(** The schedule of the office stays sound when 10:30 is booked. *)
Lemma schedule_stays_free_witness :
  let db' := (run (createAppointment (host := Utc.utc) (mkEnv 0 0 "a2")
                     (Office.request "10:30")) Office.booked).1 in
  allWellFormed db' /\ noDoubleBooking db'.
Proof.
  assert (Hall : allWellFormed Office.booked).
  { intros i a Hi. simpl in Hi. apply lookup_singleton_Some in Hi as [_ <-].
    split; reflexivity. }
  assert (Hno : noDoubleBooking Office.booked).
  { intros i j a b Hi Hj Hij. simpl in Hi, Hj.
    apply lookup_singleton_Some in Hi as [<- _].
    apply lookup_singleton_Some in Hj as [<- _]. destruct Hij. reflexivity. }
  apply (proj1 (schedule_stays_free (host := Utc.utc) (mkEnv 0 0 "a2") (Office.request "10:30")
                  (Some (mkRouteParams "a1")) (Desk.moveTo "10:15") Office.booked Hall Hno)).
Defined.

(** Handed the context of the route, the handler moves the appointment at
    10:00 to 10:15, over its own old interval. *)
Lemma reschedule_checks_others_witness :
  exists r,
    run (updateAppointment (host := Utc.utc) (Some (mkRouteParams "a1")) (Desk.moveTo "10:15"))
      Office.booked = (set_appointments <["a1" := r]> Office.booked, Success r) /\
    startTime r = 1704881700000 /\ endTime r = 1704883500000.
Proof.
  destruct (reschedule_checks_others (host := Utc.utc) "a1" (Desk.moveTo "10:15")
              Office.booked (Office.atTen AppointmentStatus.PENDING)
              1704844800000 1704881700000)
    as [_ [[(k & a' & Hne & Hk & _) _]|(_ & Hrun & _ & Hs & He)]];
    [vm_compute; reflexivity | vm_compute; reflexivity | intros u Hu; discriminate Hu
    | vm_compute; reflexivity.. | |].
  - simpl in Hk. apply lookup_singleton_Some in Hk as [Hk _]. destruct Hne. by symmetry.
  - eexists. split_and!; [exact Hrun | exact Hs | exact He].
Defined.

(** Handed the context of the route, the handler gives the appointment of
    staff user s2 at 10:00 to staff user s1, who has one at 10:00; a staff
    user who is not registered is refused by the store. *)
Lemma update_without_times_witness :
  (exists r,
     run (updateAppointment (host := Utc.utc) (Some (mkRouteParams "a2")) (Desk.reassign "s1"))
       Desk.twoBooked = (set_appointments <["a2" := r]> Desk.twoBooked, Success r) /\
     aUserId r = "s1" /\ startTime r = startTime (Office.atTen AppointmentStatus.PENDING)) /\
  run (updateAppointment (host := Utc.utc) (Some (mkRouteParams "a2")) (Desk.reassign "s9"))
    Desk.twoBooked = (Desk.twoBooked, Failure 500 "Internal server error").
Proof.
  split.
  - destruct (update_without_times (host := Utc.utc) "a2" (Desk.reassign "s1") Desk.twoBooked
                (mkAppointment "Flood relief" "v2" "s2" 1704844800000 1704880800000
                   1704882600000 30 AppointmentStatus.CONFIRMED Priority.NORMAL))
      as (Hok & _);
      [vm_compute; reflexivity | vm_compute; reflexivity | vm_compute; reflexivity |].
    destruct Hok as (r & Hrun & _ & _ & Hs & _ & Hu & _);
      [intros u [= <-]; vm_compute; eauto|].
    exists r. split_and!; [exact Hrun | exact Hu | exact Hs].
  - destruct (update_without_times (host := Utc.utc) "a2" (Desk.reassign "s9") Desk.twoBooked
                (mkAppointment "Flood relief" "v2" "s2" 1704844800000 1704880800000
                   1704882600000 30 AppointmentStatus.CONFIRMED Priority.NORMAL))
      as (_ & Hrefused & _);
      [vm_compute; reflexivity | vm_compute; reflexivity | vm_compute; reflexivity |].
    apply (Hrefused "s9"); vm_compute; reflexivity.
Defined.


(** The visit of the visitor who is in is deleted by the handler handed the
    context of the route; without it the visit stays. *)
Lemma deleted_visit_is_gone_witness :
  (exists db',
     run (deleteVisit (Some (mkRouteParams "visit1"))) Office.booked = (db', Success tt) /\
     run (getVisit (Some (mkRouteParams "visit1"))) db'
       = (db', Failure 404 "Visit not found") /\
     visitors db' = visitors Office.booked) /\
  run (admitted deleteVisit (Some (mkRouteParams "visit1"))) Office.booked
    = (Office.booked, Failure 500 "Internal server error").
Proof.
  destruct (deleted_visit_is_gone "visit1" Office.booked Desk.inProgress)
    as ((db' & Hrun & _ & Hget & _ & _ & _ & Hvisitors) & Hserved);
    [vm_compute; reflexivity|].
  split; [|apply Hserved].
  exists db'. split_and!; [exact Hrun | exact Hget | exact Hvisitors].
Defined.

(** The host in UTC reads the slot strings of the day of the office. *)
Lemma office_slots_read k a hour minute :
  appointments Office.booked !! k = Some a ->
  In hour Calendar.hours -> In minute Calendar.minutes ->
  is_Some (Utc.parse (Calendar.slotString (Utc.format (scheduledDate a)) hour minute)).
Proof.
  intros Hka Hhour Hminute. simpl in Hka.
  apply lookup_singleton_Some in Hka as [_ <-].
  cbv in Hhour, Hminute.
  repeat (destruct Hhour as [<- | Hhour];
    [repeat (destruct Hminute as [<- | Hminute]; [vm_compute; eauto|]); destruct Hminute|]).
  destruct Hhour.
Defined.

(** The calendar of the office for 2024-01-10. *)
Lemma calendar_days_witness :
  exists p,
    run (Calendar.getCalendarAppointments (host := Utc.utc)
           (Some "2024-01-10") (Some "2024-01-10") (Some "s1")) Office.booked
      = (Office.booked, Success p) /\
    List.NoDup (Calendar.keys (Calendar.appointmentsByDate p)) /\
    (Calendar.availableSlots p).*1 = Calendar.keys (Calendar.appointmentsByDate p).
Proof.
  assert (Hday0 : Utc.parse "2024-01-10" = Some 1704844800000) by (vm_compute; reflexivity).
  destruct (calendar_days (host := Utc.utc) (Some "2024-01-10") (Some "2024-01-10") (Some "s1")
              Office.booked 1704844800000 1704844800000 eq_refl eq_refl Hday0 Hday0
              office_slots_read)
    as (p & Hrun & _ & Hkeys & _ & Hslots & _).
  exists p. split_and!; [exact Hrun | exact Hkeys | exact Hslots].
Defined.

Lemma calendar_statistics_witness :
  exists p,
    run (Calendar.getCalendarAppointments (host := Utc.utc)
           (Some "2024-01-10") (Some "2024-01-10") (Some "s1")) Office.booked
      = (Office.booked, Success p) /\
    sum_list (CalendarStats.totalAppointments
                <$> CalendarStats.dailyStats (Calendar.appointmentsByDate p))
      = length (Calendar.appointments p) /\
    (CalendarStats.uniqueUsers (CalendarStats.summary (Calendar.appointments p)) <= 1)%nat.
Proof.
  assert (Hday0 : Utc.parse "2024-01-10" = Some 1704844800000) by (vm_compute; reflexivity).
  destruct (calendar_statistics (host := Utc.utc) (Some "2024-01-10") (Some "2024-01-10")
              (Some "s1") Office.booked 1704844800000 1704844800000 eq_refl eq_refl
              Hday0 Hday0 office_slots_read)
    as (p & Hrun & Hsum & _ & _ & _ & _ & Hone).
  exists p. split_and!; [exact Hrun | exact Hsum |].
  apply (Hone "s1"); reflexivity.
Defined.

(** The action is compared letter by letter, and a check-in without keys is
    not valid. *)
Lemma queue_action_dispatch_witness :
  run (queueAction Office.noon (Some "CheckIn") Desk.noKeys) Office.booked
    = (Office.booked, Failure 400 "Invalid action") /\
  run (queueAction Office.noon (Some "checkin") Desk.noKeys) Office.booked
    = (Office.booked, Failure 400 "Validation failed").
Proof.
  split.
  - apply (proj2 (proj2 (proj2 (queue_action_dispatch Office.noon (Some "CheckIn") Desk.noKeys
                                  Office.booked)))); discriminate.
  - apply (proj1 (queue_action_dispatch Office.noon (Some "checkin") Desk.noKeys
                    Office.booked) eq_refl).
Defined.

(** At noon, the queue view of staff user s1 lists the two visits of the
    day that are over for s1, the later check-out first, and neither the
    visit of staff user s2 nor the visit of the day before. *)
Lemma queue_completed_today_witness :
  exists p,
    run (Queue.getQueueStatus (host := Utc.utc) Office.noon (Some "s1")) Office.closed
      = (Office.closed, Success p) /\
    Queue.id <$> Queue.completedVisitsToday p = ["c1"; "c4"] /\
    (forall r, In r (Queue.completedVisitsToday p) -> vUserId (Queue.visit r) = "s1") /\
    Queue.totalActive (Queue.queueStats p) = 0%nat /\
    Queue.totalCompletedToday (Queue.queueStats p) = 2%nat /\
    Qle 0 (Queue.averageVisitDuration (Queue.queueStats p)).
Proof.
  destruct (queue_completed_today (host := Utc.utc) Office.noon (Some "s1") Office.closed)
    as (p & Hrun & Hin & _ & _ & Hactive & Hdone & _ & Havg).
  assert (Hrun' : exists q,
            run (Queue.getQueueStatus (host := Utc.utc) Office.noon (Some "s1")) Office.closed
              = (Office.closed, Success q) /\
            Queue.activeVisits q = [] /\
            Queue.completedVisitsToday q =
              [Queue.mkVisitRow "c1"
                 (mkVisit "v1" "s1" None 1704880800000 (Some 1704882600000)
                    VisitStatus.COMPLETED None None None) None;
               Queue.mkVisitRow "c4"
                 (mkVisit "v1" "s1" None 1704873600000 (Some 1704874500000)
                    VisitStatus.COMPLETED None None None) None])
    by (eexists; split_and!; vm_compute; reflexivity).
  destruct Hrun' as (q & Hq & Ha & Hc). rewrite Hq in Hrun. injection Hrun as <-.
  exists q. split_and!; [exact Hq | | | | |].
  - rewrite Hc. reflexivity.
  - intros r Hr. apply Hin in Hr as (k & v & _ & _ & _ & Hu & ->). simpl.
    apply (Hu "s1"); [reflexivity | discriminate].
  - rewrite Hactive, Ha. reflexivity.
  - rewrite Hdone, Hc. reflexivity.
  - apply Havg. rewrite Hc. intros r out [<-|[<-|[]]]; simpl; intros [= <-];
      vm_compute; discriminate.
Defined.

(** A request for a visitor who is not registered, and one for a time that
    the host does not read. *)
Lemma schedule_refusals_witness :
  run (createAppointment (host := Utc.utc) (mkEnv 0 0 "a2") (Desk.requestFor "v9" "11:00"))
    Office.booked = (Office.booked, Failure 404 "Visitor not found") /\
  run (createAppointment (host := Utc.utc) (mkEnv 0 0 "a2") (Desk.requestFor "v1" "eleven"))
    Office.booked = (Office.booked, Failure 500 "Internal server error").
Proof.
  split.
  - destruct (schedule_refusals (host := Utc.utc) (mkEnv 0 0 "a2")
                (Desk.requestFor "v9" "11:00") Office.booked) as (_ & _ & Hfree).
    destruct (Hfree 1704884400000 1704844800000) as [Hvisitor _];
      [vm_compute; reflexivity.. | |].
    + intros k a Hka. simpl in Hka. apply lookup_singleton_Some in Hka as [_ <-].
      vm_compute. reflexivity.
    + apply Hvisitor. vm_compute. reflexivity.
  - destruct (schedule_refusals (host := Utc.utc) (mkEnv 0 0 "a2")
                (Desk.requestFor "v1" "eleven") Office.booked) as (_ & Hdate & _).
    apply Hdate; [vm_compute; reflexivity | left; vm_compute; reflexivity].
Defined.

(** A resolved date that the host does not read is refused, unless the
    update reopens the issue; without the route context every update is
    answered 500. *)
Lemma put_issue_refusals_witness :
  run (updateIssue (host := Utc.utc) Office.noon (Some (mkRouteParams "i1"))
         (Office.setResolvedDate (Value "yesterday"))) Office.resolved
    = (Office.resolved, Failure 500 "Internal server error") /\
  accepted (resolvedDateEntry (host := Utc.utc) Office.noon
              (Desk.reopen (Value "yesterday"))
              (mkIssue "Road repair" "Potholes on the village road" Priority.HIGH
                 IssueStatus.RESOLVED None None (Some 1704844800000) None)) = true /\
  run (admitted (fun context =>
                   updateIssue (host := Utc.utc) Office.noon context
                     (Desk.reopen (Value "yesterday")))
         (Some (mkRouteParams "i1"))) Office.resolved
    = (Office.resolved, Failure 500 "Internal server error").
Proof.
  destruct (put_issue_refusals (host := Utc.utc) Office.noon "i1"
              (Office.setResolvedDate (Value "yesterday")) Office.resolved)
    as (_ & _ & _ & _ & Hdate & _).
  destruct (put_issue_refusals (host := Utc.utc) Office.noon "i1"
              (Desk.reopen (Value "yesterday")) Office.resolved)
    as (Hserved & _ & _ & _ & _ & _ & Hstatus).
  split_and!.
  - apply (Hdate (mkIssue "Road repair" "Potholes on the village road" Priority.HIGH
                    IssueStatus.RESOLVED None None (Some 1704844800000) None));
      [vm_compute; reflexivity | vm_compute; reflexivity
      | intros u Hu; discriminate Hu | right; vm_compute; reflexivity].
  - apply (Hstatus _ IssueStatus.IN_PROGRESS); [vm_compute; reflexivity | left; reflexivity].
  - apply Hserved.
Defined.
